(** * Notero (custom fork): HTML notes to Notion blocks

    A shallow embedding of the note conversion of the repository: the node
    classifier ([parse-node.ts]), the converter ([html-to-notion.ts]) and
    the batch builder of [sync-note-item.ts].

    The sources hold several revisions of the converter and two of the
    batch builder.  Each revision is a module here:
    - [TextOnly]: one paragraph with the text of the note;
    - [HtmlToNotion]: the synchronous converter that retags annotation
      paragraphs as quotes;
    - [NestedAnnotations]: the synchronous converter that builds callout,
      paragraph and divider as children of a paragraph;
    - [FlatAnnotations]: the asynchronous converter that returns those
      blocks flat, with the colour table and the placeholder blocks;
    - [SyncNoteItem] and [SyncNoteItemGrouped]: the batch builder without
      and with the sections by colour.
    The classifier, the rich-text builder, [trimRichText] and the parent
    and list assembly are the same in all of them and are modelled once.

    Conventions of the embedding.
    - A JavaScript string is a Rocq [string], one [ascii] per UTF-16 code
      unit; the model therefore covers the code units 0..255.
    - [undefined]/[null] is [None]; an optional object key is an [option].
    - An array is a [list]; indices handed to [slice] are integers ([Z])
      because the code uses negative ones.
    - A call that may throw is a function into [Outcome]; a function that
      has no failing path returns its value as it is.
    - Functions imported from modules outside the sources are the fields of
      the class [Collaborators]. *)

From Stdlib Require Import List String Ascii Bool Arith ZArith Lia.
Import ListNotations.

#[local] Set Warnings "-register-all".
Local Open Scope string_scope.
Local Open Scope list_scope.
Local Open Scope nat_scope.

(* ================================================================== *)
(** * JavaScript strings and arrays *)
(* ================================================================== *)

Module Js.

(** ** Arrays *)

(** [Array.prototype.slice(start, end)]: a negative index counts from the
    end, both indices are clamped to the array. *)
Definition clampIndex (len i : Z) : Z :=
  if (i <? 0)%Z then Z.max (len + i) 0 else Z.min i len.

Definition slice {A : Type} (start end_ : Z) (l : list A) : list A :=
  let len := Z.of_nat (List.length l) in
  let from := clampIndex len start in
  let to := clampIndex len end_ in
  firstn (Z.to_nat (to - from)) (skipn (Z.to_nat from) l).

(** [array.map(f).filter(Boolean)] where [f] gives an object or
    [undefined]: the defined results, in order. *)
Definition compactMap {A B : Type} (f : A -> option B) (l : list A) : list B :=
  flat_map (fun x => match f x with Some y => [y] | None => [] end) l.

(** ** Strings *)

Definition chars (s : string) : list ascii := list_ascii_of_string s.
Definition ofChars (l : list ascii) : string := string_of_list_ascii l.

(** The empty string is the only falsy string. *)
Definition truthy (s : string) : bool :=
  match s with EmptyString => false | String _ _ => true end.

(** [a || b] on possibly undefined strings. *)
Definition orElse (a : option string) (b : string) : string :=
  match a with
  | Some s => if truthy s then s else b
  | None => b
  end.

(** White space and line terminators of ECMAScript among the code units
    0..255: TAB, LF, VT, FF, CR, SP and NBSP. *)
Definition isWhiteSpace (c : ascii) : bool :=
  let n := nat_of_ascii c in
  ((9 <=? n) && (n <=? 13)) || (n =? 32) || (n =? 160).

Fixpoint trimStart (s : string) : string :=
  match s with
  | EmptyString => EmptyString
  | String c rest => if isWhiteSpace c then trimStart rest else s
  end.

Fixpoint trimEnd (s : string) : string :=
  match s with
  | EmptyString => EmptyString
  | String c rest =>
      match trimEnd rest with
      | EmptyString => if isWhiteSpace c then EmptyString else String c EmptyString
      | kept => String c kept
      end
  end.

Definition trim (s : string) : string := trimEnd (trimStart s).

(** [toLowerCase] on the code units 0..255: A-Z and the Latin-1 capitals
    (192..222 but the multiplication sign 215) move up by 32. *)
Definition lowerChar (c : ascii) : ascii :=
  let n := nat_of_ascii c in
  if ((65 <=? n) && (n <=? 90)) || ((192 <=? n) && (n <=? 222) && negb (n =? 215))
  then ascii_of_nat (n + 32) else c.

Fixpoint toLowerCase (s : string) : string :=
  match s with
  | EmptyString => EmptyString
  | String c rest => String (lowerChar c) (toLowerCase rest)
  end.

(** [toUpperCase] on the code units 0..255: a-z and the Latin-1 small
    letters (224..254 but the division sign 247) move down by 32, and the
    sharp s (223) becomes [SS].  The micro sign (181) and the y with
    diaeresis (255) have upper-case forms outside 0..255: a text that
    holds one of them is outside the model. *)
Definition upperChar (c : ascii) : ascii :=
  let n := nat_of_ascii c in
  if ((97 <=? n) && (n <=? 122)) || ((224 <=? n) && (n <=? 254) && negb (n =? 247))
  then ascii_of_nat (n - 32) else c.

Fixpoint toUpperCase (s : string) : string :=
  match s with
  | EmptyString => EmptyString
  | String c rest =>
      if nat_of_ascii c =? 223
      then String "S" (String "S" (toUpperCase rest))
      else String (upperChar c) (toUpperCase rest)
  end.

(** [String.prototype.slice(start, end)]. *)
Definition sliceString (start end_ : Z) (s : string) : string :=
  ofChars (slice start end_ (chars s)).

Definition startsWith (s pre : string) : bool := String.prefix pre s.

Fixpoint endsWith (s suffix : string) : bool :=
  if String.eqb s suffix then true
  else match s with
       | EmptyString => false
       | String _ rest => endsWith rest suffix
       end.

(** [s.split(/c/)] for a one-character pattern: the pieces between the
    occurrences of [c]; never empty (the empty string gives one empty
    piece). *)
Fixpoint splitOn (c : ascii) (s : string) : list string :=
  match s with
  | EmptyString => [EmptyString]
  | String d rest =>
      if Ascii.eqb c d then EmptyString :: splitOn c rest
      else match splitOn c rest with
           | piece :: pieces => String d piece :: pieces
           | [] => [String d EmptyString]
           end
  end.

(** [s.replace(pattern, replacement)] with a string pattern: the first
    occurrence only. *)
Fixpoint replaceFirst (pattern replacement s : string) : string :=
  if String.prefix pattern s
  then (replacement ++ substring (String.length pattern)
                                 (String.length s - String.length pattern) s)%string
  else match s with
       | EmptyString => EmptyString
       | String c rest => String c (replaceFirst pattern replacement rest)
       end.

Definition LF : string := String (ascii_of_nat 10) EmptyString.

(** [s.includes(pattern)] *)
Fixpoint includes (s pattern : string) : bool :=
  if String.prefix pattern s then true
  else match s with
       | EmptyString => false
       | String _ rest => includes rest pattern
       end.

End Js.

(* ================================================================== *)
(** * Notion request objects ([notion-types]) *)
(* ================================================================== *)

(** Inline annotations.  A key that is absent from the JavaScript object is
    [None]; object spread [{...a, ...b}] keeps [b]'s keys over [a]'s. *)
Record Annotations : Type := mkAnnotations {
  bold : option bool;
  italic : option bool;
  strikethrough : option bool;
  underline : option bool;
  code : option bool;
  color : option string
}.

Definition noAnnotations : Annotations :=
  mkAnnotations None None None None None None.

Definition codeAnnotation : Annotations :=
  mkAnnotations None None None None (Some true) None.

Definition over {A : Type} (base top : option A) : option A :=
  match top with Some _ => top | None => base end.

Definition spread (a b : Annotations) : Annotations :=
  mkAnnotations (over (bold a) (bold b)) (over (italic a) (italic b))
                (over (strikethrough a) (strikethrough b))
                (over (underline a) (underline b))
                (over (code a) (code b)) (over (color a) (color b)).

(** [{...options.annotations, ...annotations}] where the first may be
    undefined: the result is always an object. *)
Definition spreadOnto (base : option Annotations) (top : Annotations) : Annotations :=
  match base with
  | Some a => spread a top
  | None => top
  end.

(** One span of rich text: a text span [{text: {content, link?},
    annotations?}] or an equation span [{equation: {expression}}].  The
    optional [type] tag of a span is read nowhere and is left out. *)
Inductive RichTextItem : Type :=
| TextItem (content : string) (link : option string) (annotations : option Annotations)
| EquationItem (expression : string).

Definition RichText : Type := list RichTextItem.

Definition plainText (content : string) : RichTextItem := TextItem content None None.

(** ['text' in span] *)
Definition hasText (item : RichTextItem) : bool :=
  match item with TextItem _ _ _ => true | EquationItem _ => false end.

Inductive BlockType : Type :=
| paragraph | heading_1 | heading_2 | heading_3
| bulleted_list_item | numbered_list_item | quote | code_block | callout.

Definition blockTypeName (t : BlockType) : string :=
  match t with
  | paragraph => "paragraph"
  | heading_1 => "heading_1"
  | heading_2 => "heading_2"
  | heading_3 => "heading_3"
  | bulleted_list_item => "bulleted_list_item"
  | numbered_list_item => "numbered_list_item"
  | quote => "quote"
  | code_block => "code"
  | callout => "callout"
  end.

Definition BlockType_eqb (a b : BlockType) : bool :=
  String.eqb (blockTypeName a) (blockTypeName b).

(** A block request object.  [TextBlock typed k rt children color] is
    [{type?: k, [k]: {rich_text, children?, color?}}]; [typed] records
    whether the object carries the [type] key (object literals of the
    converter do, objects built with [keyValue] do not). *)
Inductive Block : Type :=
| TextBlock (typed : bool) (blockType : BlockType) (rich_text : RichText)
            (children : option (list Block)) (color : option string)
| DividerBlock
| ImageBlock (url : string).

(** [...(color && { color })]: the key is set for a non-empty colour only. *)
Definition colorKey (c : option string) : option string :=
  match c with
  | Some s => if Js.truthy s then Some s else None
  | None => None
  end.

(** [keyValue(blockType, {rich_text, ...(children && {children}),
    ...(color && {color})})] of [utils]: the object [{[blockType]: value}]. *)
Definition keyValue (blockType : BlockType) (rich_text : RichText)
           (children : option (list Block)) (c : option string) : Block :=
  TextBlock false blockType rich_text children (colorKey c).

(** [paragraphBlock] of [html-to-notion.ts] *)
Definition paragraphBlock (richText : RichText) : Block :=
  TextBlock false paragraph richText None None.

(* ================================================================== *)
(** * Trimming rich text *)
(* ================================================================== *)

(** The inner function [updateContent] of [trimRichText], applied to the
    span found at the index ([None] when the index is out of range). *)
Definition updateContent (richTextPart : option RichTextItem)
           (updater : string -> string) : RichText :=
  match richTextPart with
  | None => []
  | Some (EquationItem e) => [EquationItem e]
  | Some (TextItem content link annotations) =>
      let content' := updater content in
      if Js.truthy content' then [TextItem content' link annotations] else []
  end.

Definition trimRichText (richText : RichText) : RichText :=
  match List.length richText with
  | 0 => richText
  | 1 => updateContent (nth_error richText 0) Js.trim
  | _ =>
      let first := updateContent (nth_error richText 0) Js.trimStart in
      let middle := Js.slice 1 (-1) richText in
      let last := updateContent (nth_error richText (List.length richText - 1)) Js.trimEnd in
      first ++ middle ++ last
  end.

(* ================================================================== *)
(** * The DOM, as far as the converter reads it *)
(* ================================================================== *)

(** A parsed note is a tree of nodes; the converter only reads it.  An
    element exposes its upper-case [tagName], its [classList], its
    attributes and its [childNodes]. *)
Inductive Node : Type :=
| TextNode (data : string)
| CommentNode (data : string)
| ElementNode (element : Element)
with Element : Type :=
| mkElement (tagName : string) (classList : list string)
            (attributes : list (string * string)) (childNodes : list Node).

Definition Document : Type := Element.

Module Dom.

Definition tagName (e : Element) : string :=
  match e with mkElement t _ _ _ => t end.
Definition classList (e : Element) : list string :=
  match e with mkElement _ c _ _ => c end.
Definition attributes (e : Element) : list (string * string) :=
  match e with mkElement _ _ a _ => a end.
Definition childNodes (e : Element) : list Node :=
  match e with mkElement _ _ _ cs => cs end.

(** [classList.contains(name)] *)
Definition contains (classes : list string) (name : string) : bool :=
  existsb (String.eqb name) classes.

Definition hasClass (name : string) (e : Element) : bool :=
  contains (classList e) name.

Definition hasTag (name : string) (e : Element) : bool :=
  String.eqb (tagName e) name.

Fixpoint getAttribute (attrs : list (string * string)) (name : string) : option string :=
  match attrs with
  | [] => None
  | (k, v) :: rest => if String.eqb k name then Some v else getAttribute rest name
  end.

(** [element.children]: the child nodes that are elements. *)
Fixpoint elementsOf (nodes : list Node) : list Element :=
  match nodes with
  | [] => []
  | ElementNode e :: rest => e :: elementsOf rest
  | _ :: rest => elementsOf rest
  end.

Definition children (e : Element) : list Element := elementsOf (childNodes e).

(** [document.body]: the body element under the document element. *)
Definition body (doc : Element) : option Element :=
  find (fun e => String.eqb (tagName e) "BODY") (children doc).

(** [node.textContent]: the data of a text or comment node; for an element
    the concatenated text of its descendants, comments left out. *)
Fixpoint textContent (n : Node) : string :=
  match n with
  | TextNode data => data
  | CommentNode data => data
  | ElementNode (mkElement _ _ _ cs) =>
      (fix concatText (l : list Node) : string :=
         match l with
         | [] => EmptyString
         | CommentNode _ :: rest => concatText rest
         | c :: rest => (textContent c ++ concatText rest)%string
         end) cs
  end.

Definition elementText (e : Element) : string := textContent (ElementNode e).

(** Document-order search below a node.  [locate p n next] looks at [n]
    (whose next sibling is [next]) and then at its descendants, and returns
    the first element satisfying [p] together with that element's
    [nextSibling]. *)
Fixpoint locate (p : Element -> bool) (n : Node) (next : option Node)
  : option (Element * option Node) :=
  match n with
  | ElementNode e =>
      if p e then Some (e, next)
      else match e with
           | mkElement _ _ _ cs =>
               (fix inForest (l : list Node) : option (Element * option Node) :=
                  match l with
                  | [] => None
                  | c :: rest =>
                      match locate p c (hd_error rest) with
                      | Some found => Some found
                      | None => inForest rest
                      end
                  end) cs
           end
  | _ => None
  end.

Fixpoint locateIn (p : Element -> bool) (l : list Node) : option (Element * option Node) :=
  match l with
  | [] => None
  | c :: rest =>
      match locate p c (hd_error rest) with
      | Some found => Some found
      | None => locateIn p rest
      end
  end.

(** [element.querySelector(sel)]: the first descendant, in document order,
    that matches; the element itself is not a candidate. *)
Definition querySelector (p : Element -> bool) (e : Element) : option Element :=
  option_map fst (locateIn p (childNodes e)).

(** [element.querySelector(sel)?.nextSibling] *)
Definition nextSiblingOfFirst (p : Element -> bool) (e : Element) : option Node :=
  match locateIn p (childNodes e) with
  | Some (_, next) => next
  | None => None
  end.

(** All descendant elements in document order, each with its parent. *)
Fixpoint descendants (parent : Element) (n : Node) : list (Element * Element) :=
  match n with
  | ElementNode e =>
      (parent, e) ::
      match e with
      | mkElement _ _ _ cs =>
          (fix inForest (l : list Node) : list (Element * Element) :=
             match l with
             | [] => []
             | c :: rest => descendants e c ++ inForest rest
             end) cs
      end
  | _ => []
  end.

(** [element.getElementsByTagName(name)], each hit paired with its
    [parentElement]. *)
Definition getElementsByTagName (name : string) (e : Element) : list (Element * Element) :=
  filter (fun pe => hasTag name (snd pe))
         (flat_map (descendants e) (childNodes e)).

End Dom.

(* ================================================================== *)
(** * Options, results and the collaborators outside the sources *)
(* ================================================================== *)

(** How a call ends. *)
Inductive Outcome (A : Type) : Type :=
| Returns (value : A)
| Throws
| NeverReturns.
Arguments Returns {A} value.
Arguments Throws {A}.
Arguments NeverReturns {A}.

(** Sequencing: what follows a call runs on its value when the call
    returns, and not at all otherwise. *)
Definition andThen {A B : Type} (o : Outcome A) (next : A -> Outcome B) : Outcome B :=
  match o with
  | Returns value => next value
  | Throws => Throws
  | NeverReturns => NeverReturns
  end.

(** [array.map(f)] for a callback that may throw: the elements are
    visited in order and the first call that does not return ends the
    whole. *)
Fixpoint eachInOrder {A B : Type} (f : A -> Outcome B) (l : list A) : Outcome (list B) :=
  match l with
  | [] => Returns []
  | x :: rest =>
      andThen (f x) (fun y =>
      andThen (eachInOrder f rest) (fun ys => Returns (y :: ys)))
  end.

(** [RichTextOptions & { isAnnotation?: boolean }]; an absent
    [preserveWhitespace] or [isAnnotation] reads as [false]. *)
Record RichTextOptions : Type := mkOptions {
  isAnnotation : bool;
  annotations : option Annotations;
  link : option string;
  preserveWhitespace : bool
}.

(** The options a top-level call starts from: [{ isAnnotation }]. *)
Definition topOptions (isAnnotation : bool) : RichTextOptions :=
  mkOptions isAnnotation None None false.

(** The [ContentResult] union of [content-result]: three object types,
    told apart by their tag. *)
Record BlockResult : Type := blockResult { block : Block }.
Record RichTextResult : Type := richTextResult { richText : RichText }.
Record ListResult : Type := listResult { results : list BlockResult }.

Inductive ContentResult : Type :=
| OfBlock (r : BlockResult)
| OfList (r : ListResult)
| OfRichText (r : RichTextResult).

(** [result.block] on a value of the union: the key exists on a
    [BlockResult] only, on the other two the read gives [undefined]. *)
Definition dotBlock (r : ContentResult) : option Block :=
  match r with OfBlock b => Some (block b) | _ => None end.

(** [BlockResult | RichTextResult], the element type of what
    [convertChildNodes] returns. *)
Definition ChildResult : Type := (BlockResult + RichTextResult)%type.

(** Functions and constants the converter imports from modules that are
    not part of the sources at hand, and the two properties of DOM objects
    it reads that the tree of the model does not determine.  They are
    parameters of the development: every theorem holds for whatever they
    compute, unless it states an assumption on them. *)
Class Collaborators : Type := {
  (** [getAnnotations] of [annotations]: the style and tag inspector *)
  getAnnotations : Element -> Annotations;
  (** [getNotionColor] of [annotations]: the colour of a highlight span *)
  getNotionColor : Element -> option string;
  (** [buildRichText] of [notion-utils] *)
  buildRichText : string -> RichTextOptions -> RichText;
  (** [parseHTML] and [findContainer] of [dom-utils] *)
  parseHTML : string -> Document;
  findContainer : Document -> option Element;
  (** the image branch of the asynchronous [convertBlockElement]: decoding
      the annotation descriptor, uploading the image, and the blocks that
      come out (the callout with its image and a divider on success, the
      filler blocks when anything throws) *)
  imageAnnotationBlocks : Element -> Element -> list Block;
  (** [element.href] of an anchor: the URL of the attribute, resolved
      against the document and serialised by the DOM *)
  href : Element -> string;
  (** [node.type]: the [type] property the DOM gives a node ([undefined]
      on a text node, a comment and most elements; on an anchor, a list or
      a list item, among others, the value of its [type] attribute) *)
  typeProperty : Node -> option string
}.

(* ================================================================== *)
(** * The node classifier ([parse-node.ts]) *)
(* ================================================================== *)

Module BlockElement.
Record t : Type := mk {
  blockType : BlockType;
  supportsChildren : bool;
  annotations : Annotations;
  color : option string;
  element : Element
}.
End BlockElement.

Inductive ParsedNode : Type :=
| BlockNode (b : BlockElement.t)
| BRNode
| InlineMathNode (element : Element) (expression : string)
| ListNode (element : Element)
| MathBlockNode (element : Element) (expression : string)
| RichTextNode (annotations : Annotations) (element : Element) (link : option string)
| TextLeaf (textContent : string).

Definition BLOCKS_SUPPORTING_CHILDREN : list BlockType :=
  [bulleted_list_item; numbered_list_item; paragraph; quote].

Definition doesBlockSupportChildren (blockType : BlockType) : bool :=
  existsb (BlockType_eqb blockType) BLOCKS_SUPPORTING_CHILDREN.

(** The pattern [/^\${1,2}((?:.|\n)+?)\${1,2}$/].  The group takes any
    code unit but a carriage return ([.] leaves the line terminators out,
    the alternative puts the line feed back). *)
Definition dollar : ascii := ascii_of_nat 36.

Definition groupChar (c : ascii) : bool := negb (nat_of_ascii c =? 13).

Definition isDollar (c : ascii) : bool := Ascii.eqb c dollar.

Definition isClosing (l : list ascii) : bool :=
  match l with
  | [c] => isDollar c
  | [c; d] => isDollar c && isDollar d
  | _ => false
  end.

(** The lazy group: the shortest non-empty run that is followed by one or
    two dollars and the end of the text. *)
Definition lazyGroup (rest : list ascii) : option (list ascii) :=
  option_map (fun m => firstn m rest)
    (find (fun m => forallb groupChar (firstn m rest) && isClosing (skipn m rest))
          (seq 1 (List.length rest))).

(** The greedy opening: two dollars are tried before one. *)
Definition mathPattern (text : string) : option string :=
  let cs := Js.chars text in
  let withTwo :=
    match cs with
    | c :: d :: rest => if isDollar c && isDollar d then lazyGroup rest else None
    | _ => None
    end in
  let withOne :=
    match cs with
    | c :: rest => if isDollar c then lazyGroup rest else None
    | _ => None
    end in
  option_map Js.ofChars (match withTwo with Some g => Some g | None => withOne end).

Definition getMathExpression (element : Element) : option string :=
  let textContent := Dom.elementText element in
  let isMathElement := Js.truthy textContent && Dom.hasClass "math" element in
  if negb isMathElement then None
  else match mathPattern textContent with
       | Some expression => if Js.truthy expression then Some expression else None
       | None => None
       end.

(** [/^https?:\/\/.+/]: the scheme, then one code unit at least that is no
    line terminator. *)
Definition followedByAny (n : nat) (s : string) : bool :=
  match String.get n s with
  | Some c => negb ((nat_of_ascii c =? 10) || (nat_of_ascii c =? 13))
  | None => false
  end.

Definition isHttpURL (s : string) : bool :=
  (Js.startsWith s "https://" && followedByAny 8 s)
  || (Js.startsWith s "http://" && followedByAny 7 s).

Section Classifier.
Context `{Collaborators}.

Definition parseRichTextElement (element : Element) : ParsedNode :=
  RichTextNode (getAnnotations element) element None.

Definition parseAnchorElement (element : Element) : ParsedNode :=
  RichTextNode (getAnnotations element) element
               (if isHttpURL (href element) then Some (href element) else None).

(** [const { color, ...annotations } = getAnnotations(element)] *)
Definition parseBlockElement (element : Element) (blockType : BlockType) : BlockElement.t :=
  let a := getAnnotations element in
  BlockElement.mk blockType (doesBlockSupportChildren blockType)
                  (mkAnnotations (bold a) (italic a) (strikethrough a)
                                 (underline a) (code a) None)
                  (color a) element.

(** [element.parentElement?.tagName] *)
Definition parentTag (parentElement : option Element) : option string :=
  option_map Dom.tagName parentElement.

Definition tagIs (t : option string) (name : string) : bool :=
  match t with Some s => String.eqb s name | None => false end.

Definition parseListItemElement (parentElement : option Element) (element : Element)
  : BlockElement.t :=
  if tagIs (parentTag parentElement) "OL"
  then parseBlockElement element numbered_list_item
  else if tagIs (parentTag parentElement) "UL"
  then parseBlockElement element bulleted_list_item
  else parseBlockElement element paragraph.

Definition parsePreElement (element : Element) : ParsedNode :=
  match getMathExpression element with
  | Some expression => MathBlockNode element expression
  | None => BlockNode (parseBlockElement element code_block)
  end.

Definition parseSpanElement (element : Element) : ParsedNode :=
  match getMathExpression element with
  | Some expression => InlineMathNode element expression
  | None => parseRichTextElement element
  end.

Definition parseTextNode (data : string) : option ParsedNode :=
  if Js.truthy (Js.trim data) then Some (TextLeaf data) else None.

Definition tagSwitch (parentElement : option Element) (element : Element) : ParsedNode :=
  let tag := Dom.tagName element in
  let tagged := String.eqb tag in
  if tagged "A" then parseAnchorElement element
  else if tagged "BODY" || tagged "DIV" || tagged "P" then BlockNode (parseBlockElement element paragraph)
  else if tagged "H1" then BlockNode (parseBlockElement element heading_1)
  else if tagged "H2" then BlockNode (parseBlockElement element heading_2)
  else if tagged "H3" || tagged "H4" || tagged "H5" || tagged "H6"
  then BlockNode (parseBlockElement element heading_3)
  else if tagged "LI" then BlockNode (parseListItemElement parentElement element)
  else if tagged "OL" || tagged "UL" then ListNode element
  else if tagged "PRE" then parsePreElement element
  else if tagged "SPAN" then parseSpanElement element
  else parseRichTextElement element.

(** [parseNode].  The node's [parentElement] is handed in by the caller,
    who reached the node through that parent. *)
Definition parseNode (parentElement : option Element) (node : Node) : option ParsedNode :=
  match node with
  | TextNode data => parseTextNode data
  | CommentNode _ => None
  | ElementNode element =>
      let tag := Dom.tagName element in
      if String.eqb tag "BLOCKQUOTE"
      then Some (BlockNode (BlockElement.mk quote true noAnnotations None element))
      else if Dom.hasClass "highlight" element
      then Some (RichTextNode (mkAnnotations None None None None None
                                             (Some "yellow_background"))
                              element None)
      else if Dom.hasClass "citation" element
      then Some (RichTextNode noAnnotations element None)
      else if String.eqb tag "P"
      then Some (BlockNode (BlockElement.mk paragraph true noAnnotations None element))
      else Some (tagSwitch parentElement element)
  end.

End Classifier.

(* ================================================================== *)
(** * The assembler shared by the revisions of [html-to-notion.ts] *)
(* ================================================================== *)

Section Assembler.
Context `{Collaborators}.

Definition withPreserveWhitespace (options : RichTextOptions) : RichTextOptions :=
  mkOptions (isAnnotation options) (annotations options) (link options) true.

(** [convertRichTextNode].  [convertChildrenOf o] stands for the call
    [convertRichTextChildNodes(node.element, o)] on the element the parsed
    node was made from. *)
Definition convertRichTextNode (convertChildrenOf : RichTextOptions -> RichText)
           (node : ParsedNode) (options : RichTextOptions) : RichText :=
  match node with
  | TextLeaf textContent => buildRichText textContent options
  | BRNode => buildRichText Js.LF (withPreserveWhitespace options)
  | InlineMathNode _ expression => [EquationItem expression]
  | RichTextNode nodeAnnotations _ nodeLink =>
      convertChildrenOf
        (mkOptions (isAnnotation options)
                   (Some (spreadOnto (annotations options) nodeAnnotations))
                   (match nodeLink with Some l => Some l | None => link options end)
                   (preserveWhitespace options))
  | _ => convertChildrenOf options
  end.

(** The callback of the reduction in [convertRichTextChildNodes]: one child
    node is classified and converted. *)
Fixpoint convertRichTextChild (parentElement : option Element) (childNode : Node)
         (options : RichTextOptions) {struct childNode} : RichText :=
  match parseNode parentElement childNode with
  | None => []
  | Some parsedNode =>
      convertRichTextNode
        (fun o =>
           match childNode with
           | ElementNode e =>
               match e with
               | mkElement _ _ _ cs =>
                   (fix each (l : list Node) : RichText :=
                      match l with
                      | [] => []
                      | c :: rest => convertRichTextChild (Some e) c o ++ each rest
                      end) cs
               end
           | _ => []
           end)
        parsedNode options
  end.

Definition convertRichTextChildNodes (node : Element) (options : RichTextOptions)
  : RichText :=
  flat_map (fun childNode => convertRichTextChild (Some node) childNode options)
           (Dom.childNodes node).

(** [convertNode] switches on the [type] key of its argument.
    [convertChildNodes] calls it on the DOM child node itself, not on a
    parsed node, so the switch reads the node's own [type] property.  On
    'block' it enters [convertBlockElement] and on 'list'
    [convertListElement]; either reads the key [element] off the DOM node,
    finds [undefined], and throws a [TypeError] at its first use
    ([element.tagName], [node.childNodes], [node.element.children]).  On
    every other value, and on a node without the property, the switch
    takes its default branch and the call gives [undefined]. *)
Definition convertNodeOfDomNode (childNode : Node) (options : RichTextOptions)
  : Outcome (option ContentResult) :=
  match typeProperty childNode with
  | Some t => if String.eqb t "block" || String.eqb t "list" then Throws else Returns None
  | None => Returns None
  end.

(** The reducer of [convertChildNodes] ([collected] is its accumulator
    [results]). *)
Definition appendResult (collected : list ChildResult) (result : option ContentResult)
  : list ChildResult :=
  match result with
  | None => collected
  | Some (OfBlock b) => collected ++ [inl b]
  | Some (OfList l) => collected ++ map inl (results l)
  | Some (OfRichText r) =>
      match last (map Some collected) None with
      | Some (inr prevResult) =>
          Js.slice 0 (-1) collected
          ++ [inr (richTextResult (richText prevResult ++ richText r))]
      | _ => collected ++ [inr r]
      end
  end.

Definition convertChildNodes (node : Element) (options : RichTextOptions)
  : Outcome (list ChildResult) :=
  fold_left (fun reduced childNode =>
               andThen reduced (fun collected =>
               andThen (convertNodeOfDomNode childNode options) (fun result =>
               Returns (appendResult collected result))))
            (Dom.childNodes node) (Returns []).

(** The callback of [forEach] in [convertParentElement], on the two
    variables it updates: [rich_text] and [children] (undefined at first).
    [place] is the part from the test [!children && !rich_text.length &&
    isBlockType('paragraph', childBlock)] on. *)
Definition absorb (state : RichText * option (list Block)) (result : ChildResult)
  : RichText * option (list Block) :=
  let '(rich_text, children) := state in
  let place (childBlock : Block) :=
    match children, rich_text, childBlock with
    | None, [], TextBlock _ paragraph childText childChildren _ =>
        (childText, childChildren)
    | _, _, _ =>
        (rich_text, Some (match children with Some cs => cs | None => [] end
                          ++ [childBlock]))
    end in
  match result with
  | inr r =>
      let trimmedRichText := trimRichText (richText r) in
      match trimmedRichText with
      | [] => state
      | _ :: _ =>
          match children with
          | None => (rich_text ++ trimmedRichText, children)
          | Some _ => place (paragraphBlock trimmedRichText)
          end
      end
  | inl b => place (block b)
  end.

Definition convertParentElement (parent : BlockElement.t) (options : RichTextOptions)
  : Outcome BlockResult :=
  let updatedOptions :=
    mkOptions (isAnnotation options)
              (Some (spreadOnto (annotations options) (BlockElement.annotations parent)))
              (link options) (preserveWhitespace options) in
  andThen (convertChildNodes (BlockElement.element parent) updatedOptions)
          (fun converted =>
             let '(rich_text, children) := fold_left absorb converted ([], None) in
             Returns (blockResult (keyValue (BlockElement.blockType parent) rich_text
                                            children (BlockElement.color parent)))).

(** [Array.from(node.element.children).map(...).filter(Boolean)]: the
    callback gives the result of [convertParentElement] for a list item
    and [undefined] for any other child. *)
Definition convertListElement (node : Element) (options : RichTextOptions)
  : Outcome ListResult :=
  andThen
    (eachInOrder
       (fun element =>
          match parseNode (Some node) (ElementNode element) with
          | Some (BlockNode parsedChild) =>
              if BlockElement.supportsChildren parsedChild
                 && Js.endsWith (blockTypeName (BlockElement.blockType parsedChild))
                                "list_item"
              then andThen (convertParentElement parsedChild options)
                           (fun converted => Returns (Some converted))
              else Returns None
          | _ => Returns None
          end)
       (Dom.children node))
    (fun mapped => Returns (listResult (Js.compactMap (fun r => r) mapped))).

(** The default branch of every revision of [convertBlockElement]: the
    rich text of the element, trimmed unless the block is code. *)
Definition convertPlainBlock (blockType : BlockType) (b : BlockElement.t)
           (options : RichTextOptions) : BlockResult :=
  let preserve := BlockType_eqb blockType code_block in
  let updatedOptions :=
    mkOptions (isAnnotation options)
              (Some (spreadOnto (annotations options) (BlockElement.annotations b)))
              (link options) preserve in
  let rich_text := convertRichTextChildNodes (BlockElement.element b) updatedOptions in
  let rich_text := if preserve then rich_text else trimRichText rich_text in
  blockResult (keyValue blockType rich_text None (BlockElement.color b)).

End Assembler.

(* ================================================================== *)
(** * [html-to-notion.ts], the revision that keeps the text only *)
(* ================================================================== *)

(** The first revision in [html-to-notion.ts] does not walk the tree: it
    returns one paragraph holding the trimmed text of the body (of the
    HTML string itself when the body has no text). *)
Module TextOnly.
Section Converter.
Context `{Collaborators}.

Definition convertHtmlToBlocks (html : string) (isAnnotation : bool) : list Block :=
  let doc := parseHTML html in
  let text := Js.orElse (option_map Dom.elementText (Dom.body doc)) html in
  [TextBlock true paragraph [plainText (Js.trim text)] None None].

End Converter.
End TextOnly.

(* ================================================================== *)
(** * [html-to-notion.ts], synchronous revision (quote retagging) *)
(* ================================================================== *)

Module HtmlToNotion.
Section Converter.
Context `{Collaborators}.

Definition convertBlockElement (b : BlockElement.t) (options : RichTextOptions)
  : BlockResult :=
  let element := BlockElement.element b in
  let hasHighlight :=
    match Dom.querySelector (Dom.hasClass "highlight") element with
    | Some _ => true | None => false end in
  let hasImage :=
    match Dom.querySelector (Dom.hasTag "IMG") element with
    | Some _ => true | None => false end in
  let blockType :=
    if isAnnotation options && String.eqb (Dom.tagName element) "P"
       && (hasHighlight || hasImage)
    then quote else BlockElement.blockType b in
  convertPlainBlock blockType b options.

(** The list branch converts the list and returns the [block] key of the
    [ListResult], which is [undefined]. *)
Definition convertNode (node : ParsedNode) (options : RichTextOptions)
  : Outcome (option Block) :=
  match node with
  | BlockNode b => Returns (dotBlock (OfBlock (convertBlockElement b options)))
  | ListNode element =>
      andThen (convertListElement element options)
              (fun converted => Returns (dotBlock (OfList converted)))
  | _ => Returns None
  end.

Definition convertHtmlToBlocks (html : string) (isAnnotation : bool)
  : Outcome (list Block) :=
  let doc := parseHTML html in
  match findContainer doc with
  | None => Returns []
  | Some container =>
      andThen
        (eachInOrder
           (fun element =>
              match parseNode (Some container) (ElementNode element) with
              | None => Returns None
              | Some parsedNode => convertNode parsedNode (topOptions isAnnotation)
              end)
           (Dom.children container))
        (fun mapped => Returns (Js.compactMap (fun b => b) mapped))
  end.

End Converter.
End HtmlToNotion.

(* ================================================================== *)
(** * The pieces of the highlight extraction *)
(* ================================================================== *)

(** [innerSpan?.textContent || highlightSpan.textContent || ''] followed by
    [rawText.slice(1, -1).trim()] *)
Definition highlightedTextOf (highlightSpan : Element) : string :=
  let innerSpan := Dom.querySelector (Dom.hasTag "SPAN") highlightSpan in
  let rawText :=
    Js.orElse (option_map Dom.elementText innerSpan) (Dom.elementText highlightSpan) in
  Js.trim (Js.sliceString 1 (-1) rawText).

(** The text of the node that follows the citation marker, or [''] *)
Definition remainingTextOf (element : Element) : string :=
  match Dom.nextSiblingOfFirst (Dom.hasClass "citation") element with
  | Some nextSibling => Dom.textContent nextSibling
  | None => EmptyString
  end.

Definition hash : ascii := ascii_of_nat 35.

(** The paragraph of an annotation: the comment and a line feed, then the
    tags, each behind a hash and marked as code, with a space span between
    two of them. *)
Definition commentAndTags (remainingText : string) : RichText :=
  let pieces := Js.splitOn hash (Js.trim remainingText) in
  let comment := hd EmptyString pieces in
  let tagParts := tl pieces in
  let formattedTags :=
    map (fun tag => TextItem (String hash (Js.trim tag)) None (Some codeAnnotation))
        tagParts in
  plainText (Js.trim comment ++ Js.LF)%string
  :: Js.slice 0 (-1) (flat_map (fun tag => [tag; plainText " "]) formattedTags).

Definition annotationBlocks (highlightedText : string) (calloutColor : string)
           (remainingText : string) : list Block :=
  [ TextBlock true callout [plainText highlightedText] None (Some calloutColor);
    TextBlock true paragraph (commentAndTags remainingText) None None;
    DividerBlock ].

(* ================================================================== *)
(** * [html-to-notion.ts], revision with the nested annotation triple *)
(* ================================================================== *)

Module NestedAnnotations.
Section Converter.
Context `{Collaborators}.

Definition convertBlockElement (b : BlockElement.t) (options : RichTextOptions)
  : BlockResult :=
  let element := BlockElement.element b in
  let highlightSpan :=
    if isAnnotation options && String.eqb (Dom.tagName element) "P"
    then Dom.querySelector (Dom.hasClass "highlight") element
    else None in
  match highlightSpan with
  | Some highlightSpan =>
      blockResult
        (TextBlock true paragraph []
           (Some (annotationBlocks (highlightedTextOf highlightSpan)
                                   "yellow_background"
                                   (remainingTextOf element)))
           None)
  | None => convertPlainBlock (BlockElement.blockType b) b options
  end.

(** The list branch converts the list and returns the [block] key of the
    [ListResult], which is [undefined]. *)
Definition convertNode (node : ParsedNode) (options : RichTextOptions)
  : Outcome (option Block) :=
  match node with
  | BlockNode b => Returns (dotBlock (OfBlock (convertBlockElement b options)))
  | ListNode element =>
      andThen (convertListElement element options)
              (fun converted => Returns (dotBlock (OfList converted)))
  | _ => Returns None
  end.

Definition convertHtmlToBlocks (html : string) (isAnnotation : bool)
  : Outcome (list Block) :=
  let doc := parseHTML html in
  match findContainer doc with
  | None => Returns []
  | Some container =>
      andThen
        (eachInOrder
           (fun element =>
              match parseNode (Some container) (ElementNode element) with
              | None => Returns None
              | Some parsedNode => convertNode parsedNode (topOptions isAnnotation)
              end)
           (Dom.children container))
        (fun mapped => Returns (Js.compactMap (fun b => b) mapped))
  end.

End Converter.
End NestedAnnotations.

(* ================================================================== *)
(** * [html-to-notion.ts], asynchronous revision (flat annotation blocks) *)
(* ================================================================== *)

(** The value of a property read on a plain object: a string of the
    object's own, or a member the object inherits from [Object.prototype]
    (a function or an object, truthy and not a string). *)
Inductive JsValue : Type :=
| StringValue (s : string)
| PrototypeMember (name : string).

Definition objectPrototypeMembers : list string :=
  [ "constructor"; "__proto__"; "__defineGetter__"; "__defineSetter__";
    "__lookupGetter__"; "__lookupSetter__"; "hasOwnProperty"; "isPrototypeOf";
    "propertyIsEnumerable"; "toLocaleString"; "toString"; "valueOf" ].

Fixpoint ownProperty (table : list (string * string)) (key : string) : option string :=
  match table with
  | [] => None
  | (k, v) :: rest => if String.eqb k key then Some v else ownProperty rest key
  end.

(** [table[key]] on an object literal. *)
Definition readProperty (table : list (string * string)) (key : string) : option JsValue :=
  match ownProperty table key with
  | Some v => Some (StringValue v)
  | None =>
      if existsb (String.eqb key) objectPrototypeMembers
      then Some (PrototypeMember key) else None
  end.

Module FlatAnnotations.

Definition colorMap : list (string * string) :=
  [ ("#ffd400", "yellow_background");
    ("#ff6666", "red_background");
    ("#ffb437", "orange_background");
    ("#5ff036", "green_background");
    ("#50c8e5", "blue_background");
    ("#a28ae5", "purple_background");
    ("#e56eee", "pink_background");
    ("#aaaaaa", "gray_background");
    ("rgb(255, 212, 0)", "yellow_background");
    ("rgb(255, 102, 102)", "red_background");
    ("rgb(255, 180, 55)", "orange_background");
    ("rgb(95, 240, 54)", "green_background");
    ("rgb(80, 200, 229)", "blue_background");
    ("rgb(162, 138, 229)", "purple_background");
    ("rgb(229, 110, 238)", "pink_background");
    ("rgb(170, 170, 170)", "gray_background") ].

Definition getNotionColorFromHex (hexColor : string) : JsValue :=
  let normalizedColor := Js.trim (Js.toLowerCase hexColor) in
  match readProperty colorMap normalizedColor with
  | Some (StringValue v) =>
      if Js.truthy v then StringValue v else StringValue "yellow_background"
  | Some (PrototypeMember name) => PrototypeMember name
  | None => StringValue "yellow_background"
  end.

Definition createEmptyAnnotation : list Block :=
  [ TextBlock true callout [plainText "Empty"] None (Some "yellow_background");
    TextBlock true paragraph [plainText "No annotation provided"] None None;
    DividerBlock ].

Definition createFillerBlocks : list Block :=
  [ TextBlock true callout [plainText "Filler"] None (Some "yellow_background");
    TextBlock true paragraph [plainText "Filler"] None None;
    DividerBlock ].

Section Converter.
Context `{Collaborators}.

(** The promise of the source resolves to the value computed here; the one
    suspension point, the upload, is inside [imageAnnotationBlocks]. *)
Definition convertBlockElement (b : BlockElement.t) (options : RichTextOptions)
  : BlockResult :=
  let element := BlockElement.element b in
  let wrap (blocks : list Block) :=
    blockResult (TextBlock true paragraph [] (Some blocks) None) in
  if isAnnotation options && String.eqb (Dom.tagName element) "P"
  then
    let highlightSpan := Dom.querySelector (Dom.hasClass "highlight") element in
    let image := Dom.querySelector (Dom.hasTag "IMG") element in
    match image, highlightSpan with
    | Some image, _ => wrap (imageAnnotationBlocks element image)
    | None, Some highlightSpan =>
        let colorSpan := Dom.querySelector (Dom.hasTag "SPAN") highlightSpan in
        let notionColor :=
          getNotionColor (match colorSpan with Some s => s | None => highlightSpan end) in
        wrap (annotationBlocks (highlightedTextOf highlightSpan)
                               (Js.orElse notionColor "yellow_background")
                               (remainingTextOf element))
    | None, None => convertPlainBlock (BlockElement.blockType b) b options
    end
  else convertPlainBlock (BlockElement.blockType b) b options.

(** The list branch returns the [block] key of a [ListResult], which is
    [undefined]; [convertHtmlToBlocks] hands over paragraph elements only,
    which never classify as lists, so the branch is not reached and the
    conversion of the list is left out. *)
Definition convertNode (node : ParsedNode) (options : RichTextOptions) : option Block :=
  match node with
  | BlockNode b => dotBlock (OfBlock (convertBlockElement b options))
  | _ => None
  end.

(** What the callback of [map] returns for one paragraph, as the list that
    [filter(Boolean).flat()] keeps of it. *)
Definition convertParagraph (isAnnotation : bool) (parentElement element : Element)
  : list Block :=
  match parseNode (Some parentElement) (ElementNode element) with
  | None => []
  | Some parsedNode =>
      match convertNode parsedNode (topOptions isAnnotation) with
      | None => []
      | Some result =>
          match result with
          | TextBlock true paragraph _ (Some children) _ =>
              if isAnnotation then children else [result]
          | _ => [result]
          end
      end
  end.

Definition convertHtmlToBlocks (html : string) (isAnnotation : bool) : list Block :=
  let doc := parseHTML html in
  match findContainer doc with
  | None => createEmptyAnnotation
  | Some container =>
      match Dom.getElementsByTagName "P" container with
      | [] => createEmptyAnnotation
      | paragraphs =>
          flat_map (fun pe => convertParagraph isAnnotation (fst pe) (snd pe)) paragraphs
      end
  end.

End Converter.
End FlatAnnotations.

(* ================================================================== *)
(** * [sync-note-item.ts]: building the batches *)
(* ================================================================== *)

(** The numbers the batch loop computes with: counts, and the two values
    a division by zero produces. *)
Inductive JsNumber : Type :=
| Finite (n : nat)
| Infinity
| NaN.

Definition ceilDiv (a b : nat) : nat := (a + b - 1) / b.

(** [Math.max(1, Math.ceil(length / batchSize))].  The quotient of two
    array-sized counts is exact enough in double precision for [ceil] to
    be the integer ceiling. *)
Definition numBatchesOf (length batchSize : nat) : JsNumber :=
  match batchSize with
  | 0 => match length with 0 => NaN | _ => Infinity end
  | _ => Finite (Nat.max 1 (ceilDiv length batchSize))
  end.

(** The body of the [for] loop, for one value of [i]. *)
Definition pushBatch {A : Type} (batchSize : nat) (blocks : list A)
           (batches : list (list A)) (i : nat) : list (list A) :=
  let start := i * batchSize in
  let end_ := Nat.min (start + batchSize) (List.length blocks) in
  let batch := Js.slice (Z.of_nat start) (Z.of_nat end_) blocks in
  if 0 <? List.length batch then batches ++ [batch] else batches.

(** The tail of both revisions of [buildNoteBlockBatches], from
    [const batchSize] on.  [i < NaN] is false, so the loop does not run on
    [NaN]; it has no end on [Infinity]. *)
Definition batchesOf {A : Type} (BLOCK_ARRAY_ELEMENTS : nat) (blocks : list A)
  : Outcome (list (list A)) :=
  let batchSize := Nat.min BLOCK_ARRAY_ELEMENTS 100 in
  match numBatchesOf (List.length blocks) batchSize with
  | Finite numBatches =>
      Returns (fold_left (pushBatch batchSize blocks) (seq 0 numBatches) [])
  | NaN => Returns []
  | Infinity => NeverReturns
  end.

Module SyncNoteItem.
Section Builder.
Context `{Collaborators}.

(** First revision: the synchronous converter, then the batches; what the
    converter throws is thrown on, wrapped in a [LocalizableError]. *)
Definition buildNoteBlockBatches (BLOCK_ARRAY_ELEMENTS : nat) (note : string)
           (isAnnotation : bool) : Outcome (list (list Block)) :=
  andThen (HtmlToNotion.convertHtmlToBlocks note isAnnotation)
          (batchesOf BLOCK_ARRAY_ELEMENTS).

End Builder.
End SyncNoteItem.

(** Second revision: annotation notes are regrouped under one heading per
    callout colour before the batches are cut. *)
Module SyncNoteItemGrouped.

Definition colorTitles : list (string * string) :=
  [ ("yellow_background", "Highlights");
    ("red_background", "Weak Points");
    ("green_background", "Strong Points");
    ("blue_background", "Unique Points");
    ("purple_background", "To Explore");
    ("default", "Other Notes") ].

(** [block.callout.color || 'default'] when ['callout' in block] *)
Definition calloutColor (b : Block) : option string :=
  match b with
  | TextBlock _ callout _ _ c => Some (Js.orElse c "default")
  | _ => None
  end.

(** First pass.  [colorGroups] is an object used as a set; [Object.keys]
    lists its keys (colour tokens, none of them an array index) in the
    order they were first set. *)
Definition colorGroupsOf (originalBlocks : list Block) : list string :=
  fold_left
    (fun colorGroups b =>
       match calloutColor b with
       | Some c => if existsb (String.eqb c) colorGroups then colorGroups
                   else colorGroups ++ [c]
       | None => colorGroups
       end)
    originalBlocks [].

(** [colorTitles[color] || color.replace('_background', '').replace('_',
    ' ').toUpperCase()] *)
Definition titleOf (c : string) : string :=
  match ownProperty colorTitles c with
  | Some title => title
  | None =>
      Js.toUpperCase (Js.replaceFirst "_" " " (Js.replaceFirst "_background" EmptyString c))
  end.

Definition headingOf (c : string) : Block :=
  TextBlock true heading_3 [plainText (titleOf c)] (Some []) None.

(** [b.heading_3.rich_text[0].text.content === wanted] on a heading *)
Definition isTitled (wanted : string) (b : Block) : bool :=
  match b with
  | TextBlock _ heading_3 (TextItem content _ _ :: _) _ _ => String.eqb content wanted
  | _ => false
  end.

(** [blocks.find(...)] followed by [heading.heading_3.children.push(...)]:
    the group goes to the first heading with the wanted title. *)
Fixpoint pushInto (wanted : string) (group : list Block) (blocks : list Block)
  : list Block :=
  match blocks with
  | [] => []
  | b :: rest =>
      if isTitled wanted b
      then match b with
           | TextBlock typed k rt (Some cs) c =>
               TextBlock typed k rt (Some (cs ++ group)) c :: rest
           | _ => b :: rest
           end
      else b :: pushInto wanted group rest
  end.

(** The heading is looked up by [colorTitles[currentCalloutColor]]; a
    colour without an entry in the table finds none. *)
Definition flush (blocks : list Block) (currentCalloutColor : option string)
           (currentGroup : list Block) : list Block :=
  match currentCalloutColor, currentGroup with
  | Some c, _ :: _ =>
      match ownProperty colorTitles c with
      | Some wanted => pushInto wanted currentGroup blocks
      | None => blocks
      end
  | _, _ => blocks
  end.

(** The comment text and the tags of a paragraph; reading [text.content]
    of an equation span throws. *)
Fixpoint commentAndTagsOf (richText : RichText) (comment : string) (tags : list RichTextItem)
  : option (string * list RichTextItem) :=
  match richText with
  | [] => Some (comment, tags)
  | TextItem content _ (Some a) :: rest =>
      match code a with
      | Some true =>
          commentAndTagsOf rest comment (tags ++ [TextItem content None (Some codeAnnotation)])
      | _ => commentAndTagsOf rest (comment ++ content)%string tags
      end
  | TextItem content _ None :: rest =>
      commentAndTagsOf rest (comment ++ content)%string tags
  | EquationItem _ :: _ => None
  end.

(** [tags.flatMap((tag, index) => [tag, index < tags.length - 1 ? space :
    null]).filter(Boolean)] *)
Fixpoint spaced (tags : list RichTextItem) : RichText :=
  match tags with
  | [] => []
  | [tag] => [tag]
  | tag :: rest => tag :: plainText " " :: spaced rest
  end.

Definition regroupParagraph (richText : RichText) : option (list Block) :=
  match commentAndTagsOf richText EmptyString [] with
  | None => None
  | Some (comment, tags) =>
      Some ((if Js.truthy (Js.trim comment)
             then [TextBlock true paragraph [plainText (Js.trim comment)] None None]
             else [])
            ++ (match tags with
                | [] => []
                | _ => [TextBlock true paragraph (spaced tags) None None]
                end))
  end.

Record Pass : Type := mkPass {
  blocks : list Block;
  currentCalloutColor : option string;
  currentGroup : list Block
}.

(** The callback of the second [forEach]; [None] when it throws. *)
Definition organize (state : option Pass) (b : Block) : option Pass :=
  match state with
  | None => None
  | Some st =>
      match calloutColor b with
      | Some c =>
          Some (mkPass (flush (blocks st) (currentCalloutColor st) (currentGroup st))
                       (Some c) [b])
      | None =>
          match currentCalloutColor st, b with
          | Some _, TextBlock _ paragraph richText _ _ =>
              match regroupParagraph richText with
              | Some added =>
                  Some (mkPass (blocks st) (currentCalloutColor st)
                               (currentGroup st ++ added))
              | None => None
              end
          | Some _, DividerBlock =>
              Some (mkPass (blocks st) (currentCalloutColor st) (currentGroup st ++ [b]))
          | _, _ => Some st
          end
      end
  end.

Definition groupByColor (originalBlocks : list Block) : option (list Block) :=
  let headings := map headingOf (colorGroupsOf originalBlocks) in
  match fold_left organize originalBlocks (Some (mkPass headings None [])) with
  | Some st => Some (flush (blocks st) (currentCalloutColor st) (currentGroup st))
  | None => None
  end.

Section Builder.
Context `{Collaborators}.

Definition buildNoteBlockBatches (BLOCK_ARRAY_ELEMENTS : nat) (note : string)
           (isAnnotation : bool) : Outcome (list (list Block)) :=
  let originalBlocks := FlatAnnotations.convertHtmlToBlocks note isAnnotation in
  if isAnnotation
  then match groupByColor originalBlocks with
       | Some grouped => batchesOf BLOCK_ARRAY_ELEMENTS grouped
       | None => Throws
       end
  else batchesOf BLOCK_ARRAY_ELEMENTS originalBlocks.

End Builder.
End SyncNoteItemGrouped.

(* ================================================================== *)
(** * [note-utils.ts] and the hash of [imgur.ts] *)
(* ================================================================== *)

Module NoteUtils.

(** [noteItem.getNoteTitle()] is the argument. *)
Definition isAnnotationNote (noteTitle : string) : bool :=
  Js.includes noteTitle "Annotation".

End NoteUtils.

(** [calculateFileHash] ends by writing the digest, a string of code units
    0..255, in hexadecimal:
    [Array.from(hash, (c, i) => hash.charCodeAt(i).toString(16).padStart(2, '0')).join('')]. *)
Module Imgur.

Definition hexDigit (n : nat) : ascii :=
  if n <? 10 then ascii_of_nat (48 + n) else ascii_of_nat (87 + n).

(** [n.toString(16)] for a code unit below 256: one digit below 16, two
    from there on. *)
Definition toString16 (n : nat) : string :=
  if n <? 16 then String (hexDigit n) EmptyString
  else String (hexDigit (n / 16)) (String (hexDigit (n mod 16)) EmptyString).

(** [s.padStart(2, '0')] *)
Definition padStart2 (s : string) : string :=
  match String.length s with
  | 0 => "00"
  | 1 => String "0" s
  | _ => s
  end.

Fixpoint hexHash (hash : string) : string :=
  match hash with
  | EmptyString => EmptyString
  | String c rest => (padStart2 (toString16 (nat_of_ascii c)) ++ hexHash rest)%string
  end.

End Imgur.

(* ================================================================== *)
(** * Reference notions and scenarios *)
(* ================================================================== *)

(** The partition the batch builder is meant to compute, given by
    position: batch [i] holds the elements from [i * size] up to
    [(i + 1) * size], and there are as many batches as it takes. *)
Definition partitionBySize {A : Type} (size : nat) (l : list A) : list (list A) :=
  map (fun i => firstn size (skipn (i * size) l))
      (seq 0 (ceilDiv (List.length l) size)).

(** Two strings are the same up to case and white space when they agree
    once lower-cased and with every white-space code unit taken out. *)
Definition withoutWhiteSpace (s : string) : string :=
  Js.ofChars (filter (fun c => negb (Js.isWhiteSpace c)) (Js.chars s)).

Definition sameUpToCaseAndSpace (a b : string) : bool :=
  String.eqb (withoutWhiteSpace (Js.toLowerCase a)) (withoutWhiteSpace (Js.toLowerCase b)).

Definition backgroundTokens : list string :=
  [ "yellow_background"; "red_background"; "orange_background"; "green_background";
    "blue_background"; "purple_background"; "pink_background"; "gray_background" ].

(** The blocks of the children of the container that classify as blocks,
    each converted by [convert]: what is left of the top level once the
    lists and the inline content are gone. *)
Definition blocksOfBlockChildren `{Collaborators}
           (convert : BlockElement.t -> RichTextOptions -> BlockResult)
           (container : Element) (options : RichTextOptions) : list Block :=
  flat_map
    (fun element =>
       match parseNode (Some container) (ElementNode element) with
       | Some (BlockNode parsed) => [block (convert parsed options)]
       | _ => []
       end)
    (Dom.children container).

(** Reading a hexadecimal digest back: the value of a digit, and the code
    units two digits at a time. *)
Definition hexValue (c : ascii) : nat :=
  let n := nat_of_ascii c in
  if (48 <=? n) && (n <=? 57) then n - 48 else n - 87.

Fixpoint unhex (s : string) : string :=
  match s with
  | String hi (String lo rest) =>
      String (ascii_of_nat (16 * hexValue hi + hexValue lo)) (unhex rest)
  | _ => EmptyString
  end.

Definition isHexDigit (c : ascii) : bool :=
  let n := nat_of_ascii c in
  ((48 <=? n) && (n <=? 57)) || ((97 <=? n) && (n <=? 102)).

(** No two rich-text results side by side. *)
Fixpoint noAdjacentRichText (l : list ChildResult) : bool :=
  match l with
  | [] => true
  | inr _ :: rest =>
      match rest with
      | inr _ :: _ => false
      | _ => noAdjacentRichText rest
      end
  | inl _ :: rest => noAdjacentRichText rest
  end.

(** The blocks and the spans a sequence of results carries, in order. *)
Definition blocksIn (l : list ChildResult) : list Block :=
  flat_map (fun r => match r with inl b => [block b] | inr _ => [] end) l.

Definition spansIn (l : list ChildResult) : RichText :=
  flat_map (fun r => match r with inl _ => [] | inr r => richText r end) l.

Definition blocksOfResult (r : option ContentResult) : list Block :=
  match r with
  | Some (OfBlock b) => [block b]
  | Some (OfList l) => map block (results l)
  | _ => []
  end.

Definition spansOfResult (r : option ContentResult) : RichText :=
  match r with
  | Some (OfRichText r) => richText r
  | _ => []
  end.

(** The occurrences of the hash sign in a text. *)
Definition hashesIn (s : string) : nat :=
  List.length (filter (Ascii.eqb hash) (Js.chars s)).

(** A tag span: code-annotated text that starts with the hash sign. *)
Definition isTagSpan (item : RichTextItem) : Prop :=
  exists tag, item = TextItem (String hash tag) None (Some codeAnnotation).

(** The title of a heading and whether a block is a callout. *)
Definition headingTitle (b : Block) : option string :=
  match b with
  | TextBlock _ heading_3 (TextItem content _ _ :: _) _ _ => Some content
  | _ => None
  end.

Definition isCallout (b : Block) : bool :=
  match b with
  | TextBlock _ callout _ _ _ => true
  | _ => false
  end.

Definition isEquation (item : RichTextItem) : bool := negb (hasText item).

(** An [<li>] element that carries no marker class. *)
Definition isPlainListItem (e : Element) : bool :=
  String.eqb (Dom.tagName e) "LI"
  && negb (Dom.hasClass "highlight" e) && negb (Dom.hasClass "citation" e).

(** A child of the container that classifies as a list. *)
Definition isList `{Collaborators} (container element : Element) : bool :=
  match parseNode (Some container) (ElementNode element) with
  | Some (ListNode _) => true
  | _ => false
  end.

(** A child node that [convertNode] takes for a parsed block or list:
    its own [type] property reads 'block' or 'list'. *)
Definition mistaken `{Collaborators} (childNode : Node) : bool :=
  match typeProperty childNode with
  | Some t => String.eqb t "block" || String.eqb t "list"
  | None => false
  end.

(** A list one of whose items (the [<li>] children without marker class)
    holds such a child node, and a child of the container that classifies
    as a list of this kind. *)
Definition holdsMistakenChild `{Collaborators} (list : Element) : bool :=
  existsb (fun item => existsb mistaken (Dom.childNodes item))
          (filter isPlainListItem (Dom.children list)).

Definition isThrowingList `{Collaborators} (container element : Element) : bool :=
  match parseNode (Some container) (ElementNode element) with
  | Some (ListNode list) => holdsMistakenChild list
  | _ => false
  end.

(** What a result adds to the children of a parent that already has some:
    its block, or a paragraph of its trimmed rich text if any is left. *)
Definition childOf (result : ChildResult) : list Block :=
  match result with
  | inl b => [block b]
  | inr r =>
      match trimRichText (richText r) with
      | [] => []
      | trimmed => [paragraphBlock trimmed]
      end
  end.

(** A colour token that is no name of a member every object inherits:
    read off an object literal it gives a value of the literal or nothing,
    and set on one it becomes a key.  The Notion colour tokens are such. *)
Definition isOwnKey (c : string) : bool :=
  negb (existsb (String.eqb c) objectPrototypeMembers).

Definition plainColours (blocks : list Block) : bool :=
  forallb (fun b => match SyncNoteItemGrouped.calloutColor b with
                    | Some c => isOwnKey c
                    | None => true
                    end) blocks.

(** A colour token written in words: it is no run of digits (a key that
    reads as an array index is listed before the others by [Object.keys],
    whenever it was set), and it holds neither the micro sign nor the y
    with diaeresis, whose upper-case forms lie outside the code units of
    the model. *)
Definition isDigit (c : ascii) : bool :=
  (48 <=? nat_of_ascii c) && (nat_of_ascii c <=? 57).

Definition upperCaseInRange (s : string) : bool :=
  forallb (fun c => negb ((nat_of_ascii c =? 181) || (nat_of_ascii c =? 255)))
          (Js.chars s).

Definition isWord (c : string) : bool :=
  negb (forallb isDigit (Js.chars c)) && upperCaseInRange c.

Definition wordColours (blocks : list Block) : bool :=
  forallb (fun b => match SyncNoteItemGrouped.calloutColor b with
                    | Some c => isWord c
                    | None => true
                    end) blocks.

(** A callout of a given colour, the children a block carries, and the
    children of the first heading with a given title. *)
Definition hasColor (c : string) (b : Block) : bool :=
  match SyncNoteItemGrouped.calloutColor b with
  | Some c' => String.eqb c' c
  | None => false
  end.

Definition nestedIn (b : Block) : list Block :=
  match b with
  | TextBlock _ _ _ (Some cs) _ => cs
  | _ => []
  end.

Definition sectionOf (title : string) (grouped : list Block) : list Block :=
  match find (SyncNoteItemGrouped.isTitled title) grouped with
  | Some b => nestedIn b
  | None => []
  end.

(** A block that carries the children key. *)
Definition hasChildren (b : Block) : Prop :=
  exists typed k rt cs c, b = TextBlock typed k rt (Some cs) c.

(** The callouts of colour [c] that wait in the current group. *)
Definition pending (c : string) (current : option string) (group : list Block)
  : list Block :=
  match current with
  | Some c0 => if String.eqb c0 c then filter isCallout group else []
  | None => []
  end.

(** What the second pass of the grouping keeps true for a colour [c] of
    title [title], [processed] being the blocks of [whole] it has seen:
    the callouts of colour [c] are those of the section and of the current
    group; no other heading holds one; the callouts of the current group
    have the current colour, which is one of the colours met; the headings
    are those built from the colours and each has its children. *)
Record Kept (whole : list Block) (c title : string)
       (processed : list Block) (st : SyncNoteItemGrouped.Pass) : Prop := {
  kept_section :
    filter isCallout (sectionOf title (SyncNoteItemGrouped.blocks st))
    ++ pending c (SyncNoteItemGrouped.currentCalloutColor st)
               (SyncNoteItemGrouped.currentGroup st)
    = filter (hasColor c) processed;
  kept_elsewhere :
    forall b x, In b (SyncNoteItemGrouped.blocks st) -> In x (nestedIn b) ->
                hasColor c x = true -> headingTitle b = Some title;
  kept_group :
    forall x cx, In x (SyncNoteItemGrouped.currentGroup st) ->
                 SyncNoteItemGrouped.calloutColor x = Some cx ->
                 SyncNoteItemGrouped.currentCalloutColor st = Some cx;
  kept_colour :
    forall c0, SyncNoteItemGrouped.currentCalloutColor st = Some c0 ->
               In c0 (SyncNoteItemGrouped.colorGroupsOf whole);
  kept_titles :
    map headingTitle (SyncNoteItemGrouped.blocks st)
    = map (fun c0 => Some (SyncNoteItemGrouped.titleOf c0))
          (SyncNoteItemGrouped.colorGroupsOf whole);
  kept_children : Forall hasChildren (SyncNoteItemGrouped.blocks st)
}.

Module Scenario.

(** The tree an HTML parser builds for [<div><p>Hello</p></div>]. *)
Definition helloHtml : string := "<div><p>Hello</p></div>".
Definition helloP : Element := mkElement "P" [] [] [TextNode "Hello"].
Definition helloDiv : Element := mkElement "DIV" [] [] [ElementNode helloP].
Definition helloBody : Element := mkElement "BODY" [] [] [ElementNode helloDiv].
Definition helloDocument : Document :=
  mkElement "HTML" [] [] [ElementNode (mkElement "HEAD" [] [] []); ElementNode helloBody].

Definition helloParagraph : Block :=
  TextBlock false paragraph [TextItem "Hello" None (Some noAnnotations)] None None.

(** An annotation paragraph: a highlight marker around a span coloured
    [#ffd400] whose text is [Key idea] between two quote glyphs (the code
    unit 34 here), a citation marker, and the comment with two tags. *)
Definition quoteGlyph : string := String (ascii_of_nat 34) EmptyString.
Definition colorSpan : Element :=
  mkElement "SPAN" [] [("style", "background-color: #ffd400")]
            [TextNode (quoteGlyph ++ "Key idea" ++ quoteGlyph)%string].
Definition highlightSpan : Element :=
  mkElement "SPAN" ["highlight"] [] [ElementNode colorSpan].
Definition citationSpan : Element :=
  mkElement "SPAN" ["citation"] [] [TextNode "(Author 2020, p. 3)"].
Definition annotationP : Element :=
  mkElement "P" [] []
            [ ElementNode highlightSpan; TextNode " "; ElementNode citationSpan;
              TextNode " interesting #theory #review" ].
Definition annotationBody : Element := mkElement "BODY" [] [] [ElementNode annotationP].
Definition annotationDocument : Document :=
  mkElement "HTML" [] []
            [ElementNode (mkElement "HEAD" [] [] []); ElementNode annotationBody].
Definition annotationHtml : string := "<p>annotation with highlight, citation and tags</p>".

Definition keyIdeaCallout : Block :=
  TextBlock true callout [plainText "Key idea"] None (Some "yellow_background").
Definition keyIdeaParagraph : Block :=
  TextBlock true paragraph
            [ plainText ("interesting" ++ Js.LF)%string;
              TextItem "#theory" None (Some codeAnnotation);
              plainText " ";
              TextItem "#review" None (Some codeAnnotation) ]
            None None.

(** A second annotation, highlighted in green, with a comment and no tag. *)
Definition greenCallout : Block :=
  TextBlock true callout [plainText "Second passage"] None (Some "green_background").
Definition greenParagraph : Block :=
  TextBlock true paragraph [plainText ("to verify" ++ Js.LF)%string] None None.

(** The flat sequence the asynchronous converter returns for the two
    annotations, and the sections the specification expects for it. *)
Definition twoAnnotations : list Block :=
  [ keyIdeaCallout; keyIdeaParagraph; DividerBlock;
    greenCallout; greenParagraph; DividerBlock ].

Definition section (title : string) (children : list Block) : Block :=
  TextBlock true heading_3 [plainText title] (Some children) None.

Definition sectionsOfTriples : list Block :=
  [ section "Highlights" [keyIdeaCallout; keyIdeaParagraph; DividerBlock];
    section "Strong Points" [greenCallout; greenParagraph; DividerBlock] ].

(** The sections the grouping builds for it. *)
Definition sectionsAsBuilt : list Block :=
  [ section "Highlights"
            [ keyIdeaCallout;
              TextBlock true paragraph [plainText "interesting"] None None;
              TextBlock true paragraph
                        [ TextItem "#theory" None (Some codeAnnotation);
                          plainText " ";
                          TextItem "#review" None (Some codeAnnotation) ]
                        None None;
              DividerBlock ];
    section "Strong Points"
            [ greenCallout;
              TextBlock true paragraph [plainText "to verify"] None None;
              DividerBlock ] ].

(** Modelled from the spec: [getNotionColor] of [annotations] is not in the
    sources; the highlight colour is resolved by inspecting the inline style
    for a background colour and normalising it through the lookup table. *)
Definition inlineBackground (e : Element) : option string :=
  option_map (fun style => Js.trim (Js.replaceFirst "background-color:" EmptyString style))
             (Dom.getAttribute (Dom.attributes e) "style").

(** Modelled from the spec: the colour of a highlight span, from its inline
    background colour through [getNotionColorFromHex]. *)
Definition getNotionColor_fromStyle (e : Element) : option string :=
  match inlineBackground e with
  | Some value =>
      match FlatAnnotations.getNotionColorFromHex value with
      | StringValue token => Some token
      | PrototypeMember _ => None
      end
  | None => None
  end.

(** Stand-ins for the collaborators with which the scenarios run: elements
    without style carry no annotation, a text becomes one span with the
    inbound annotations and link, the parser knows the two fragments above,
    and the container is the body. *)
Definition parseKnown (html : string) : Document :=
  if String.eqb html helloHtml then helloDocument
  else if String.eqb html annotationHtml then annotationDocument
  else mkElement "HTML" [] [] [].

(** [element.href] of an absolute link whose attribute is written in its
    serialised form, and [node.type] as the DOM reflects the [type]
    attribute on anchors, lists and list items. *)
Definition hrefAsWritten (element : Element) : string :=
  match Dom.getAttribute (Dom.attributes element) "href" with
  | Some v => v
  | None => EmptyString
  end.

Definition typeAttribute (node : Node) : option string :=
  match node with
  | ElementNode element =>
      if existsb (String.eqb (Dom.tagName element)) ["A"; "OL"; "UL"; "LI"]
      then Some (match Dom.getAttribute (Dom.attributes element) "type" with
                 | Some v => v
                 | None => EmptyString
                 end)
      else None
  | _ => None
  end.

Definition standIn : Collaborators :=
  {| getAnnotations := fun _ => noAnnotations;
     getNotionColor := getNotionColor_fromStyle;
     buildRichText := fun text o =>
                        if Js.truthy text then [TextItem text (link o) (annotations o)]
                        else [];
     parseHTML := parseKnown;
     findContainer := Dom.body;
     imageAnnotationBlocks := fun _ _ => FlatAnnotations.createFillerBlocks;
     href := hrefAsWritten;
     typeProperty := typeAttribute |}.

(** The same stand-ins with a document in which no container is found. *)
Definition withoutContainer : Collaborators :=
  {| getAnnotations := fun _ => noAnnotations;
     getNotionColor := getNotionColor_fromStyle;
     buildRichText := fun text o =>
                        if Js.truthy text then [TextItem text (link o) (annotations o)]
                        else [];
     parseHTML := parseKnown;
     findContainer := fun _ => None;
     imageAnnotationBlocks := fun _ _ => FlatAnnotations.createFillerBlocks;
     href := hrefAsWritten;
     typeProperty := typeAttribute |}.

(** The same stand-ins with a parser that gives every note the tree of
    [<h1>Title</h1><ul><li>item</li></ul>]: a container without any
    paragraph element. *)
Definition titleAndListDocument : Document :=
  mkElement "HTML" [] []
    [ElementNode
       (mkElement "BODY" [] []
          [ ElementNode (mkElement "H1" [] [] [TextNode "Title"]);
            ElementNode
              (mkElement "UL" [] []
                 [ElementNode (mkElement "LI" [] [] [TextNode "item"])]) ])].

Definition withoutParagraph : Collaborators :=
  {| getAnnotations := fun _ => noAnnotations;
     getNotionColor := getNotionColor_fromStyle;
     buildRichText := fun text o =>
                        if Js.truthy text then [TextItem text (link o) (annotations o)]
                        else [];
     parseHTML := fun _ => titleAndListDocument;
     findContainer := Dom.body;
     imageAnnotationBlocks := fun _ _ => FlatAnnotations.createFillerBlocks;
     href := hrefAsWritten;
     typeProperty := typeAttribute |}.

(** The stand-ins with a parser that gives every note one tree. *)
Definition parsedAs (doc : Document) : Collaborators :=
  {| getAnnotations := fun _ => noAnnotations;
     getNotionColor := getNotionColor_fromStyle;
     buildRichText := fun text o =>
                        if Js.truthy text then [TextItem text (link o) (annotations o)]
                        else [];
     parseHTML := fun _ => doc;
     findContainer := Dom.body;
     imageAnnotationBlocks := fun _ _ => FlatAnnotations.createFillerBlocks;
     href := hrefAsWritten;
     typeProperty := typeAttribute |}.

(** [<p>Hello</p><span>aside</span>]: a paragraph and inline text at the
    top level. *)
Definition asideSpan : Element := mkElement "SPAN" [] [] [TextNode "aside"].
Definition paragraphAndSpanBody : Element :=
  mkElement "BODY" [] [] [ElementNode helloP; ElementNode asideSpan].
Definition paragraphAndSpanDocument : Document :=
  mkElement "HTML" [] [] [ElementNode paragraphAndSpanBody].

(** [<ul><li>item</li></ul><span>Hello</span>]: a list and inline text at
    the top level. *)
Definition itemList : Element :=
  mkElement "UL" [] [] [ElementNode (mkElement "LI" [] [] [TextNode "item"])].
Definition helloSpan : Element := mkElement "SPAN" [] [] [TextNode "Hello"].
Definition listAndSpanBody : Element :=
  mkElement "BODY" [] [] [ElementNode itemList; ElementNode helloSpan].
Definition listAndSpanDocument : Document :=
  mkElement "HTML" [] [] [ElementNode listAndSpanBody].

(** [<ul><li><p>Hello</p></li></ul>]: a list item whose first child is a
    paragraph with text only. *)
Definition helloItem : Element := mkElement "LI" [] [] [ElementNode helloP].
Definition helloList : Element := mkElement "UL" [] [] [ElementNode helloItem].

(** [<ul><li><a type="block">x</a></li></ul>]: a list item with a child
    whose [type] property reads 'block'. *)
Definition typedAnchor : Element :=
  mkElement "A" [] [("type", "block")] [TextNode "x"].
Definition typedItem : Element := mkElement "LI" [] [] [ElementNode typedAnchor].
Definition typedList : Element := mkElement "UL" [] [] [ElementNode typedItem].
Definition typedListDocument : Document :=
  mkElement "HTML" [] [] [ElementNode (mkElement "BODY" [] [] [ElementNode typedList])].

End Scenario.

(* ================================================================== *)
(** * Properties of the JavaScript helpers *)
(* ================================================================== *)

(** [toUpperCase] beyond ASCII: the e with acute accent, the sharp s and
    the division sign. *)
Lemma toUpperCase_latin1 :
  Js.toUpperCase (String (ascii_of_nat 233) EmptyString)
  = String (ascii_of_nat 201) EmptyString
  /\ Js.toUpperCase (String (ascii_of_nat 223) EmptyString) = "SS"
  /\ Js.toUpperCase (String (ascii_of_nat 247) "a") = String (ascii_of_nat 247) "A".
Proof. repeat split. Qed.

Lemma slice_inner {A : Type} (a z : A) (mid : list A) :
  Js.slice 1 (-1) (a :: mid ++ [z]) = mid.
Proof.
  unfold Js.slice, Js.clampIndex.
  assert (L : List.length (a :: mid ++ [z]) = S (S (List.length mid))).
  { simpl. rewrite length_app. simpl. lia. }
  rewrite L.
  replace (1 <? 0)%Z with false by reflexivity.
  replace (-1 <? 0)%Z with true by reflexivity.
  replace (Z.to_nat (Z.min 1 (Z.of_nat (S (S (List.length mid)))))) with 1 by lia.
  replace (Z.to_nat (Z.max (Z.of_nat (S (S (List.length mid))) + -1) 0
                     - Z.min 1 (Z.of_nat (S (S (List.length mid))))))
    with (List.length mid) by lia.
  simpl. rewrite firstn_app, firstn_all, Nat.sub_diag. simpl.
  apply app_nil_r.
Qed.

Lemma slice_drop_last {A : Type} (l : list A) (z : A) :
  Js.slice 0 (-1) (l ++ [z]) = l.
Proof.
  unfold Js.slice, Js.clampIndex.
  rewrite length_app. simpl List.length.
  replace (0 <? 0)%Z with false by reflexivity.
  replace (-1 <? 0)%Z with true by reflexivity.
  replace (Z.to_nat (Z.min 0 (Z.of_nat (List.length l + 1)))) with 0 by lia.
  replace (Z.to_nat (Z.max (Z.of_nat (List.length l + 1) + -1) 0
                     - Z.min 0 (Z.of_nat (List.length l + 1))))
    with (List.length l) by lia.
  simpl. rewrite firstn_app, firstn_all, Nat.sub_diag. simpl.
  apply app_nil_r.
Qed.

Lemma slice_nat {A : Type} (a b : nat) (l : list A) :
  Js.slice (Z.of_nat a) (Z.of_nat b) l
  = firstn (Nat.min b (List.length l) - Nat.min a (List.length l))
           (skipn (Nat.min a (List.length l)) l).
Proof.
  unfold Js.slice, Js.clampIndex.
  replace (Z.of_nat a <? 0)%Z with false by (symmetry; apply Z.ltb_ge; lia).
  replace (Z.of_nat b <? 0)%Z with false by (symmetry; apply Z.ltb_ge; lia).
  f_equal; [ | f_equal ]; lia.
Qed.

(** What [trimStart] removes is white space, and what it leaves does not
    start with white space. *)
Lemma trimStart_spec (s : string) :
  exists ws,
    s = (ws ++ Js.trimStart s)%string
    /\ forallb Js.isWhiteSpace (Js.chars ws) = true
    /\ match Js.trimStart s with
       | String c _ => Js.isWhiteSpace c = false
       | EmptyString => True
       end.
Proof.
  unfold Js.chars.
  induction s as [ | c rest IH ].
  - exists EmptyString. simpl. auto.
  - simpl. destruct (Js.isWhiteSpace c) eqn:W.
    + destruct IH as (ws & E & F & G).
      exists (String c ws). cbn [append list_ascii_of_string forallb].
      rewrite W, F, <- E. auto.
    + exists EmptyString. simpl. auto.
Qed.

(** [trimEnd] likewise at the other end. *)
Lemma trimEnd_last (s t : string) (c : ascii) :
  Js.trimEnd s = (t ++ String c EmptyString)%string -> Js.isWhiteSpace c = false.
Proof.
  revert t. induction s as [ | a rest IH ]; intros t E.
  - destruct t; discriminate E.
  - simpl in E. destruct (Js.trimEnd rest) as [ | d kept ] eqn:T.
    + destruct (Js.isWhiteSpace a) eqn:W.
      * destruct t; discriminate E.
      * destruct t as [ | b t' ]; simpl in E.
        -- injection E as <-. exact W.
        -- injection E as _ E. destruct t'; discriminate E.
    + destruct t as [ | b t' ]; simpl in E.
      * discriminate E.
      * injection E as _ E. apply (IH t'). exact E.
Qed.

Lemma trimEnd_spec (s : string) :
  exists ws,
    s = (Js.trimEnd s ++ ws)%string
    /\ forallb Js.isWhiteSpace (Js.chars ws) = true
    /\ (forall t c, Js.trimEnd s = (t ++ String c EmptyString)%string ->
                    Js.isWhiteSpace c = false).
Proof.
  assert (P : exists ws, s = (Js.trimEnd s ++ ws)%string
                         /\ forallb Js.isWhiteSpace (Js.chars ws) = true).
  { unfold Js.chars.
    induction s as [ | c rest IH ].
    - exists EmptyString. simpl. auto.
    - destruct IH as (ws & E & F). simpl.
      destruct (Js.trimEnd rest) as [ | d kept ] eqn:T.
      + destruct (Js.isWhiteSpace c) eqn:W.
        * exists (String c ws). cbn [append list_ascii_of_string forallb] in *.
          rewrite W, F, <- E. auto.
        * exists ws. cbn [append] in *. split; [ congruence | exact F ].
      + exists ws. cbn [append] in *. split; [ congruence | exact F ]. }
  destruct P as (ws & E & F).
  exists ws. repeat split; auto.
  intros t c. apply trimEnd_last.
Qed.

(* ================================================================== *)
(** * The batch loop *)
(* ================================================================== *)

Lemma below_ceilDiv (len size i : nat) :
  0 < size -> (i < ceilDiv len size <-> i * size < len).
Proof.
  intros P. unfold ceilDiv.
  pose proof (Nat.div_mod_eq (len + size - 1) size) as D.
  pose proof (Nat.mod_upper_bound (len + size - 1) size) as M.
  split; intros L; nia.
Qed.

Lemma ceilDiv_covers (len size : nat) :
  0 < size -> len <= ceilDiv len size * size.
Proof.
  intros P.
  destruct (Nat.le_gt_cases len (ceilDiv len size * size)) as [ | G ]; [ assumption | ].
  apply (below_ceilDiv len size (ceilDiv len size) P) in G. lia.
Qed.

Lemma firstn_then_firstn {A : Type} (a b : nat) (l : list A) :
  firstn a l ++ firstn b (skipn a l) = firstn (a + b) l.
Proof.
  revert l. induction a as [ | a IH ]; intros l.
  - reflexivity.
  - destruct l as [ | x l ].
    + simpl. rewrite firstn_nil. reflexivity.
    + simpl. f_equal. apply IH.
Qed.

Lemma concat_windows {A : Type} (size n : nat) (l : list A) :
  List.concat (map (fun i => firstn size (skipn (i * size) l)) (seq 0 n))
  = firstn (n * size) l.
Proof.
  induction n as [ | n IH ].
  - reflexivity.
  - rewrite seq_S, map_app, concat_app, IH. simpl.
    rewrite app_nil_r, firstn_then_firstn. f_equal. lia.
Qed.

Lemma window_length {A : Type} (size i : nat) (l : list A) :
  List.length (firstn size (skipn (i * size) l))
  = Nat.min size (List.length l - i * size).
Proof. rewrite length_firstn, length_skipn. reflexivity. Qed.

(** One turn of the loop on a window that starts inside the array. *)
Lemma pushBatch_inside {A : Type} (size i : nat) (blocks : list A)
      (batches : list (list A)) :
  0 < size -> i * size < List.length blocks ->
  pushBatch size blocks batches i
  = batches ++ [firstn size (skipn (i * size) blocks)].
Proof.
  intros P L. unfold pushBatch. rewrite slice_nat.
  replace (Nat.min (i * size) (List.length blocks)) with (i * size) by lia.
  replace (Nat.min (Nat.min (i * size + size) (List.length blocks))
                   (List.length blocks) - i * size)
    with (Nat.min size (List.length blocks - i * size)) by lia.
  assert (E : firstn (Nat.min size (List.length blocks - i * size))
                     (skipn (i * size) blocks)
              = firstn size (skipn (i * size) blocks)).
  { destruct (Nat.le_ge_cases size (List.length blocks - i * size)).
    - f_equal. lia.
    - rewrite !firstn_all2; [ reflexivity | | ]; rewrite length_skipn; lia. }
  rewrite E.
  destruct (0 <? List.length (firstn size (skipn (i * size) blocks))) eqn:Z.
  - reflexivity.
  - apply Nat.ltb_ge in Z. rewrite window_length in Z. lia.
Qed.

Lemma loop_inside {A : Type} (size n : nat) (blocks : list A) :
  0 < size -> (forall i, i < n -> i * size < List.length blocks) ->
  fold_left (pushBatch size blocks) (seq 0 n) []
  = map (fun i => firstn size (skipn (i * size) blocks)) (seq 0 n).
Proof.
  intros P. induction n as [ | n IH ]; intros In.
  - reflexivity.
  - rewrite seq_S, fold_left_app, map_app. simpl.
    rewrite IH by (intros; apply In; lia).
    apply pushBatch_inside; [ assumption | apply In; lia ].
Qed.

(** With a positive batch size the loop ends and computes the partition. *)
Lemma loop_partitions {A : Type} (size : nat) (blocks : list A) :
  0 < size ->
  match numBatchesOf (List.length blocks) size with
  | Finite numBatches =>
      fold_left (pushBatch size blocks) (seq 0 numBatches) []
      = partitionBySize size blocks
  | _ => False
  end.
Proof.
  intros P. unfold numBatchesOf, partitionBySize.
  destruct size as [ | size' ]; [ lia | ].
  set (size := S size') in *.
  destruct blocks as [ | b blocks ].
  - assert (Z : ceilDiv 0 size = 0) by (unfold ceilDiv; apply Nat.div_small; lia).
    cbn [List.length]. rewrite Z. cbn [Nat.max seq fold_left map].
    unfold pushBatch. rewrite slice_nat. reflexivity.
  - set (l := b :: blocks).
    assert (C : 1 <= ceilDiv (List.length l) size).
    { apply (below_ceilDiv (List.length l) size 0 P). simpl. lia. }
    rewrite Nat.max_r by exact C.
    apply loop_inside; [ exact P | ].
    intros i Hi. apply below_ceilDiv; assumption.
Qed.

Lemma batchesOf_partition {A : Type} (limit : nat) (blocks : list A) :
  0 < limit ->
  batchesOf limit blocks = Returns (partitionBySize (Nat.min limit 100) blocks).
Proof.
  intros P. unfold batchesOf.
  pose proof (loop_partitions (Nat.min limit 100) blocks ltac:(lia)) as L.
  destruct (numBatchesOf (List.length blocks) (Nat.min limit 100));
    [ rewrite L; reflexivity | contradiction | contradiction ].
Qed.

Lemma partition_concat {A : Type} (size : nat) (l : list A) :
  0 < size -> List.concat (partitionBySize size l) = l.
Proof.
  intros P. unfold partitionBySize. rewrite concat_windows.
  apply firstn_all2. apply ceilDiv_covers. exact P.
Qed.

Lemma partition_sizes {A : Type} (size : nat) (l : list A) :
  0 < size ->
  Forall (fun batch => 0 < List.length batch /\ List.length batch <= size)
         (partitionBySize size l).
Proof.
  intros P. unfold partitionBySize. apply Forall_map, Forall_forall.
  intros i Hi. apply in_seq in Hi.
  assert (L : i * size < List.length l) by (apply below_ceilDiv; [ assumption | lia ]).
  rewrite window_length. lia.
Qed.

(** Every batch but the last is full. *)
Lemma partition_full {A : Type} (size : nat) (l : list A) :
  0 < size ->
  Forall (fun batch => List.length batch = size)
         (removelast (partitionBySize size l)).
Proof.
  intros P. unfold partitionBySize.
  destruct (ceilDiv (List.length l) size) as [ | n ] eqn:C.
  - constructor.
  - rewrite seq_S, map_app. cbn [map]. rewrite removelast_last.
    apply Forall_map, Forall_forall. intros i Hi. apply in_seq in Hi.
    assert (L : S i * size < List.length l)
      by (apply below_ceilDiv; [ assumption | lia ]).
    rewrite window_length. simpl in L. lia.
Qed.

(* ================================================================== *)
(** * The batch builder: claims C4 and C10 *)
(* ================================================================== *)

(** C4.  For every block sequence and every maximum element count (a
    positive count), the batch loop of [buildNoteBlockBatches] returns, and
    what it returns is a sequence of non-empty slices, none longer than the
    maximum, whose concatenation is the input in its order.  An empty
    input gives no batch at all, and 250 blocks under a limit of 100 give
    the three batches of the first 100, the next 100 and the last 50. *)
Theorem batches_cover_input_in_order (A : Type) (limit : nat) (blocks : list A) :
  0 < limit ->
  (exists batches,
      batchesOf limit blocks = Returns batches
      /\ List.concat batches = blocks
      /\ Forall (fun batch => batch <> [] /\ List.length batch <= limit) batches)
  /\ batchesOf limit (@nil A) = Returns []
  /\ (forall f : nat -> A,
         batchesOf 100 (map f (seq 0 250))
         = Returns [map f (seq 0 100); map f (seq 100 100); map f (seq 200 50)]).
Proof.
  intros P. split; [ | split ].
  - exists (partitionBySize (Nat.min limit 100) blocks).
    split; [ apply batchesOf_partition; exact P | ].
    split; [ apply partition_concat; lia | ].
    eapply Forall_impl; [ | apply (partition_sizes (Nat.min limit 100)); lia ].
    intros batch [Pos Le]. split; [ | lia ].
    intros E. rewrite E in Pos. simpl in Pos. lia.
  - rewrite batchesOf_partition by exact P. unfold partitionBySize.
    cbn [List.length].
    replace (ceilDiv 0 (Nat.min limit 100)) with 0
      by (symmetry; unfold ceilDiv; apply Nat.div_small; lia).
    reflexivity.
  - intros f. rewrite batchesOf_partition by lia. vm_compute. reflexivity.
Qed.

Lemma batches_cover_input_in_order_witness :
  0 < 100
  /\ exists batches,
       batchesOf 100 (seq 0 250) = Returns batches
       /\ List.concat batches = seq 0 250
       /\ Forall (fun batch => batch <> [] /\ List.length batch <= 100) batches.
Proof.
  split; [ lia | ].
  apply (batches_cover_input_in_order nat 100 (seq 0 250)). lia.
Defined.

(** C10.  Whatever positive element limit is configured, the batch builder
    cuts with the size [min limit 100]: it returns the partition of the
    blocks into windows of that size, every batch but the last holds
    exactly that many blocks, and no batch holds more than 100, also when
    the limit is larger. *)
Theorem batch_size_is_capped_at_100 (A : Type) (limit : nat) (blocks : list A) :
  0 < limit ->
  batchesOf limit blocks = Returns (partitionBySize (Nat.min limit 100) blocks)
  /\ Forall (fun batch => List.length batch = Nat.min limit 100)
            (removelast (partitionBySize (Nat.min limit 100) blocks))
  /\ Forall (fun batch => List.length batch <= 100)
            (partitionBySize (Nat.min limit 100) blocks).
Proof.
  intros P. split; [ apply batchesOf_partition; exact P | split ].
  - apply partition_full. lia.
  - eapply Forall_impl; [ | apply (partition_sizes (Nat.min limit 100)); lia ].
    intros batch [_ Le]. lia.
Qed.

Lemma batch_size_is_capped_at_100_witness :
  0 < 1000
  /\ batchesOf 1000 (seq 0 250)
     = Returns (partitionBySize (Nat.min 1000 100) (seq 0 250))
  /\ Forall (fun batch => List.length batch = Nat.min 1000 100)
            (removelast (partitionBySize (Nat.min 1000 100) (seq 0 250)))
  /\ Forall (fun batch => List.length batch <= 100)
            (partitionBySize (Nat.min 1000 100) (seq 0 250)).
Proof.
  split; [ lia | ].
  apply (batch_size_is_capped_at_100 nat 1000 (seq 0 250)). lia.
Defined.

(** A limit of zero is outside both claims: on a non-empty input the
    number of batches is infinite and the loop has no end. *)
Lemma zero_limit_never_returns (A : Type) (b : A) (blocks : list A) :
  batchesOf 0 (b :: blocks) = NeverReturns.
Proof. reflexivity. Qed.

(* ================================================================== *)
(** * Trimming: claim C5 *)
(* ================================================================== *)

(** C5, as the code has it.  [trimRichText] returns an empty sequence
    unchanged; trims a single text span at both ends; on two spans or more
    trims the start of the first and the end of the last and leaves the
    spans between them as they are; drops a first or last span that
    trimming empties; and never alters an equation span.  So [" Hi "]
    becomes ["Hi"], and [" Hi ", "there", " you "] becomes ["Hi ", "there",
    " you"]: the inner ends of the first and the last span keep their
    space. *)
Theorem trimRichText_trims_the_outer_ends :
  trimRichText [] = []
  /\ (forall content link ann,
         trimRichText [TextItem content link ann]
         = if Js.truthy (Js.trim content)
           then [TextItem (Js.trim content) link ann] else [])
  /\ (forall first mid last,
         trimRichText (first :: mid ++ [last])
         = updateContent (Some first) Js.trimStart
           ++ mid ++ updateContent (Some last) Js.trimEnd)
  /\ (forall content link ann updater,
         updateContent (Some (TextItem content link ann)) updater
         = if Js.truthy (updater content)
           then [TextItem (updater content) link ann] else [])
  /\ (forall expression updater,
         updateContent (Some (EquationItem expression)) updater
         = [EquationItem expression])
  /\ (forall expression, trimRichText [EquationItem expression] = [EquationItem expression])
  /\ trimRichText [plainText " Hi "] = [plainText "Hi"]
  /\ trimRichText [plainText " Hi "; plainText "there"; plainText " you "]
     = [plainText "Hi "; plainText "there"; plainText " you"].
Proof.
  repeat split; try reflexivity.
  intros first mid last. unfold trimRichText.
  assert (L : List.length (first :: mid ++ [last]) = S (S (List.length mid))).
  { simpl. rewrite length_app. simpl. lia. }
  rewrite L, slice_inner.
  replace (S (S (List.length mid)) - 1) with (S (List.length mid)) by lia.
  simpl nth_error. rewrite nth_error_app2 by lia.
  rewrite Nat.sub_diag. reflexivity.
Qed.

(** The second example of claim C5 as the specification words it does not
    hold: the three spans come out as ["Hi ", "there", " you"], not as
    ["Hi", "there", "you"]. *)
Lemma trimRichText_keeps_inner_spaces :
  trimRichText [plainText " Hi "; plainText "there"; plainText " you "]
  = [plainText "Hi "; plainText "there"; plainText " you"]
  /\ trimRichText [plainText " Hi "; plainText "there"; plainText " you "]
     <> [plainText "Hi"; plainText "there"; plainText "you"].
Proof. split; [ reflexivity | vm_compute; discriminate ]. Qed.

(* ================================================================== *)
(** * The colour table: claim C7 *)
(* ================================================================== *)

Lemma ownProperty_value (table : list (string * string)) (key value : string) :
  ownProperty table key = Some value -> In value (map snd table).
Proof.
  induction table as [ | [k v] rest IH ]; simpl.
  - discriminate.
  - destruct (String.eqb k key).
    + intros E. injection E as ->. left. reflexivity.
    + intros E. right. apply IH. exact E.
Qed.

Lemma ownProperty_key (table : list (string * string)) (key : string) :
  ownProperty table key = None -> ~ In key (map fst table).
Proof.
  induction table as [ | [k v] rest IH ]; simpl.
  - intros _ [].
  - destruct (String.eqb k key) eqn:E.
    + discriminate.
    + intros N [ K | K ].
      * subst k. rewrite String.eqb_refl in E. discriminate.
      * apply (IH N K).
Qed.

(** C7, as the code has it.  The colour is lower-cased and trimmed at its
    two ends, then looked up as it stands in a table of sixteen keys: the
    hex form and the [rgb(r, g, b)] form (one space after each comma) of
    eight colours, each mapped to one of eight background tokens.  A key of
    the table gives its token; any other value gives the yellow token,
    provided it does not name a member that a plain object inherits. *)
Theorem getNotionColorFromHex_reads_the_table (hexColor : string) :
  let key := Js.trim (Js.toLowerCase hexColor) in
  (forall token,
      ownProperty FlatAnnotations.colorMap key = Some token ->
      FlatAnnotations.getNotionColorFromHex hexColor = StringValue token
      /\ In token backgroundTokens)
  /\ (ownProperty FlatAnnotations.colorMap key = None ->
      ~ In key objectPrototypeMembers ->
      FlatAnnotations.getNotionColorFromHex hexColor = StringValue "yellow_background")
  /\ map fst FlatAnnotations.colorMap
     = [ "#ffd400"; "#ff6666"; "#ffb437"; "#5ff036";
         "#50c8e5"; "#a28ae5"; "#e56eee"; "#aaaaaa";
         "rgb(255, 212, 0)"; "rgb(255, 102, 102)"; "rgb(255, 180, 55)";
         "rgb(95, 240, 54)"; "rgb(80, 200, 229)"; "rgb(162, 138, 229)";
         "rgb(229, 110, 238)"; "rgb(170, 170, 170)" ]
  /\ map snd FlatAnnotations.colorMap = backgroundTokens ++ backgroundTokens.
Proof.
  intros key. unfold FlatAnnotations.getNotionColorFromHex, readProperty.
  fold key.
  split; [ intros token Own; split | split; [ | split; reflexivity ] ].
  - rewrite Own.
    apply ownProperty_value in Own. simpl in Own.
    repeat (destruct Own as [ <- | Own ]; [ reflexivity | ]). contradiction.
  - apply ownProperty_value in Own. simpl in Own.
    repeat (destruct Own as [ <- | Own ]; [ simpl; tauto | ]). contradiction.
  - intros N P. rewrite N.
    destruct (existsb (String.eqb key) objectPrototypeMembers) eqn:E.
    + exfalso. apply P. apply existsb_exists in E. destruct E as (m & I & Q).
      apply String.eqb_eq in Q. subst m. exact I.
    + reflexivity.
Qed.

(** Claim C7 as the specification words it fails on white space inside the
    value: [rgb(255,102,102)] is the red key of the table up to white
    space, and the function answers yellow. *)
Lemma getNotionColorFromHex_inner_space_matters :
  sameUpToCaseAndSpace "rgb(255,102,102)" "rgb(255, 102, 102)" = true
  /\ ownProperty FlatAnnotations.colorMap "rgb(255, 102, 102)" = Some "red_background"
  /\ FlatAnnotations.getNotionColorFromHex "rgb(255,102,102)"
     = StringValue "yellow_background"
  /\ FlatAnnotations.getNotionColorFromHex "  RGB(255, 102, 102) "
     = StringValue "red_background".
Proof. repeat split. Qed.

(** A value outside the table that names an inherited member is answered
    with that member, not with a token. *)
Lemma getNotionColorFromHex_inherited_member :
  FlatAnnotations.getNotionColorFromHex "Constructor" = PrototypeMember "constructor".
Proof. reflexivity. Qed.

(* ================================================================== *)
(** * The raw child nodes of a parent *)
(* ================================================================== *)

Section RawChildNodes.
Context `{Collaborators}.

Lemma reduction_thrown (nodes : list Node) (options : RichTextOptions) :
  fold_left (fun reduced childNode =>
               andThen reduced (fun collected =>
               andThen (convertNodeOfDomNode childNode options) (fun result =>
               Returns (appendResult collected result))))
            nodes Throws
  = Throws.
Proof. induction nodes as [ | n nodes IH ]; [ reflexivity | exact IH ]. Qed.

(** [convertChildNodes] hands every child node to [convertNode] as it is:
    the call throws at the first child whose [type] property reads 'block'
    or 'list', and no other child gives a result. *)
Lemma convertChildNodes_outcome (node : Element) (options : RichTextOptions) :
  convertChildNodes node options
  = if existsb mistaken (Dom.childNodes node) then Throws else Returns [].
Proof.
  unfold convertChildNodes. induction (Dom.childNodes node) as [ | n nodes IH ].
  - reflexivity.
  - cbn [fold_left existsb andThen]. unfold convertNodeOfDomNode at 2, mistaken at 1.
    destruct (typeProperty n) as [ t | ]; [ | exact IH ].
    destruct (String.eqb t "block" || String.eqb t "list"); [ | exact IH ].
    cbn [andThen orb]. apply reduction_thrown.
Qed.

Lemma convertParentElement_outcome (parent : BlockElement.t) (options : RichTextOptions) :
  convertParentElement parent options
  = if existsb mistaken (Dom.childNodes (BlockElement.element parent)) then Throws
    else Returns (blockResult (TextBlock false (BlockElement.blockType parent) [] None
                                         (colorKey (BlockElement.color parent)))).
Proof.
  unfold convertParentElement. rewrite convertChildNodes_outcome.
  destruct (existsb mistaken (Dom.childNodes (BlockElement.element parent)));
    reflexivity.
Qed.

(** The callback of [convertListElement] on one child of an ordered or
    unordered list. *)
Lemma convertListElement_child (node element : Element) (options : RichTextOptions)
      (itemType : BlockType) :
  In (Dom.tagName node, itemType) [("OL", numbered_list_item); ("UL", bulleted_list_item)] ->
  match parseNode (Some node) (ElementNode element) with
  | Some (BlockNode parsedChild) =>
      if BlockElement.supportsChildren parsedChild
         && Js.endsWith (blockTypeName (BlockElement.blockType parsedChild)) "list_item"
      then andThen (convertParentElement parsedChild options)
                   (fun converted => Returns (Some converted))
      else Returns None
  | _ => Returns None
  end
  = if isPlainListItem element
    then if existsb mistaken (Dom.childNodes element) then Throws
         else Returns (Some (blockResult
                               (TextBlock false itemType [] None
                                          (colorKey (color (getAnnotations element))))))
    else Returns None.
Proof.
  intros Table. unfold isPlainListItem, parseNode.
  destruct (String.eqb (Dom.tagName element) "LI") eqn:LI.
  - apply String.eqb_eq in LI. rewrite LI. cbn [String.eqb Ascii.eqb Bool.eqb andb].
    destruct (Dom.hasClass "highlight" element); [ reflexivity | ].
    destruct (Dom.hasClass "citation" element); [ reflexivity | ].
    unfold tagSwitch. rewrite LI. cbn [String.eqb Ascii.eqb Bool.eqb orb negb andb].
    unfold parseListItemElement, parentTag, tagIs. cbn [option_map].
    simpl in Table. destruct Table as [ E | [ E | [] ] ]; injection E as <- <-;
      cbn [String.eqb Ascii.eqb Bool.eqb];
      rewrite convertParentElement_outcome;
      cbn [parseBlockElement BlockElement.element BlockElement.blockType
             BlockElement.color BlockElement.supportsChildren];
      destruct (existsb mistaken (Dom.childNodes element)); reflexivity.
  - cbn [andb]. unfold tagSwitch, parsePreElement, parseSpanElement, parseAnchorElement,
      parseRichTextElement. rewrite LI.
    repeat match goal with
           | |- context [ String.eqb (Dom.tagName element) ?lit ] =>
               destruct (String.eqb (Dom.tagName element) lit)
           | |- context [ Dom.hasClass ?c element ] => destruct (Dom.hasClass c element)
           | |- context [ getMathExpression element ] =>
               destruct (getMathExpression element)
           | |- context [ isHttpURL ?u ] => destruct (isHttpURL u)
           end; reflexivity.
Qed.

(** The items of a list, converted in order. *)
Lemma convertListElement_items (node : Element) (options : RichTextOptions)
      (itemType : BlockType) (elements : list Element) :
  In (Dom.tagName node, itemType) [("OL", numbered_list_item); ("UL", bulleted_list_item)] ->
  andThen
    (eachInOrder
       (fun element =>
          match parseNode (Some node) (ElementNode element) with
          | Some (BlockNode parsedChild) =>
              if BlockElement.supportsChildren parsedChild
                 && Js.endsWith (blockTypeName (BlockElement.blockType parsedChild))
                                "list_item"
              then andThen (convertParentElement parsedChild options)
                           (fun converted => Returns (Some converted))
              else Returns None
          | _ => Returns None
          end)
       elements)
    (fun mapped => Returns (Js.compactMap (fun r => r) mapped))
  = if existsb (fun item => existsb mistaken (Dom.childNodes item))
               (filter isPlainListItem elements)
    then Throws
    else Returns (map (fun item =>
                         blockResult (TextBlock false itemType [] None
                                                (colorKey (color (getAnnotations item)))))
                      (filter isPlainListItem elements)).
Proof.
  intros Table. induction elements as [ | element rest IH ]; [ reflexivity | ].
  cbn [eachInOrder filter].
  rewrite (convertListElement_child node element options itemType Table).
  destruct (isPlainListItem element).
  - cbn [existsb map]. destruct (existsb mistaken (Dom.childNodes element));
      [ reflexivity | ].
    cbn [andThen orb].
    destruct (eachInOrder _ rest) as [ mapped | | ]; cbn [andThen] in IH |- *.
    + destruct (existsb _ (filter isPlainListItem rest)); [ discriminate IH | ].
      match type of IH with
      | Returns ?a = Returns ?b => assert (E : a = b) by congruence
      end.
      unfold Js.compactMap in E |- *. cbn [flat_map]. rewrite E. reflexivity.
    + destruct (existsb _ (filter isPlainListItem rest)); [ reflexivity | discriminate IH ].
    + destruct (existsb _ (filter isPlainListItem rest)); discriminate IH.
  - cbn [andThen].
    destruct (eachInOrder _ rest) as [ mapped | | ]; cbn [andThen] in IH |- *.
    + destruct (existsb _ (filter isPlainListItem rest)); [ discriminate IH | ].
      match type of IH with
      | Returns ?a = Returns ?b => assert (E : a = b) by congruence
      end.
      unfold Js.compactMap in E |- *. cbn [flat_map]. rewrite E. reflexivity.
    + destruct (existsb _ (filter isPlainListItem rest)); [ reflexivity | discriminate IH ].
    + destruct (existsb _ (filter isPlainListItem rest)); discriminate IH.
Qed.

(** Only [<ol>] and [<ul>] elements classify as lists. *)
Lemma parseNode_list (parentElement : option Element) (element list : Element) :
  parseNode parentElement (ElementNode element) = Some (ListNode list) ->
  list = element
  /\ exists itemType,
       In (Dom.tagName element, itemType)
          [("OL", numbered_list_item); ("UL", bulleted_list_item)].
Proof.
  unfold parseNode, tagSwitch, parsePreElement, parseSpanElement, parseAnchorElement,
    parseRichTextElement.
  destruct (String.eqb (Dom.tagName element) "OL") eqn:OL;
    destruct (String.eqb (Dom.tagName element) "UL") eqn:UL;
    repeat match goal with
           | |- context [ String.eqb (Dom.tagName element) ?lit ] =>
               destruct (String.eqb (Dom.tagName element) lit)
           | |- context [ Dom.hasClass ?c element ] => destruct (Dom.hasClass c element)
           | |- context [ getMathExpression element ] =>
               destruct (getMathExpression element)
           | |- context [ isHttpURL ?u ] => destruct (isHttpURL u)
           end;
    cbn [orb]; intros E; try discriminate E; injection E as <-;
    (split; [ reflexivity | ]).
  all: try (apply String.eqb_eq in OL; rewrite OL; exists numbered_list_item;
            left; reflexivity).
  all: apply String.eqb_eq in UL; rewrite UL; exists bulleted_list_item;
    right; left; reflexivity.
Qed.

(** A list at the top level: its items are converted, which may throw,
    and the [block] key of the result is [undefined]. *)
Lemma convertListElement_discarded (list : Element) (options : RichTextOptions)
      (itemType : BlockType) :
  In (Dom.tagName list, itemType) [("OL", numbered_list_item); ("UL", bulleted_list_item)] ->
  andThen (convertListElement list options)
          (fun converted => Returns (dotBlock (OfList converted)))
  = if holdsMistakenChild list then Throws else Returns None.
Proof.
  intros Table. unfold convertListElement.
  pose proof (convertListElement_items list options itemType (Dom.children list) Table)
    as Items.
  unfold holdsMistakenChild.
  destruct (eachInOrder _ (Dom.children list)) as [ mapped | | ];
    cbn [andThen] in Items |- *;
    destruct (existsb _ (filter isPlainListItem (Dom.children list)));
    try discriminate Items; reflexivity.
Qed.

(** The top level of the synchronous revisions, for any conversion of the
    block nodes that does not throw. *)
Lemma topLevel_outcome
      (convertNode : ParsedNode -> RichTextOptions -> Outcome (option Block))
      (convert : BlockElement.t -> RichTextOptions -> BlockResult)
      (container : Element) (options : RichTextOptions) (elements : list Element) :
  (forall parsed, convertNode (BlockNode parsed) options
                  = Returns (dotBlock (OfBlock (convert parsed options)))) ->
  (forall list, convertNode (ListNode list) options
                = andThen (convertListElement list options)
                          (fun converted => Returns (dotBlock (OfList converted)))) ->
  (forall node, (forall parsed, node <> BlockNode parsed) ->
                (forall list, node <> ListNode list) ->
                convertNode node options = Returns None) ->
  andThen
    (eachInOrder
       (fun element =>
          match parseNode (Some container) (ElementNode element) with
          | None => Returns None
          | Some parsedNode => convertNode parsedNode options
          end)
       elements)
    (fun mapped => Returns (Js.compactMap (fun b => b) mapped))
  = if existsb (isThrowingList container) elements then Throws
    else Returns
           (flat_map
              (fun element =>
                 match parseNode (Some container) (ElementNode element) with
                 | Some (BlockNode parsed) => [block (convert parsed options)]
                 | _ => []
                 end)
              elements).
Proof.
  intros OnBlock OnList OnOther.
  induction elements as [ | element rest IH ]; [ reflexivity | ].
  cbn [eachInOrder existsb flat_map]. unfold isThrowingList at 1.
  assert (Rest : forall value : option Block,
             andThen
               (andThen
                  (eachInOrder
                     (fun element =>
                        match parseNode (Some container) (ElementNode element) with
                        | None => Returns None
                        | Some parsedNode => convertNode parsedNode options
                        end) rest)
                  (fun ys => Returns (value :: ys)))
               (fun mapped => Returns (Js.compactMap (fun b => b) mapped))
             = if existsb (isThrowingList container) rest then Throws
               else Returns
                      (match value with Some b => [b] | None => [] end
                       ++ flat_map
                            (fun element =>
                               match parseNode (Some container) (ElementNode element) with
                               | Some (BlockNode parsed) => [block (convert parsed options)]
                               | _ => []
                               end) rest)).
  { intros value. destruct (eachInOrder _ rest) as [ mapped | | ];
      cbn [andThen] in IH |- *;
      destruct (existsb (isThrowingList container) rest);
      try discriminate IH; try reflexivity.
    match type of IH with
    | Returns ?a = Returns ?b => assert (E : a = b) by congruence
    end.
    unfold Js.compactMap in E |- *. cbn [flat_map]. rewrite E.
    destruct value; reflexivity. }
  destruct (parseNode (Some container) (ElementNode element)) as [ node | ] eqn:P.
  - destruct node as [ parsed | | e x | list | e x | a e l | t ].
    + rewrite OnBlock. cbn [andThen orb dotBlock]. apply Rest.
    + rewrite OnOther by (intros; discriminate). cbn [andThen orb]. apply (Rest None).
    + rewrite OnOther by (intros; discriminate). cbn [andThen orb]. apply (Rest None).
    + rewrite OnList. destruct (parseNode_list _ _ _ P) as (-> & itemType & Table).
      rewrite (convertListElement_discarded element options itemType Table).
      destruct (holdsMistakenChild element); [ reflexivity | ].
      cbn [andThen orb]. apply (Rest None).
    + rewrite OnOther by (intros; discriminate). cbn [andThen orb]. apply (Rest None).
    + rewrite OnOther by (intros; discriminate). cbn [andThen orb]. apply (Rest None).
    + rewrite OnOther by (intros; discriminate). cbn [andThen orb]. apply (Rest None).
  - cbn [andThen orb]. apply (Rest None).
Qed.

End RawChildNodes.

(* ================================================================== *)
(** * The top level of the conversion: claim C1 *)
(* ================================================================== *)

Section TopLevel.
Context `{Collaborators}.

Lemma without_list_nothing_throws (container : Element) (elements : list Element) :
  existsb (isList container) elements = false ->
  existsb (isThrowingList container) elements = false.
Proof.
  induction elements as [ | element rest IH ]; [ reflexivity | ].
  cbn [existsb]. intros NoList. apply orb_false_elim in NoList.
  destruct NoList as [Here There]. rewrite (IH There).
  unfold isList in Here. unfold isThrowingList.
  destruct (parseNode (Some container) (ElementNode element)) as [ node | ];
    [ | reflexivity ].
  destruct node; try reflexivity. discriminate Here.
Qed.

Lemma other_nodes_give_no_block
      (convertNode : ParsedNode -> RichTextOptions -> Outcome (option Block))
      (options : RichTextOptions) :
  (forall node,
      match node with
      | BlockNode _ | ListNode _ => True
      | _ => convertNode node options = Returns None
      end) ->
  forall node, (forall parsed, node <> BlockNode parsed) ->
               (forall list, node <> ListNode list) ->
               convertNode node options = Returns None.
Proof.
  intros Default node NoBlock NoList. specialize (Default node).
  destruct node as [ parsed | | | list | | | ]; try exact Default.
  - destruct (NoBlock parsed eq_refl).
  - destruct (NoList list eq_refl).
Qed.

(** C1, as the code has it by design.  For a note whose container has no
    list among its children, whatever [isAnnotation], each synchronous
    revision of the conversion returns blocks only: one for each child of
    the container that classifies as a block, in document order, and
    nothing else.  A child that classifies as inline content (rich text,
    text, math) is skipped by the default branch of [convertNode]: its
    rich text is not absorbed by any block and leaves nothing in the
    result.  Every block made by the revision that retags quotes is an
    object with its rich text and without children. *)
Theorem convertHtmlToBlocks_returns_blocks_only
        (html : string) (isAnnotation : bool) (container : Element) :
  findContainer (parseHTML html) = Some container ->
  existsb (isList container) (Dom.children container) = false ->
  HtmlToNotion.convertHtmlToBlocks html isAnnotation
  = Returns (blocksOfBlockChildren HtmlToNotion.convertBlockElement container
                                   (topOptions isAnnotation))
  /\ NestedAnnotations.convertHtmlToBlocks html isAnnotation
     = Returns (blocksOfBlockChildren NestedAnnotations.convertBlockElement container
                                      (topOptions isAnnotation))
  /\ (forall element,
         In element (Dom.children container) ->
         match parseNode (Some container) (ElementNode element) with
         | Some (BlockNode parsed) =>
             HtmlToNotion.convertNode (BlockNode parsed) (topOptions isAnnotation)
             = Returns (Some (block (HtmlToNotion.convertBlockElement
                                       parsed (topOptions isAnnotation))))
             /\ NestedAnnotations.convertNode (BlockNode parsed) (topOptions isAnnotation)
                = Returns (Some (block (NestedAnnotations.convertBlockElement
                                          parsed (topOptions isAnnotation))))
         | Some (ListNode _) => True
         | Some inline =>
             HtmlToNotion.convertNode inline (topOptions isAnnotation) = Returns None
             /\ NestedAnnotations.convertNode inline (topOptions isAnnotation)
                = Returns None
         | None => True
         end)
  /\ Forall (fun b => exists blockType richText c,
                 b = TextBlock false blockType richText None c)
            (blocksOfBlockChildren HtmlToNotion.convertBlockElement container
                                   (topOptions isAnnotation)).
Proof.
  intros Found NoList.
  unfold HtmlToNotion.convertHtmlToBlocks, NestedAnnotations.convertHtmlToBlocks.
  cbn zeta. rewrite Found. unfold blocksOfBlockChildren.
  split; [ | split; [ | split ] ].
  - rewrite (topLevel_outcome HtmlToNotion.convertNode HtmlToNotion.convertBlockElement).
    + rewrite without_list_nothing_throws by exact NoList. reflexivity.
    + reflexivity.
    + reflexivity.
    + apply other_nodes_give_no_block. intros node. destruct node; reflexivity || exact I.
  - rewrite (topLevel_outcome NestedAnnotations.convertNode
                              NestedAnnotations.convertBlockElement).
    + rewrite without_list_nothing_throws by exact NoList. reflexivity.
    + reflexivity.
    + reflexivity.
    + apply other_nodes_give_no_block. intros node. destruct node; reflexivity || exact I.
  - intros element Child.
    assert (Here : isList container element = false).
    { destruct (isList container element) eqn:L; [ | reflexivity ].
      rewrite <- NoList. symmetry. apply existsb_exists. exists element.
      split; [ exact Child | exact L ]. }
    unfold isList in Here.
    destruct (parseNode (Some container) (ElementNode element)) as [ node | ];
      [ | exact I ].
    destruct node; split; reflexivity.
  - apply Forall_forall. intros b In_. apply in_flat_map in In_.
    destruct In_ as (element & _ & In_).
    destruct (parseNode (Some container) (ElementNode element)) as [ node | ];
      [ | contradiction ].
    destruct node as [ parsed | | | | | | ]; try contradiction.
    unfold HtmlToNotion.convertBlockElement, convertPlainBlock, keyValue in In_.
    cbn [block] in In_. destruct In_ as [ <- | [] ].
    eexists. eexists. eexists. reflexivity.
Qed.

End TopLevel.

Lemma convertHtmlToBlocks_returns_blocks_only_witness :
  @HtmlToNotion.convertHtmlToBlocks (Scenario.parsedAs Scenario.paragraphAndSpanDocument)
                                    "<p>Hello</p><span>aside</span>" false
  = Returns (@blocksOfBlockChildren (Scenario.parsedAs Scenario.paragraphAndSpanDocument)
               (@HtmlToNotion.convertBlockElement
                  (Scenario.parsedAs Scenario.paragraphAndSpanDocument))
               Scenario.paragraphAndSpanBody (topOptions false)).
Proof.
  apply (@convertHtmlToBlocks_returns_blocks_only
           (Scenario.parsedAs Scenario.paragraphAndSpanDocument)
           "<p>Hello</p><span>aside</span>" false Scenario.paragraphAndSpanBody).
  - reflexivity.
  - reflexivity.
Defined.

(** Claim C1 as the specification words it, with every rich-text run
    absorbed into a block, fails on a note with a paragraph and a span at
    the top level: the container holds the rich text of both, the span
    converts to nothing, and the one block returned holds the text of the
    paragraph only. *)
Lemma top_level_rich_text_is_not_absorbed :
  Dom.children Scenario.paragraphAndSpanBody = [Scenario.helloP; Scenario.asideSpan]
  /\ @convertRichTextChildNodes (Scenario.parsedAs Scenario.paragraphAndSpanDocument)
                                Scenario.paragraphAndSpanBody (topOptions false)
     = [TextItem "Hello" None None; TextItem "aside" None (Some noAnnotations)]
  /\ @HtmlToNotion.convertHtmlToBlocks (Scenario.parsedAs Scenario.paragraphAndSpanDocument)
                                       "<p>Hello</p><span>aside</span>" false
     = Returns [Scenario.helloParagraph]
  /\ @NestedAnnotations.convertHtmlToBlocks
       (Scenario.parsedAs Scenario.paragraphAndSpanDocument)
       "<p>Hello</p><span>aside</span>" false
     = Returns [Scenario.helloParagraph].
Proof. repeat split. Qed.

(* ================================================================== *)
(** * List items: claim C9 *)
(* ================================================================== *)

Section ListItems.
Context `{Collaborators}.

Lemma parseBlockElement_type (element : Element) (blockType : BlockType) :
  BlockElement.blockType (parseBlockElement element blockType) = blockType
  /\ BlockElement.element (parseBlockElement element blockType) = element.
Proof. split; reflexivity. Qed.

(** C9.  For an [<li>] element the classifier gives the block type
    [numbered_list_item] under an [<ol>] parent, [bulleted_list_item] under
    a [<ul>] parent and [paragraph] under any other parent or none;
    [parseNode] hands every [<li>] that is no highlight or citation marker
    to this rule.  Nothing signals the malformed case: an [<li>] outside
    [<ol>] and [<ul>] is converted to a paragraph block. *)
Theorem list_item_type_follows_parent :
  (forall parentElement element,
      Dom.tagName parentElement = "OL" ->
      BlockElement.blockType (parseListItemElement (Some parentElement) element)
      = numbered_list_item)
  /\ (forall parentElement element,
         Dom.tagName parentElement = "UL" ->
         BlockElement.blockType (parseListItemElement (Some parentElement) element)
         = bulleted_list_item)
  /\ (forall parentElement element,
         Dom.tagName parentElement <> "OL" ->
         Dom.tagName parentElement <> "UL" ->
         BlockElement.blockType (parseListItemElement (Some parentElement) element)
         = paragraph)
  /\ (forall element,
         BlockElement.blockType (parseListItemElement None element) = paragraph)
  /\ (forall parentElement element,
         Dom.tagName element = "LI" ->
         Dom.hasClass "highlight" element = false ->
         Dom.hasClass "citation" element = false ->
         parseNode parentElement (ElementNode element)
         = Some (BlockNode (parseListItemElement parentElement element)))
  /\ (forall parentElement element options,
         Dom.tagName element = "LI" ->
         tagIs (parentTag parentElement) "OL" = false ->
         tagIs (parentTag parentElement) "UL" = false ->
         exists richText c,
           HtmlToNotion.convertNode
             (BlockNode (parseListItemElement parentElement element)) options
           = Returns (Some (TextBlock false paragraph richText None c))
           /\ NestedAnnotations.convertNode
                (BlockNode (parseListItemElement parentElement element)) options
              = Returns (Some (TextBlock false paragraph richText None c))).
Proof.
  split; [ | split; [ | split; [ | split; [ | split ] ] ] ].
  - intros parentElement element T. unfold parseListItemElement, parentTag, tagIs.
    cbn [option_map]. rewrite T. reflexivity.
  - intros parentElement element T. unfold parseListItemElement, parentTag, tagIs.
    cbn [option_map]. rewrite T. reflexivity.
  - intros parentElement element NotOL NotUL.
    unfold parseListItemElement, parentTag, tagIs. cbn [option_map].
    apply String.eqb_neq in NotOL, NotUL. rewrite NotOL, NotUL. reflexivity.
  - reflexivity.
  - intros parentElement element T NoHighlight NoCitation.
    unfold parseNode, tagSwitch. rewrite NoHighlight, NoCitation, T. reflexivity.
  - intros parentElement element options T NotOL NotUL.
    unfold parseListItemElement. rewrite NotOL, NotUL.
    unfold HtmlToNotion.convertNode, NestedAnnotations.convertNode,
      HtmlToNotion.convertBlockElement, NestedAnnotations.convertBlockElement.
    cbn [parseBlockElement BlockElement.element BlockElement.blockType].
    rewrite T. cbn [String.eqb Ascii.eqb Bool.eqb andb].
    rewrite Bool.andb_false_r. cbn [andb].
    unfold convertPlainBlock, keyValue, dotBlock. cbn [block].
    eexists. eexists. split; reflexivity.
Qed.

End ListItems.

(* ================================================================== *)
(** * A paragraph inside a division: claim C2 *)
(* ================================================================== *)

Section Hoisting.
Context `{Collaborators}.

(** The fragment [<div><p>Hello</p></div>], converted outside annotation
    mode, gives exactly one paragraph block, whose rich text is the one
    span "Hello" and which has no children (so no nested paragraph),
    whichever of the document element, the body and the division is taken
    as the container.  The block comes from [convertBlockElement], which
    collects the rich text under the element and never gives children;
    [convertParentElement] is not called. *)
Lemma div_p_hello_is_one_paragraph :
  parseHTML Scenario.helloHtml = Scenario.helloDocument ->
  (findContainer Scenario.helloDocument = Some Scenario.helloDocument
   \/ findContainer Scenario.helloDocument = Some Scenario.helloBody
   \/ findContainer Scenario.helloDocument = Some Scenario.helloDiv) ->
  getAnnotations Scenario.helloBody = noAnnotations ->
  getAnnotations Scenario.helloDiv = noAnnotations ->
  (forall o, buildRichText "Hello" o = [TextItem "Hello" (link o) (annotations o)]) ->
  HtmlToNotion.convertHtmlToBlocks Scenario.helloHtml false
  = Returns [Scenario.helloParagraph]
  /\ NestedAnnotations.convertHtmlToBlocks Scenario.helloHtml false
     = Returns [Scenario.helloParagraph]
  /\ FlatAnnotations.convertHtmlToBlocks Scenario.helloHtml false
     = [Scenario.helloParagraph]
  /\ (forall b options,
         exists blockType richText,
           HtmlToNotion.convertBlockElement b options
           = blockResult (TextBlock false blockType richText None
                                    (colorKey (BlockElement.color b)))).
Proof.
  intros Parsed Container Body Div Built.
  unfold HtmlToNotion.convertHtmlToBlocks, NestedAnnotations.convertHtmlToBlocks,
    FlatAnnotations.convertHtmlToBlocks.
  rewrite Parsed.
  lazy in Body, Div, Built.
  split; [ | split; [ | split ] ].
  - destruct Container as [ C | [ C | C ] ]; rewrite C;
      lazy -[trimRichText]; rewrite ?Body, ?Div, ?Built; reflexivity.
  - destruct Container as [ C | [ C | C ] ]; rewrite C;
      lazy -[trimRichText]; rewrite ?Body, ?Div, ?Built; reflexivity.
  - destruct Container as [ C | [ C | C ] ]; rewrite C;
      lazy -[trimRichText]; rewrite ?Body, ?Div, ?Built; reflexivity.
  - intros b options. unfold HtmlToNotion.convertBlockElement, convertPlainBlock, keyValue.
    do 2 eexists. reflexivity.
Qed.

End Hoisting.

Lemma div_p_hello_with_the_stand_ins :
  @HtmlToNotion.convertHtmlToBlocks Scenario.standIn Scenario.helloHtml false
  = Returns [Scenario.helloParagraph]
  /\ @NestedAnnotations.convertHtmlToBlocks Scenario.standIn Scenario.helloHtml false
     = Returns [Scenario.helloParagraph]
  /\ @FlatAnnotations.convertHtmlToBlocks Scenario.standIn Scenario.helloHtml false
     = [Scenario.helloParagraph].
Proof.
  pose proof (@div_p_hello_is_one_paragraph Scenario.standIn) as T.
  destruct T as (A & B & C & _);
    [ reflexivity | right; left; reflexivity | reflexivity | reflexivity
    | reflexivity | ].
  repeat split; assumption.
Qed.

(** C2.  The hoisting rule of the claim is written in the callback of
    [convertParentElement] and never runs.  On the note
    [<ul><li><p>Hello</p></li></ul>] the item is a parent block without
    text and children whose first child is a paragraph; that paragraph
    converts to the one span "Hello" without children, and the callback,
    handed this result, would make the span the rich text of the item.
    But [convertChildNodes] hands the child node to [convertNode]
    unparsed and gets nothing for it, so [convertParentElement] returns
    the item with empty rich text: the text of the paragraph is lost. *)
Theorem list_item_paragraph_is_not_hoisted :
  let item := @parseListItemElement Scenario.standIn (Some Scenario.helloList)
                                    Scenario.helloItem in
  let child := BlockElement.mk paragraph true noAnnotations None Scenario.helloP in
  BlockElement.blockType item = bulleted_list_item
  /\ BlockElement.supportsChildren item = true
  /\ Dom.childNodes (BlockElement.element item) = [ElementNode Scenario.helloP]
  /\ @parseNode Scenario.standIn (Some Scenario.helloItem) (ElementNode Scenario.helloP)
     = Some (BlockNode child)
  /\ @HtmlToNotion.convertBlockElement Scenario.standIn child (topOptions false)
     = blockResult Scenario.helloParagraph
  /\ absorb ([], None)
            (inl (@HtmlToNotion.convertBlockElement Scenario.standIn child
                                                    (topOptions false)))
     = ([TextItem "Hello" None (Some noAnnotations)], None)
  /\ @convertChildNodes Scenario.standIn Scenario.helloItem (topOptions false)
     = Returns []
  /\ @convertParentElement Scenario.standIn item (topOptions false)
     = Returns (blockResult (TextBlock false bulleted_list_item [] None None))
  /\ @HtmlToNotion.convertHtmlToBlocks
       (Scenario.parsedAs
          (mkElement "HTML" [] []
                     [ElementNode (mkElement "BODY" [] [] [ElementNode Scenario.helloList])]))
       "<ul><li><p>Hello</p></li></ul>" false
     = Returns [].
Proof. repeat split. Qed.

(* ================================================================== *)
(** * Annotation extraction: claim C3 *)
(* ================================================================== *)

Lemma chars_app (a b : string) :
  Js.chars (a ++ b)%string = Js.chars a ++ Js.chars b.
Proof.
  unfold Js.chars. induction a as [ | c a IH ]; simpl.
  - reflexivity.
  - rewrite IH. reflexivity.
Qed.

(** [slice(1, -1)] takes off exactly the first and the last code unit. *)
Lemma sliceString_strips_both_ends (first last : ascii) (inner : string) :
  Js.sliceString 1 (-1) (String first (inner ++ String last EmptyString)) = inner.
Proof.
  unfold Js.sliceString.
  change (Js.chars (String first (inner ++ String last EmptyString)))
    with (first :: Js.chars (inner ++ String last EmptyString)%string).
  rewrite chars_app. change (Js.chars (String last EmptyString)) with [last].
  rewrite slice_inner. apply string_of_list_ascii_of_string.
Qed.

(** Shorter texts lose everything. *)
Lemma sliceString_short (s : string) :
  String.length s <= 2 -> Js.sliceString 1 (-1) s = EmptyString.
Proof.
  destruct s as [ | a [ | b [ | c s ] ] ]; simpl; intros L; try reflexivity; lia.
Qed.

Section Annotation.
Context `{Collaborators}.

(** C3.  In annotation mode the paragraph of the scenario (a highlight
    marker whose inner span is coloured [#ffd400] and reads [Key idea]
    between two quote glyphs, then a citation marker followed by the text
    [interesting #theory #review]) is converted to exactly three blocks: a
    callout with the text "Key idea" and the yellow background, a
    paragraph whose first span is "interesting" and a line feed, followed
    by the code-annotated spans "#theory" and "#review" with one
    single-space span between them, and a divider.  The revision with
    nested annotations builds the same three blocks as the children of one
    empty paragraph.  The highlighted text is the text of the marker's
    inner span (of the marker itself without one) less its first and its
    last code unit, trimmed. *)
Theorem annotation_paragraph_gives_callout_paragraph_divider :
  parseHTML Scenario.annotationHtml = Scenario.annotationDocument ->
  findContainer Scenario.annotationDocument = Some Scenario.annotationBody ->
  Js.orElse (getNotionColor Scenario.colorSpan) "yellow_background"
  = "yellow_background" ->
  FlatAnnotations.convertHtmlToBlocks Scenario.annotationHtml true
  = [Scenario.keyIdeaCallout; Scenario.keyIdeaParagraph; DividerBlock]
  /\ NestedAnnotations.convertHtmlToBlocks Scenario.annotationHtml true
     = Returns
         [TextBlock true paragraph []
                    (Some [Scenario.keyIdeaCallout; Scenario.keyIdeaParagraph; DividerBlock])
                    None]
  /\ (forall highlightSpan,
         highlightedTextOf highlightSpan
         = Js.trim (Js.sliceString 1 (-1)
                      (Js.orElse (option_map Dom.elementText
                                    (Dom.querySelector (Dom.hasTag "SPAN") highlightSpan))
                                 (Dom.elementText highlightSpan))))
  /\ (forall first inner last,
         Js.sliceString 1 (-1) (String first (inner ++ String last EmptyString)) = inner).
Proof.
  intros Parsed Container Yellow.
  unfold FlatAnnotations.convertHtmlToBlocks, NestedAnnotations.convertHtmlToBlocks.
  rewrite Parsed, Container.
  vm_compute in Yellow.
  split; [ | split; [ | split ] ].
  - vm_compute. rewrite Yellow. reflexivity.
  - vm_compute. reflexivity.
  - reflexivity.
  - intros first inner last. apply sliceString_strips_both_ends.
Qed.

End Annotation.

Lemma annotation_paragraph_witness :
  @FlatAnnotations.convertHtmlToBlocks Scenario.standIn Scenario.annotationHtml true
  = [Scenario.keyIdeaCallout; Scenario.keyIdeaParagraph; DividerBlock]
  /\ @NestedAnnotations.convertHtmlToBlocks Scenario.standIn Scenario.annotationHtml true
     = Returns
         [TextBlock true paragraph []
                    (Some [Scenario.keyIdeaCallout; Scenario.keyIdeaParagraph; DividerBlock])
                    None].
Proof.
  pose proof (@annotation_paragraph_gives_callout_paragraph_divider Scenario.standIn) as T.
  destruct T as (A & B & _); [ reflexivity | reflexivity | reflexivity | ].
  split; assumption.
Defined.

(* ================================================================== *)
(** * No container: claim C6 *)
(* ================================================================== *)

Section NoContainer.
Context `{Collaborators}.

(** C6, as the code has it.  When no content container is found, the
    result does not depend on [isAnnotation]: the synchronous revisions
    return the empty sequence, and the asynchronous revision returns the
    placeholder triple (a yellow callout "Empty", the paragraph "No
    annotation provided", a divider). *)
Theorem no_container_result_ignores_isAnnotation (html : string) (isAnnotation : bool) :
  findContainer (parseHTML html) = None ->
  HtmlToNotion.convertHtmlToBlocks html isAnnotation = Returns []
  /\ NestedAnnotations.convertHtmlToBlocks html isAnnotation = Returns []
  /\ FlatAnnotations.convertHtmlToBlocks html isAnnotation
     = [ TextBlock true callout [plainText "Empty"] None (Some "yellow_background");
         TextBlock true paragraph [plainText "No annotation provided"] None None;
         DividerBlock ].
Proof.
  intros NoContainer.
  unfold HtmlToNotion.convertHtmlToBlocks, NestedAnnotations.convertHtmlToBlocks,
    FlatAnnotations.convertHtmlToBlocks.
  rewrite NoContainer. repeat split.
Qed.

End NoContainer.

Lemma no_container_result_witness :
  @HtmlToNotion.convertHtmlToBlocks Scenario.withoutContainer Scenario.helloHtml true
  = Returns []
  /\ @NestedAnnotations.convertHtmlToBlocks Scenario.withoutContainer Scenario.helloHtml true
     = Returns []
  /\ @FlatAnnotations.convertHtmlToBlocks Scenario.withoutContainer Scenario.helloHtml true
     = [ TextBlock true callout [plainText "Empty"] None (Some "yellow_background");
         TextBlock true paragraph [plainText "No annotation provided"] None None;
         DividerBlock ].
Proof.
  apply (@no_container_result_ignores_isAnnotation Scenario.withoutContainer
           Scenario.helloHtml true).
  reflexivity.
Defined.

(** Claim C6 as the specification words it fails in each revision: without
    a container the synchronous converter returns the empty sequence in
    annotation mode too, and the asynchronous converter returns the
    placeholder triple outside annotation mode too. *)
Lemma no_container_same_for_both_modes :
  @findContainer Scenario.withoutContainer
                 (@parseHTML Scenario.withoutContainer Scenario.helloHtml) = None
  /\ @HtmlToNotion.convertHtmlToBlocks Scenario.withoutContainer Scenario.helloHtml true
     = Returns []
  /\ @FlatAnnotations.convertHtmlToBlocks Scenario.withoutContainer Scenario.helloHtml false
     = FlatAnnotations.createEmptyAnnotation
  /\ List.length FlatAnnotations.createEmptyAnnotation = 3.
Proof. repeat split. Qed.

(* ================================================================== *)
(** * Sections by colour: claim C8 *)
(* ================================================================== *)

(** The regrouping of a paragraph never fails on text spans, which is all
    the annotation extraction puts in a paragraph. *)
Lemma commentAndTagsOf_text (richText : RichText) (comment : string)
      (tags : list RichTextItem) :
  forallb hasText richText = true ->
  exists comment' tags',
    SyncNoteItemGrouped.commentAndTagsOf richText comment tags = Some (comment', tags').
Proof.
  revert comment tags.
  induction richText as [ | item rest IH ]; intros comment tags T.
  - exists comment, tags. reflexivity.
  - destruct item as [ content l a | e ]; [ | discriminate T ].
    simpl in T. simpl.
    destruct a as [ a | ]; [ destruct (code a) as [ [ | ] | ] | ]; apply IH; exact T.
Qed.

(** C8, as the code has it.  With grouping on, an annotation with a yellow
    callout followed by one with a green callout gives exactly two
    headings, "Highlights" then "Strong Points" (the order in which the
    colours are first met: the other way round when green comes first).
    Each heading holds the blocks of its own colour and no others: the
    callout, then what the regrouping makes of the paragraph (a paragraph
    of the trimmed comment if there is one, a paragraph of the tag spans
    if there are tags), then the divider.  A colour outside the title
    table gets the title derived from its token. *)
Theorem two_colors_give_two_sections
        (typed1 typed2 typedP1 typedP2 : bool)
        (text1 text2 paragraph1 paragraph2 : RichText)
        (nested1 nested2 nestedP1 nestedP2 : option (list Block))
        (colorP1 colorP2 : option string)
        (regrouped1 regrouped2 : list Block) :
  SyncNoteItemGrouped.regroupParagraph paragraph1 = Some regrouped1 ->
  SyncNoteItemGrouped.regroupParagraph paragraph2 = Some regrouped2 ->
  let yellow := TextBlock typed1 callout text1 nested1 (Some "yellow_background") in
  let green := TextBlock typed2 callout text2 nested2 (Some "green_background") in
  let first := TextBlock typedP1 paragraph paragraph1 nestedP1 colorP1 in
  let second := TextBlock typedP2 paragraph paragraph2 nestedP2 colorP2 in
  SyncNoteItemGrouped.groupByColor
    [yellow; first; DividerBlock; green; second; DividerBlock]
  = Some [ Scenario.section "Highlights" (yellow :: regrouped1 ++ [DividerBlock]);
           Scenario.section "Strong Points" (green :: regrouped2 ++ [DividerBlock]) ]
  /\ SyncNoteItemGrouped.groupByColor
       [green; second; DividerBlock; yellow; first; DividerBlock]
     = Some [ Scenario.section "Strong Points" (green :: regrouped2 ++ [DividerBlock]);
              Scenario.section "Highlights" (yellow :: regrouped1 ++ [DividerBlock]) ]
  /\ map SyncNoteItemGrouped.titleOf
         [ "yellow_background"; "red_background"; "green_background";
           "blue_background"; "purple_background"; "default" ]
     = [ "Highlights"; "Weak Points"; "Strong Points";
         "Unique Points"; "To Explore"; "Other Notes" ]
  /\ map SyncNoteItemGrouped.titleOf
         [ "orange_background"; "pink_background"; "gray_background"; "light_blue" ]
     = [ "ORANGE"; "PINK"; "GRAY"; "LIGHT BLUE" ].
Proof.
  intros R1 R2 yellow green first second.
  unfold SyncNoteItemGrouped.groupByColor, yellow, green, first, second,
    Scenario.section.
  split; [ | split; [ | split; reflexivity ] ];
    cbn; repeat (progress (rewrite ?R1, ?R2; cbn)); reflexivity.
Qed.

Lemma two_colors_give_two_sections_witness :
  SyncNoteItemGrouped.groupByColor Scenario.twoAnnotations
  = Some Scenario.sectionsAsBuilt
  /\ SyncNoteItemGrouped.groupByColor
       [ Scenario.greenCallout; Scenario.greenParagraph; DividerBlock;
         Scenario.keyIdeaCallout; Scenario.keyIdeaParagraph; DividerBlock ]
     = Some (rev Scenario.sectionsAsBuilt).
Proof.
  pose proof (two_colors_give_two_sections
                true true true true
                [plainText "Key idea"] [plainText "Second passage"]
                [ plainText ("interesting" ++ Js.LF)%string;
                  TextItem "#theory" None (Some codeAnnotation);
                  plainText " ";
                  TextItem "#review" None (Some codeAnnotation) ]
                [plainText ("to verify" ++ Js.LF)%string]
                None None None None None None
                [ TextBlock true paragraph [plainText "interesting"] None None;
                  TextBlock true paragraph
                            [ TextItem "#theory" None (Some codeAnnotation);
                              plainText " ";
                              TextItem "#review" None (Some codeAnnotation) ]
                            None None ]
                [TextBlock true paragraph [plainText "to verify"] None None]
                eq_refl eq_refl) as T.
  destruct T as (A & B & _). split; [ exact A | exact B ].
Defined.

(** Claim C8 as the specification words it fails on what is nested: the
    section of a colour does not hold the callout, paragraph and divider
    triple of the flat sequence.  The paragraph is rebuilt, here into a
    paragraph of the comment and a paragraph of the tags, so the yellow
    section holds four blocks. *)
Lemma sections_do_not_hold_the_triples :
  SyncNoteItemGrouped.groupByColor Scenario.twoAnnotations
  = Some Scenario.sectionsAsBuilt
  /\ Scenario.sectionsAsBuilt <> Scenario.sectionsOfTriples
  /\ map (fun heading =>
            match heading with
            | TextBlock _ _ _ (Some children) _ => List.length children
            | _ => 0
            end) Scenario.sectionsAsBuilt
     = [4; 3].
Proof.
  split; [ reflexivity | split; [ | reflexivity ] ].
  vm_compute. discriminate.
Qed.

(** A colour without an entry in the title table gets its heading, titled
    from the token, but the heading is looked up by the table's title and
    so never receives the colour's blocks. *)
Lemma untitled_color_loses_its_group :
  SyncNoteItemGrouped.groupByColor
    [ TextBlock true callout [plainText "Aside"] None (Some "orange_background");
      Scenario.greenParagraph; DividerBlock ]
  = Some [Scenario.section "ORANGE" []].
Proof. reflexivity. Qed.

(** An equation span in a paragraph that follows a callout makes the
    regrouping throw, and with it the batch builder. *)
Lemma equation_span_makes_grouping_throw :
  SyncNoteItemGrouped.groupByColor
    [ Scenario.keyIdeaCallout;
      TextBlock false paragraph [EquationItem "x^2"] None None ]
  = None.
Proof. reflexivity. Qed.

(** The whole path for the annotation of the scenario: converted flat,
    regrouped under its heading, one batch. *)
Lemma grouped_batches_of_the_annotation :
  @SyncNoteItemGrouped.buildNoteBlockBatches Scenario.standIn 100
     Scenario.annotationHtml true
  = Returns [[ Scenario.section "Highlights"
                 [ Scenario.keyIdeaCallout;
                   TextBlock true paragraph [plainText "interesting"] None None;
                   TextBlock true paragraph
                             [ TextItem "#theory" None (Some codeAnnotation);
                               plainText " ";
                               TextItem "#review" None (Some codeAnnotation) ]
                             None None;
                   DividerBlock ] ]].
Proof. reflexivity. Qed.

(** The revision that keeps the text only returns the same single
    paragraph for the fragment of claim C2, as a typed object with an
    unannotated span. *)
Lemma text_only_hello :
  @TextOnly.convertHtmlToBlocks Scenario.standIn Scenario.helloHtml false
  = [TextBlock true paragraph [plainText "Hello"] None None].
Proof. reflexivity. Qed.

(* ================================================================== *)
(** * Further properties of the classifier *)
(* ================================================================== *)

Lemma trimStart_all_white (s : string) :
  forallb Js.isWhiteSpace (Js.chars s) = true -> Js.trimStart s = EmptyString.
Proof.
  unfold Js.chars. induction s as [ | c rest IH ]; simpl.
  - reflexivity.
  - intros W. apply andb_prop in W. destruct W as [Wc Wrest].
    rewrite Wc. apply IH. exact Wrest.
Qed.

Lemma trim_all_white (s : string) :
  forallb Js.isWhiteSpace (Js.chars s) = true -> Js.trim s = EmptyString.
Proof. intros W. unfold Js.trim. rewrite trimStart_all_white by exact W. reflexivity. Qed.

Lemma find_first_in_seq (P : nat -> bool) (start len m : nat) :
  start <= m < start + len ->
  (forall k, start <= k < m -> P k = false) ->
  P m = true ->
  find P (seq start len) = Some m.
Proof.
  revert start. induction len as [ | len IH ]; intros start R Before At.
  - lia.
  - simpl. destruct (Nat.eq_dec start m) as [ -> | Ne ].
    + rewrite At. reflexivity.
    + rewrite (Before start) by lia. apply IH; [ lia | | exact At ].
      intros k Hk. apply Before. lia.
Qed.

(** The lazy group stops at the first place where only dollars are left. *)
Lemma lazyGroup_until_closing (e closing : list ascii) :
  e <> [] ->
  forallb (fun c => negb (isDollar c) && groupChar c) e = true ->
  isClosing closing = true ->
  lazyGroup (e ++ closing) = Some e.
Proof.
  intros NonEmpty Plain Closing. unfold lazyGroup.
  assert (CL : 1 <= List.length closing).
  { destruct closing; [ discriminate Closing | simpl; lia ]. }
  assert (EL : 1 <= List.length e).
  { destruct e; [ contradiction | simpl; lia ]. }
  rewrite (find_first_in_seq _ 1 _ (List.length e)).
  - cbn [option_map]. rewrite firstn_app, firstn_all, Nat.sub_diag. simpl.
    rewrite app_nil_r. reflexivity.
  - rewrite length_app. lia.
  - intros k Hk. apply andb_false_iff. right.
    rewrite skipn_app. replace (k - List.length e) with 0 by lia. simpl skipn.
    destruct (skipn k e) as [ | x rest ] eqn:S.
    + apply (f_equal (@List.length ascii)) in S. rewrite length_skipn in S.
      simpl in S. lia.
    + assert (X : negb (isDollar x) && groupChar x = true).
      { rewrite forallb_forall in Plain. apply Plain.
        rewrite <- (firstn_skipn k e). apply in_or_app. right. rewrite S.
        left. reflexivity. }
      apply andb_prop in X. destruct X as [X _]. apply negb_true_iff in X.
      simpl. destruct rest as [ | y rest ]; simpl.
      * destruct closing as [ | c [ | d closing ] ]; simpl; rewrite ?X; reflexivity.
      * destruct (rest ++ closing) as [ | z tail ] eqn:T.
        -- destruct rest; [ | discriminate T ]. simpl in T. subst closing.
           discriminate Closing.
        -- reflexivity.
  - rewrite firstn_app, firstn_all, Nat.sub_diag. simpl. rewrite app_nil_r.
    rewrite skipn_app, skipn_all, Nat.sub_diag. simpl.
    rewrite Closing, andb_true_r.
    rewrite forallb_forall in Plain. apply forallb_forall. intros c I.
    apply Plain in I. apply andb_prop in I. apply I.
Qed.

Lemma append_empty_r (s : string) : (s ++ EmptyString)%string = s.
Proof. induction s as [ | c s IH ]; simpl; [ reflexivity | rewrite IH; reflexivity ]. Qed.

Lemma ofChars_chars (s : string) : Js.ofChars (Js.chars s) = s.
Proof. apply string_of_list_ascii_of_string. Qed.

(** X4.  A text made of an expression between single or between double
    dollars matches the math pattern with that expression, provided the
    expression is not empty and holds neither a dollar nor a carriage
    return; an element with such a text and the class [math] has that
    expression, and without the class it has none. *)
Theorem math_expression_between_dollars (e : string) :
  e <> EmptyString ->
  forallb (fun c => negb (isDollar c) && groupChar c) (Js.chars e) = true ->
  mathPattern ("$" ++ e ++ "$") = Some e
  /\ mathPattern ("$$" ++ e ++ "$$") = Some e
  /\ (forall tag classes attrs,
         getMathExpression (mkElement tag classes attrs [TextNode ("$" ++ e ++ "$")])
         = if Dom.contains classes "math" then Some e else None)
  /\ (forall tag classes attrs,
         getMathExpression (mkElement tag classes attrs [TextNode ("$$" ++ e ++ "$$")])
         = if Dom.contains classes "math" then Some e else None).
Proof.
  intros NonEmpty Plain.
  assert (NE : Js.chars e <> []).
  { destruct e; [ contradiction | discriminate ]. }
  assert (One : mathPattern ("$" ++ e ++ "$") = Some e).
  { unfold mathPattern.
    change (Js.chars ("$" ++ e ++ "$")) with (dollar :: Js.chars (e ++ "$")).
    rewrite chars_app. change (Js.chars "$") with [dollar].
    destruct (Js.chars e) as [ | x rest ] eqn:C; [ contradiction | ].
    assert (X : isDollar x = false).
    { simpl in Plain. apply andb_prop in Plain. destruct Plain as [X _].
      apply andb_prop in X. destruct X as [X _]. apply negb_true_iff in X. exact X. }
    cbn [app]. rewrite X.
    change (isDollar dollar) with true. cbn [andb].
    change (x :: rest ++ [dollar]) with ((x :: rest) ++ [dollar]).
    rewrite lazyGroup_until_closing; [ | discriminate | exact Plain | reflexivity ].
    cbn [option_map]. rewrite <- C. rewrite ofChars_chars. reflexivity. }
  assert (Two : mathPattern ("$$" ++ e ++ "$$") = Some e).
  { unfold mathPattern.
    change (Js.chars ("$$" ++ e ++ "$$")) with (dollar :: dollar :: Js.chars (e ++ "$$")).
    rewrite chars_app. change (Js.chars "$$") with [dollar; dollar].
    change (isDollar dollar) with true. cbn [andb].
    rewrite lazyGroup_until_closing; [ | exact NE | exact Plain | reflexivity ].
    cbn [option_map]. rewrite ofChars_chars. reflexivity. }
  assert (Truthy : Js.truthy e = true).
  { destruct e; [ contradiction | reflexivity ]. }
  split; [ exact One | split; [ exact Two | split ] ].
  - intros tag classes attrs. unfold getMathExpression, Dom.elementText, Dom.hasClass.
    cbn [Dom.textContent Dom.classList].
    rewrite append_empty_r, One, Truthy. cbn [Js.truthy append].
    destruct (Dom.contains classes "math"); reflexivity.
  - intros tag classes attrs. unfold getMathExpression, Dom.elementText, Dom.hasClass.
    cbn [Dom.textContent Dom.classList].
    rewrite append_empty_r, Two, Truthy. cbn [Js.truthy append].
    destruct (Dom.contains classes "math"); reflexivity.
Qed.

Lemma math_expression_between_dollars_witness :
  mathPattern "$x^2$" = Some "x^2"
  /\ mathPattern "$$x^2$$" = Some "x^2".
Proof.
  pose proof (math_expression_between_dollars "x^2") as T.
  destruct T as (One & Two & _); [ discriminate | reflexivity | ].
  split; [ exact One | exact Two ].
Defined.

Section ClassifierFacts.
Context `{Collaborators}.

(** The conversion of one child: classify it, then convert the parsed node,
    with the children of the child as the place to go on. *)
Lemma convertRichTextChild_element (parentElement : option Element) (element : Element)
      (options : RichTextOptions) :
  convertRichTextChild parentElement (ElementNode element) options
  = match parseNode parentElement (ElementNode element) with
    | Some parsedNode =>
        convertRichTextNode (convertRichTextChildNodes element) parsedNode options
    | None => []
    end.
Proof.
  destruct element as [ tag classes attrs cs ].
  assert (E : forall o,
             (fix each (l : list Node) : RichText :=
                match l with
                | [] => []
                | c :: rest =>
                    convertRichTextChild (Some (mkElement tag classes attrs cs)) c o
                    ++ each rest
                end) cs
             = convertRichTextChildNodes (mkElement tag classes attrs cs) o).
  { intros o. unfold convertRichTextChildNodes. cbn [Dom.childNodes].
    generalize (Some (mkElement tag classes attrs cs)). intros p.
    induction cs as [ | c rest IH ]; [ reflexivity | ].
    cbn [flat_map]. rewrite <- IH. reflexivity. }
  cbn [convertRichTextChild].
  destruct (parseNode parentElement (ElementNode (mkElement tag classes attrs cs)))
    as [ parsedNode | ]; [ | reflexivity ].
  destruct parsedNode; cbn [convertRichTextNode]; try reflexivity; apply E.
Qed.

(** X1.  An element without marker class whose tag is H1 or H2 classifies
    as a block of the heading level of its tag, and one whose tag is H3,
    H4, H5 or H6 as a block of level three: the four deepest levels
    collapse into one.  None of these blocks supports children. *)
Theorem headings_collapse_to_three_levels
        (parentElement : option Element) (element : Element) (blockType : BlockType) :
  Dom.hasClass "highlight" element = false ->
  Dom.hasClass "citation" element = false ->
  In (Dom.tagName element, blockType)
     [ ("H1", heading_1); ("H2", heading_2); ("H3", heading_3);
       ("H4", heading_3); ("H5", heading_3); ("H6", heading_3) ] ->
  parseNode parentElement (ElementNode element)
  = Some (BlockNode (parseBlockElement element blockType))
  /\ BlockElement.blockType (parseBlockElement element blockType) = blockType
  /\ BlockElement.supportsChildren (parseBlockElement element blockType) = false.
Proof.
  intros NoHighlight NoCitation Table.
  unfold parseNode, tagSwitch. rewrite NoHighlight, NoCitation.
  simpl in Table.
  repeat (destruct Table as [ E | Table ];
          [ injection E as <- <-; repeat split | ]).
  contradiction.
Qed.

(** X2.  The marker classes outrank the tag.  Unless it is a BLOCKQUOTE,
    an element with the class [highlight] classifies as rich text with the
    yellow background, and one with the class [citation] (and no
    [highlight]) as rich text without annotations, whatever its tag; so a
    marked paragraph or heading at the top level gives no block. *)
Theorem marker_classes_outrank_the_tag (parentElement : option Element) (element : Element) :
  Dom.tagName element <> "BLOCKQUOTE" ->
  (Dom.hasClass "highlight" element = true ->
   parseNode parentElement (ElementNode element)
   = Some (RichTextNode (mkAnnotations None None None None None (Some "yellow_background"))
                        element None))
  /\ (Dom.hasClass "highlight" element = false ->
      Dom.hasClass "citation" element = true ->
      parseNode parentElement (ElementNode element)
      = Some (RichTextNode noAnnotations element None))
  /\ (Dom.hasClass "highlight" element || Dom.hasClass "citation" element = true ->
      forall options,
        match parseNode parentElement (ElementNode element) with
        | Some parsedNode =>
            HtmlToNotion.convertNode parsedNode options = Returns None
            /\ NestedAnnotations.convertNode parsedNode options = Returns None
            /\ FlatAnnotations.convertNode parsedNode options = None
        | None => True
        end).
Proof.
  intros NotQuote. apply String.eqb_neq in NotQuote.
  unfold parseNode. rewrite NotQuote.
  split; [ | split ].
  - intros Highlight. rewrite Highlight. reflexivity.
  - intros NoHighlight Citation. rewrite NoHighlight, Citation. reflexivity.
  - intros Marked options.
    destruct (Dom.hasClass "highlight" element); [ repeat split | ].
    simpl in Marked. rewrite Marked. repeat split.
Qed.

(** X3.  Some nodes give no span at all, whatever the options and the
    rich-text builder: the classifier never makes a line-break node, so a
    BR element (which has no children) converts to nothing, and so do a
    comment and a text node that holds white space only. *)
Theorem nodes_that_give_no_span :
  (forall parentElement node parsedNode,
      parseNode parentElement node = Some parsedNode -> parsedNode <> BRNode)
  /\ (forall parentElement classes attrs options,
         convertRichTextChild parentElement
                              (ElementNode (mkElement "BR" classes attrs [])) options
         = [])
  /\ (forall parentElement data options,
         convertRichTextChild parentElement (CommentNode data) options = [])
  /\ (forall parentElement data options,
         forallb Js.isWhiteSpace (Js.chars data) = true ->
         convertRichTextChild parentElement (TextNode data) options = []).
Proof.
  split; [ | split; [ | split ] ].
  - intros parentElement node parsedNode P B. subst parsedNode.
    destruct node as [ data | data | element ]; simpl in P.
    + unfold parseTextNode in P. destruct (Js.truthy (Js.trim data)); discriminate P.
    + discriminate P.
    + unfold tagSwitch, parsePreElement, parseSpanElement, parseAnchorElement,
        parseRichTextElement in P.
      repeat match type of P with
             | context [ if ?c then _ else _ ] => destruct c
             | context [ match ?m with Some _ => _ | None => _ end ] => destruct m
             end; discriminate P.
  - intros parentElement classes attrs options.
    rewrite convertRichTextChild_element.
    unfold parseNode, tagSwitch, parseRichTextElement, Dom.hasClass.
    cbn [Dom.tagName Dom.classList String.eqb Ascii.eqb Bool.eqb orb].
    destruct (Dom.contains classes "highlight"); [ reflexivity | ].
    destruct (Dom.contains classes "citation"); reflexivity.
  - reflexivity.
  - intros parentElement data options White.
    cbn [convertRichTextChild parseNode]. unfold parseTextNode.
    rewrite trim_all_white by exact White. reflexivity.
Qed.

(** X5.  Inside a block, an element that classifies as a block, a list or
    a math block is transparent: its rich text is that of its child nodes
    under the options that came in, so its own annotations and block type
    play no part and the text of a nested list or division is inlined. *)
Theorem nested_blocks_are_inlined (parentElement : option Element) (element : Element)
        (options : RichTextOptions) :
  match parseNode parentElement (ElementNode element) with
  | Some (BlockNode _) | Some (ListNode _) | Some (MathBlockNode _ _) =>
      convertRichTextChild parentElement (ElementNode element) options
      = convertRichTextChildNodes element options
  | _ => True
  end.
Proof.
  rewrite convertRichTextChild_element.
  destruct (parseNode parentElement (ElementNode element)) as [ parsedNode | ];
    [ destruct parsedNode | ]; try exact I; reflexivity.
Qed.

End ClassifierFacts.

Lemma headings_collapse_witness :
  let h5 := mkElement "H5" [] [] [TextNode "Methods"] in
  @parseNode Scenario.standIn None (ElementNode h5)
  = Some (BlockNode (@parseBlockElement Scenario.standIn h5 heading_3)).
Proof.
  apply (@headings_collapse_to_three_levels Scenario.standIn None
           (mkElement "H5" [] [] [TextNode "Methods"]) heading_3);
    [ reflexivity | reflexivity | simpl; tauto ].
Defined.

Lemma marker_classes_outrank_the_tag_witness :
  let marked := mkElement "P" ["highlight"] [] [TextNode "passage"] in
  @parseNode Scenario.standIn None (ElementNode marked)
  = Some (RichTextNode (mkAnnotations None None None None None (Some "yellow_background"))
                       marked None).
Proof.
  apply (@marker_classes_outrank_the_tag Scenario.standIn None
           (mkElement "P" ["highlight"] [] [TextNode "passage"])).
  - discriminate.
  - reflexivity.
Defined.


(* ================================================================== *)
(** * Further properties of trimming and of the two reductions *)
(* ================================================================== *)

Lemma two_or_more {A : Type} (l : list A) :
  2 <= List.length l -> exists first mid last, l = first :: mid ++ [last].
Proof.
  intros L. destruct l as [ | first rest ]; [ simpl in L; lia | ].
  destruct (exists_last (l := rest)) as (mid & last & ->).
  - intros ->. simpl in L. lia.
  - exists first, mid, last. reflexivity.
Qed.

Lemma trimRichText_ends (first last : RichTextItem) (mid : RichText) :
  trimRichText (first :: mid ++ [last])
  = updateContent (Some first) Js.trimStart ++ mid ++ updateContent (Some last) Js.trimEnd.
Proof.
  unfold trimRichText.
  assert (L : List.length (first :: mid ++ [last]) = S (S (List.length mid))).
  { simpl. rewrite length_app. simpl. lia. }
  rewrite L, slice_inner.
  replace (S (S (List.length mid)) - 1) with (S (List.length mid)) by lia.
  simpl nth_error. rewrite nth_error_app2 by lia.
  rewrite Nat.sub_diag. reflexivity.
Qed.

Lemma updateContent_size (item : RichTextItem) (updater : string -> string) :
  List.length (updateContent (Some item) updater) <= 1
  /\ filter isEquation (updateContent (Some item) updater) = filter isEquation [item].
Proof.
  destruct item as [ content l a | e ]; simpl.
  - destruct (Js.truthy (updater content)); simpl; split; (lia || reflexivity).
  - split; [ lia | reflexivity ].
Qed.

(** X6.  Trimming never adds a span and never touches an equation: the
    result is no longer than the input, and its equation spans are those
    of the input, unchanged and in the same order. *)
Theorem trimRichText_keeps_equations (richText : RichText) :
  List.length (trimRichText richText) <= List.length richText
  /\ filter isEquation (trimRichText richText) = filter isEquation richText.
Proof.
  destruct richText as [ | x [ | y rest ] ].
  - split; reflexivity.
  - unfold trimRichText. cbn [List.length nth_error].
    apply (updateContent_size x Js.trim).
  - destruct (two_or_more (x :: y :: rest)) as (first & mid & last & E);
      [ simpl; lia | ].
    rewrite E, trimRichText_ends.
    destruct (updateContent_size first Js.trimStart) as [L1 F1].
    destruct (updateContent_size last Js.trimEnd) as [L2 F2].
    split.
    + rewrite !length_app. cbn [List.length]. rewrite !length_app.
      cbn [List.length]. lia.
    + rewrite !filter_app, F1, F2.
      change (first :: mid ++ [last]) with ([first] ++ mid ++ [last]).
      rewrite !filter_app. reflexivity.
Qed.

(** X7.  When the first of several spans holds white space only, it is
    dropped and nothing else is trimmed at the start: the span that comes
    first in the result keeps its leading white space. *)
Theorem trimRichText_drops_a_blank_first_span
        (blank : string) (link : option string) (a : option Annotations)
        (mid : RichText) (last : RichTextItem) :
  forallb Js.isWhiteSpace (Js.chars blank) = true ->
  trimRichText (TextItem blank link a :: mid ++ [last])
  = mid ++ updateContent (Some last) Js.trimEnd.
Proof.
  intros White. rewrite trimRichText_ends. cbn [updateContent].
  rewrite trimStart_all_white by exact White. reflexivity.
Qed.

Lemma trimRichText_drops_a_blank_first_span_witness :
  trimRichText [plainText "  "; plainText " kept"; plainText "end  "]
  = [plainText " kept"; plainText "end"].
Proof.
  apply (trimRichText_drops_a_blank_first_span "  " None None
           [plainText " kept"] (plainText "end  ")).
  reflexivity.
Defined.

(** ** The reducer of [convertChildNodes] *)

Lemma list_ends {A : Type} (l : list A) :
  l = [] \/ exists init x, l = init ++ [x].
Proof.
  destruct l as [ | a l ]; [ left; reflexivity | right ].
  destruct (exists_last (l := a :: l)) as (init & x & E); [ discriminate | ].
  exists init, x. exact E.
Qed.

Lemma last_of_snoc {A : Type} (init : list A) (x : A) :
  last (map Some (init ++ [x])) None = Some x.
Proof. rewrite map_app. simpl. apply last_last. Qed.

Lemma noAdjacent_snoc_block (l : list ChildResult) (b : BlockResult) :
  noAdjacentRichText (l ++ [inl b]) = noAdjacentRichText l.
Proof.
  induction l as [ | x rest IH ]; [ reflexivity | ].
  destruct x as [ bx | rx ]; simpl.
  - exact IH.
  - destruct rest as [ | [ by_ | ry ] rest' ]; simpl in *; try reflexivity; exact IH.
Qed.

Lemma noAdjacent_snoc_blocks (l : list ChildResult) (bs : list BlockResult) :
  noAdjacentRichText (l ++ map inl bs) = noAdjacentRichText l.
Proof.
  revert l. induction bs as [ | b bs IH ]; intros l.
  - simpl. rewrite app_nil_r. reflexivity.
  - simpl. change (l ++ inl b :: map inl bs) with (l ++ [inl b] ++ map inl bs).
    rewrite app_assoc, IH. apply noAdjacent_snoc_block.
Qed.

Lemma noAdjacent_snoc_text_after_block (init : list ChildResult) (b : BlockResult)
      (r : RichTextResult) :
  noAdjacentRichText ((init ++ [inl b]) ++ [inr r]) = noAdjacentRichText init.
Proof.
  induction init as [ | x rest IH ]; [ reflexivity | ].
  destruct x as [ bx | rx ]; simpl.
  - exact IH.
  - destruct rest as [ | [ by_ | ry ] rest' ]; simpl in *; try reflexivity; exact IH.
Qed.

Lemma noAdjacent_change_last_text (init : list ChildResult) (r r' : RichTextResult) :
  noAdjacentRichText (init ++ [inr r']) = noAdjacentRichText (init ++ [inr r]).
Proof.
  induction init as [ | x rest IH ]; [ reflexivity | ].
  destruct x as [ bx | rx ]; simpl.
  - exact IH.
  - destruct rest as [ | [ by_ | ry ] rest' ]; simpl in *; try reflexivity; exact IH.
Qed.

Lemma appendResult_keeps_apart (collected : list ChildResult) (result : option ContentResult) :
  noAdjacentRichText collected = true ->
  noAdjacentRichText (appendResult collected result) = true.
Proof.
  intros Apart. destruct result as [ [ b | l | r ] | ]; cbn [appendResult].
  - rewrite noAdjacent_snoc_block. exact Apart.
  - rewrite noAdjacent_snoc_blocks. exact Apart.
  - destruct (list_ends collected) as [ -> | (init & x & ->) ]; [ reflexivity | ].
    rewrite last_of_snoc. destruct x as [ b | prev ].
    + rewrite noAdjacent_snoc_text_after_block.
      rewrite noAdjacent_snoc_block in Apart. exact Apart.
    + rewrite slice_drop_last.
      rewrite (noAdjacent_change_last_text init prev). exact Apart.
  - exact Apart.
Qed.

(** X8.  The reduction of [convertChildNodes] never leaves two rich-text
    results side by side: whatever the children convert to, a rich-text
    result that follows another is merged into it. *)
Theorem reduction_merges_adjacent_rich_text (converted : list (option ContentResult)) :
  noAdjacentRichText (fold_left appendResult converted []) = true.
Proof.
  assert (G : forall collected,
             noAdjacentRichText collected = true ->
             noAdjacentRichText (fold_left appendResult converted collected) = true).
  { induction converted as [ | result rest IH ]; intros collected Apart.
    - exact Apart.
    - simpl. apply IH. apply appendResult_keeps_apart. exact Apart. }
  apply G. reflexivity.
Qed.

Lemma blocksIn_app (a b : list ChildResult) : blocksIn (a ++ b) = blocksIn a ++ blocksIn b.
Proof. apply flat_map_app. Qed.

Lemma spansIn_app (a b : list ChildResult) : spansIn (a ++ b) = spansIn a ++ spansIn b.
Proof. apply flat_map_app. Qed.

Lemma blocksIn_blocks (bs : list BlockResult) :
  blocksIn (map inl bs) = map block bs /\ spansIn (map inl bs) = [].
Proof.
  induction bs as [ | b bs [IHb IHs] ]; [ split; reflexivity | ].
  split; simpl; [ f_equal; exact IHb | exact IHs ].
Qed.

Lemma appendResult_content (collected : list ChildResult) (result : option ContentResult) :
  blocksIn (appendResult collected result) = blocksIn collected ++ blocksOfResult result
  /\ spansIn (appendResult collected result) = spansIn collected ++ spansOfResult result.
Proof.
  destruct result as [ [ b | l | r ] | ]; cbn [appendResult blocksOfResult spansOfResult].
  - rewrite blocksIn_app, spansIn_app. simpl. rewrite app_nil_r. split; reflexivity.
  - rewrite blocksIn_app, spansIn_app.
    destruct (blocksIn_blocks (results l)) as [-> ->].
    rewrite app_nil_r. split; reflexivity.
  - destruct (list_ends collected) as [ -> | (init & x & ->) ].
    + simpl. rewrite app_nil_r. split; reflexivity.
    + rewrite last_of_snoc. destruct x as [ b | prev ].
      * rewrite !blocksIn_app, !spansIn_app. simpl. rewrite !app_nil_r.
        split; reflexivity.
      * rewrite slice_drop_last, !blocksIn_app, !spansIn_app. simpl.
        rewrite !app_nil_r, <- !app_assoc. split; reflexivity.
  - rewrite !app_nil_r. split; reflexivity.
Qed.

(** X9.  The reduction of [convertChildNodes] loses nothing and keeps the
    order: the blocks of its result are the blocks of the converted
    children, the items of a list result spliced in place, and the spans of
    its result are the spans of the converted children, each in document
    order. *)
Theorem reduction_keeps_content_in_order (converted : list (option ContentResult)) :
  blocksIn (fold_left appendResult converted []) = flat_map blocksOfResult converted
  /\ spansIn (fold_left appendResult converted []) = flat_map spansOfResult converted.
Proof.
  assert (G : forall collected,
             blocksIn (fold_left appendResult converted collected)
             = blocksIn collected ++ flat_map blocksOfResult converted
             /\ spansIn (fold_left appendResult converted collected)
                = spansIn collected ++ flat_map spansOfResult converted).
  { induction converted as [ | result rest IH ]; intros collected.
    - simpl. rewrite !app_nil_r. split; reflexivity.
    - simpl. destruct (IH (appendResult collected result)) as [-> ->].
      destruct (appendResult_content collected result) as [-> ->].
      rewrite <- !app_assoc. split; reflexivity. }
  apply (G []).
Qed.

(** ** The reduction of [convertParentElement] and the list items *)

Lemma absorb_after_first_child (parentText : RichText) (siblings : list Block)
      (result : ChildResult) :
  absorb (parentText, Some siblings) result
  = (parentText, Some (siblings ++ childOf result)).
Proof.
  destruct result as [ b | r ]; cbn [absorb childOf].
  - destruct (block b) as [ typed k rt ch c | | ]; [ destruct parentText, k | | ];
      reflexivity.
  - destruct (trimRichText (richText r)) as [ | x rest ].
    + rewrite app_nil_r. reflexivity.
    + destruct parentText; reflexivity.
Qed.

(** X10.  Once a parent block has children, its own rich text is final and
    its children only grow at the end: every later result adds its block,
    or a paragraph of its trimmed rich text, after the children already
    there, and a result whose rich text trims to nothing adds nothing. *)
Theorem children_only_grow_at_the_end
        (parentText : RichText) (siblings : list Block) (later : list ChildResult) :
  fold_left absorb later (parentText, Some siblings)
  = (parentText, Some (siblings ++ flat_map childOf later)).
Proof.
  revert siblings. induction later as [ | result rest IH ]; intros siblings.
  - simpl. rewrite app_nil_r. reflexivity.
  - cbn [fold_left flat_map]. rewrite absorb_after_first_child, IH, <- app_assoc.
    reflexivity.
Qed.

Section ListItemFacts.
Context `{Collaborators}.

(** X11.  An ordered list gives numbered items and an unordered list
    bulleted items, one for each [<li>] child without marker class and in
    their order; every other child of the list is dropped.  The child
    nodes of an item are handed to [convertNode] unparsed: when one of
    them has a [type] property that reads 'block' or 'list' the
    conversion of the list throws, and otherwise they convert to nothing,
    so each item is a block with empty rich text and no children that
    keeps the colour of its element only. *)
Theorem list_keeps_its_items_only
        (node : Element) (options : RichTextOptions) (itemType : BlockType) :
  In (Dom.tagName node, itemType) [("OL", numbered_list_item); ("UL", bulleted_list_item)] ->
  convertListElement node options
  = if holdsMistakenChild node then Throws
    else Returns
           (listResult
              (map (fun item =>
                      blockResult (TextBlock false itemType [] None
                                             (colorKey (color (getAnnotations item)))))
                   (filter isPlainListItem (Dom.children node)))).
Proof.
  intros Table. unfold convertListElement, holdsMistakenChild.
  pose proof (convertListElement_items node options itemType (Dom.children node) Table)
    as Items.
  destruct (eachInOrder _ (Dom.children node)) as [ mapped | | ];
    cbn [andThen] in Items |- *;
    destruct (existsb _ (filter isPlainListItem (Dom.children node)));
    try discriminate Items; try reflexivity.
  match type of Items with
  | Returns ?a = Returns ?b => assert (E : a = b) by congruence
  end.
  rewrite E. reflexivity.
Qed.

End ListItemFacts.

Lemma list_keeps_its_items_only_witness :
  let list :=
    mkElement "OL" [] []
              [ ElementNode (mkElement "LI" [] [] [TextNode "first"]);
                TextNode " ";
                ElementNode (mkElement "P" [] [] [TextNode "stray"]);
                ElementNode (mkElement "LI" [] [] [TextNode "second"]) ] in
  @convertListElement Scenario.standIn list (topOptions false)
  = Returns (listResult [ blockResult (TextBlock false numbered_list_item [] None None);
                          blockResult (TextBlock false numbered_list_item [] None None) ])
  /\ @convertListElement Scenario.standIn Scenario.typedList (topOptions false) = Throws.
Proof.
  cbn zeta. split.
  - apply (@list_keeps_its_items_only Scenario.standIn
             (mkElement "OL" [] []
                        [ ElementNode (mkElement "LI" [] [] [TextNode "first"]);
                          TextNode " ";
                          ElementNode (mkElement "P" [] [] [TextNode "stray"]);
                          ElementNode (mkElement "LI" [] [] [TextNode "second"]) ])
             (topOptions false) numbered_list_item).
    left. reflexivity.
  - apply (@list_keeps_its_items_only Scenario.standIn Scenario.typedList
             (topOptions false) bulleted_list_item).
    right. left. reflexivity.
Defined.

Section TopLevelLists.
Context `{Collaborators}.

(** X30.  What the synchronous revisions do with a list at the top level.
    Each child of the container that classifies as a list is converted
    item by item and the result is discarded, the [block] key being read
    off a [ListResult]: the list leaves nothing in the output.  So the
    conversion throws when an item of such a list holds a child node whose
    own [type] property reads 'block' or 'list', and in every other case
    it returns the blocks of the children that classify as blocks, in
    document order, and nothing for the lists. *)
Theorem top_level_lists_are_discarded (html : string) (isAnnotation : bool) :
  match findContainer (parseHTML html) with
  | Some container =>
      HtmlToNotion.convertHtmlToBlocks html isAnnotation
      = (if existsb (isThrowingList container) (Dom.children container) then Throws
         else Returns (blocksOfBlockChildren HtmlToNotion.convertBlockElement container
                                             (topOptions isAnnotation)))
      /\ NestedAnnotations.convertHtmlToBlocks html isAnnotation
         = (if existsb (isThrowingList container) (Dom.children container) then Throws
            else Returns (blocksOfBlockChildren NestedAnnotations.convertBlockElement
                                                container (topOptions isAnnotation)))
      /\ (forall element list,
             In element (Dom.children container) ->
             parseNode (Some container) (ElementNode element) = Some (ListNode list) ->
             HtmlToNotion.convertNode (ListNode list) (topOptions isAnnotation)
             = (if holdsMistakenChild list then Throws else Returns None)
             /\ NestedAnnotations.convertNode (ListNode list) (topOptions isAnnotation)
                = (if holdsMistakenChild list then Throws else Returns None))
  | None =>
      HtmlToNotion.convertHtmlToBlocks html isAnnotation = Returns []
      /\ NestedAnnotations.convertHtmlToBlocks html isAnnotation = Returns []
  end.
Proof.
  unfold HtmlToNotion.convertHtmlToBlocks, NestedAnnotations.convertHtmlToBlocks.
  cbn zeta.
  destruct (findContainer (parseHTML html)) as [ container | ];
    [ | split; reflexivity ].
  unfold blocksOfBlockChildren.
  split; [ | split ].
  - apply (topLevel_outcome HtmlToNotion.convertNode HtmlToNotion.convertBlockElement).
    + reflexivity.
    + reflexivity.
    + intros node NoBlock NoList.
      destruct node as [ parsed | | | list | | | ]; try reflexivity.
      * destruct (NoBlock parsed eq_refl).
      * destruct (NoList list eq_refl).
  - apply (topLevel_outcome NestedAnnotations.convertNode
                            NestedAnnotations.convertBlockElement).
    + reflexivity.
    + reflexivity.
    + intros node NoBlock NoList.
      destruct node as [ parsed | | | list | | | ]; try reflexivity.
      * destruct (NoBlock parsed eq_refl).
      * destruct (NoList list eq_refl).
  - intros element list _ P.
    destruct (parseNode_list _ _ _ P) as (-> & itemType & Table).
    unfold HtmlToNotion.convertNode, NestedAnnotations.convertNode.
    rewrite (convertListElement_discarded element (topOptions isAnnotation) itemType Table).
    split; reflexivity.
Qed.

End TopLevelLists.

(** A note with a list and a span at the top level, and one whose list
    item holds an anchor with the attribute [type="block"]. *)
Lemma top_level_list_and_text_are_dropped :
  Dom.children Scenario.listAndSpanBody = [Scenario.itemList; Scenario.helloSpan]
  /\ @convertListElement (Scenario.parsedAs Scenario.listAndSpanDocument)
                         Scenario.itemList (topOptions false)
     = Returns (listResult [blockResult (TextBlock false bulleted_list_item [] None None)])
  /\ @HtmlToNotion.convertHtmlToBlocks (Scenario.parsedAs Scenario.listAndSpanDocument)
                                       "<ul><li>item</li></ul><span>Hello</span>" false
     = Returns []
  /\ @HtmlToNotion.convertHtmlToBlocks (Scenario.parsedAs Scenario.typedListDocument)
                                       "<ul><li><a type=block>x</a></li></ul>" false
     = Throws
  /\ @SyncNoteItem.buildNoteBlockBatches (Scenario.parsedAs Scenario.typedListDocument)
                                         100 "<ul><li><a type=block>x</a></li></ul>" false
     = Throws.
Proof. repeat split. Qed.

(* ================================================================== *)
(** * Further properties of the annotation extraction *)
(* ================================================================== *)

Lemma splitOn_length (c : ascii) (s : string) :
  List.length (Js.splitOn c s) = S (List.length (filter (Ascii.eqb c) (Js.chars s))).
Proof.
  unfold Js.chars. induction s as [ | d rest IH ]; [ reflexivity | ].
  simpl. destruct (Ascii.eqb c d).
  - simpl. rewrite IH. reflexivity.
  - destruct (Js.splitOn c rest) as [ | piece pieces ]; [ discriminate IH | exact IH ].
Qed.

Lemma slice_init {A : Type} (l : list A) : Js.slice 0 (-1) l = removelast l.
Proof.
  destruct (list_ends l) as [ -> | (init & z & ->) ].
  - reflexivity.
  - rewrite slice_drop_last, removelast_last. reflexivity.
Qed.

Lemma removelast_length {A : Type} (l : list A) :
  List.length (removelast l) = List.length l - 1.
Proof.
  destruct (list_ends l) as [ -> | (init & z & ->) ].
  - reflexivity.
  - rewrite removelast_last, length_app. simpl. lia.
Qed.

Lemma Forall_removelast {A : Type} (P : A -> Prop) (l : list A) :
  Forall P l -> Forall P (removelast l).
Proof.
  destruct (list_ends l) as [ -> | (init & z & ->) ].
  - intros _. constructor.
  - rewrite removelast_last. intros F. apply Forall_app in F. apply F.
Qed.

Lemma pairs_length {A : Type} (sep : A) (l : list A) :
  List.length (flat_map (fun x => [x; sep]) l) = 2 * List.length l.
Proof. induction l as [ | x l IH ]; simpl; [ reflexivity | rewrite IH; lia ]. Qed.

(** X12.  The paragraph built for an annotation has one span when the text
    after the citation holds no hash sign, and two spans for every hash
    sign otherwise.  Its first span is plain text that ends with a line
    feed; every other span is either a tag span (code-annotated, starting
    with the hash sign) or a plain single space; an empty tag is kept as a
    span of the hash sign alone. *)
Theorem annotation_paragraph_has_two_spans_per_tag (remainingText : string) :
  List.length (commentAndTags remainingText)
  = Nat.max 1 (2 * hashesIn (Js.trim remainingText))
  /\ (exists comment,
         hd_error (commentAndTags remainingText)
         = Some (plainText (comment ++ Js.LF)%string))
  /\ Forall (fun item => item = plainText " " \/ isTagSpan item)
            (tl (commentAndTags remainingText)).
Proof.
  unfold commentAndTags, hashesIn.
  set (pieces := Js.splitOn hash (Js.trim remainingText)).
  assert (L : List.length (tl pieces)
              = List.length (filter (Ascii.eqb hash) (Js.chars (Js.trim remainingText)))).
  { unfold pieces.
    pose proof (splitOn_length hash (Js.trim remainingText)) as S.
    destruct (Js.splitOn hash (Js.trim remainingText)); simpl in *; lia. }
  rewrite <- L. cbn [List.length hd_error tl]. rewrite slice_init.
  split; [ | split ].
  - rewrite removelast_length, pairs_length, length_map. lia.
  - eexists. reflexivity.
  - apply Forall_removelast. apply Forall_forall. intros item I.
    apply in_flat_map in I. destruct I as (tag & InTags & [ <- | [ <- | [] ] ]).
    + right. apply in_map_iff in InTags. destruct InTags as (part & <- & _).
      eexists. reflexivity.
    + left. reflexivity.
Qed.

(** X13.  The highlighted text is empty when the marker's text has two code
    units or fewer (the two stripped units are all there is), and the text
    of the marker itself is used when the marker has no inner span or the
    inner span has no text. *)
Theorem highlighted_text_edge_cases :
  (forall highlightSpan,
      String.length
        (Js.orElse (option_map Dom.elementText
                               (Dom.querySelector (Dom.hasTag "SPAN") highlightSpan))
                   (Dom.elementText highlightSpan)) <= 2 ->
      highlightedTextOf highlightSpan = EmptyString)
  /\ (forall highlightSpan,
         Dom.querySelector (Dom.hasTag "SPAN") highlightSpan = None ->
         highlightedTextOf highlightSpan
         = Js.trim (Js.sliceString 1 (-1) (Dom.elementText highlightSpan)))
  /\ (forall highlightSpan innerSpan,
         Dom.querySelector (Dom.hasTag "SPAN") highlightSpan = Some innerSpan ->
         Dom.elementText innerSpan = EmptyString ->
         highlightedTextOf highlightSpan
         = Js.trim (Js.sliceString 1 (-1) (Dom.elementText highlightSpan))).
Proof.
  split; [ | split ].
  - intros highlightSpan Short. unfold highlightedTextOf.
    rewrite sliceString_short by exact Short. reflexivity.
  - intros highlightSpan NoInner. unfold highlightedTextOf. rewrite NoInner. reflexivity.
  - intros highlightSpan innerSpan Inner Empty. unfold highlightedTextOf.
    rewrite Inner. cbn [option_map Js.orElse]. rewrite Empty. reflexivity.
Qed.

Lemma orElse_truthy (a : option string) (b : string) :
  Js.truthy b = true -> Js.truthy (Js.orElse a b) = true.
Proof.
  intros B. unfold Js.orElse. destruct a as [ s | ]; [ | exact B ].
  destruct (Js.truthy s) eqn:S; [ exact S | exact B ].
Qed.

Section AnnotationFacts.
Context `{Collaborators}.

(** X14.  In annotation mode every paragraph that holds a highlight marker
    and no image is converted to a paragraph wrapping exactly three
    children, in this order: a callout with the highlighted text, a
    paragraph with the comment and the tags, a divider.  Block type,
    annotations and colour of the paragraph itself play no part.  The
    callout always has a colour: the one [getNotionColor] finds, yellow
    when it finds none or an empty one (always yellow in the revision
    with nested annotations, image or not). *)
Theorem highlight_paragraph_gives_three_blocks
        (b : BlockElement.t) (options : RichTextOptions) (highlightSpan : Element) :
  isAnnotation options = true ->
  Dom.tagName (BlockElement.element b) = "P" ->
  Dom.querySelector (Dom.hasClass "highlight") (BlockElement.element b)
  = Some highlightSpan ->
  (Dom.querySelector (Dom.hasTag "IMG") (BlockElement.element b) = None ->
   exists calloutColor,
     Js.truthy calloutColor = true
     /\ FlatAnnotations.convertBlockElement b options
        = blockResult
            (TextBlock true paragraph []
               (Some [ TextBlock true callout [plainText (highlightedTextOf highlightSpan)]
                                 None (Some calloutColor);
                       TextBlock true paragraph
                                 (commentAndTags (remainingTextOf (BlockElement.element b)))
                                 None None;
                       DividerBlock ])
               None))
  /\ NestedAnnotations.convertBlockElement b options
     = blockResult
         (TextBlock true paragraph []
            (Some [ TextBlock true callout [plainText (highlightedTextOf highlightSpan)]
                              None (Some "yellow_background");
                    TextBlock true paragraph
                              (commentAndTags (remainingTextOf (BlockElement.element b)))
                              None None;
                    DividerBlock ])
            None).
Proof.
  intros Mode Tag Highlight. split.
  - intros NoImage.
    exists (Js.orElse
              (getNotionColor
                 match Dom.querySelector (Dom.hasTag "SPAN") highlightSpan with
                 | Some s => s
                 | None => highlightSpan
                 end) "yellow_background").
    split; [ apply orElse_truthy; reflexivity | ].
    unfold FlatAnnotations.convertBlockElement.
    rewrite Mode, Tag, Highlight, NoImage. reflexivity.
  - unfold NestedAnnotations.convertBlockElement.
    rewrite Mode, Tag, Highlight. reflexivity.
Qed.

Lemma plain_outside_annotation_mode (b : BlockElement.t) (options : RichTextOptions) :
  isAnnotation options = false \/ Dom.tagName (BlockElement.element b) <> "P" ->
  HtmlToNotion.convertBlockElement b options
  = convertPlainBlock (BlockElement.blockType b) b options
  /\ NestedAnnotations.convertBlockElement b options
     = convertPlainBlock (BlockElement.blockType b) b options
  /\ FlatAnnotations.convertBlockElement b options
     = convertPlainBlock (BlockElement.blockType b) b options.
Proof.
  intros Off.
  assert (G : isAnnotation options
              && String.eqb (Dom.tagName (BlockElement.element b)) "P" = false).
  { destruct Off as [ -> | NotP ]; [ reflexivity | ].
    apply String.eqb_neq in NotP. rewrite NotP. apply andb_false_r. }
  unfold HtmlToNotion.convertBlockElement, NestedAnnotations.convertBlockElement,
    FlatAnnotations.convertBlockElement.
  rewrite G. repeat split.
Qed.

(** X15.  Outside annotation mode, and in annotation mode for every
    element that is no paragraph, the three revisions of
    [convertBlockElement] do the same: the plain conversion of the block.
    So for every note the two synchronous converters return the same
    blocks when [isAnnotation] is false. *)
Theorem revisions_agree_outside_annotation_mode :
  (forall b options,
      isAnnotation options = false \/ Dom.tagName (BlockElement.element b) <> "P" ->
      HtmlToNotion.convertBlockElement b options
      = NestedAnnotations.convertBlockElement b options
      /\ NestedAnnotations.convertBlockElement b options
         = FlatAnnotations.convertBlockElement b options)
  /\ (forall html,
         HtmlToNotion.convertHtmlToBlocks html false
         = NestedAnnotations.convertHtmlToBlocks html false).
Proof.
  split.
  - intros b options Off.
    destruct (plain_outside_annotation_mode b options Off) as (-> & -> & ->).
    split; reflexivity.
  - intros html.
    unfold HtmlToNotion.convertHtmlToBlocks, NestedAnnotations.convertHtmlToBlocks.
    destruct (findContainer (parseHTML html)) as [ container | ]; [ | reflexivity ].
    cbn zeta. f_equal.
Qed.

(** X16.  The synchronous converter that retags quotes never nests: every
    block it returns, in either mode and for every note, is an object
    without [type] key and without children.  (The call returns or throws;
    it has no loop.) *)
Theorem synchronous_converter_never_nests (html : string) (isAnnotation : bool) :
  match HtmlToNotion.convertHtmlToBlocks html isAnnotation with
  | Returns blocks =>
      Forall (fun b => exists blockType richText c,
                  b = TextBlock false blockType richText None c)
             blocks
  | Throws => True
  | NeverReturns => False
  end.
Proof.
  unfold HtmlToNotion.convertHtmlToBlocks. cbn zeta.
  destruct (findContainer (parseHTML html)) as [ container | ]; [ | constructor ].
  rewrite (topLevel_outcome HtmlToNotion.convertNode HtmlToNotion.convertBlockElement).
  - destruct (existsb (isThrowingList container) (Dom.children container));
      [ exact I | ].
    apply Forall_forall. intros b In_. apply in_flat_map in In_.
    destruct In_ as (element & _ & In_).
    destruct (parseNode (Some container) (ElementNode element)) as [ node | ];
      [ | contradiction ].
    destruct node as [ parsed | | | | | | ]; try contradiction.
    unfold HtmlToNotion.convertBlockElement, convertPlainBlock, keyValue in In_.
    cbn [block] in In_. destruct In_ as [ <- | [] ].
    eexists. eexists. eexists. reflexivity.
  - reflexivity.
  - reflexivity.
  - intros node NoBlock NoList.
    destruct node as [ parsed | | | list | | | ]; try reflexivity.
    + destruct (NoBlock parsed eq_refl).
    + destruct (NoList list eq_refl).
Qed.

End AnnotationFacts.

Lemma highlight_paragraph_gives_three_blocks_witness :
  @NestedAnnotations.convertBlockElement Scenario.standIn
     (BlockElement.mk paragraph true noAnnotations None Scenario.annotationP)
     (topOptions true)
  = blockResult
      (TextBlock true paragraph []
         (Some [ TextBlock true callout
                           [plainText (highlightedTextOf Scenario.highlightSpan)]
                           None (Some "yellow_background");
                 TextBlock true paragraph
                           (commentAndTags (remainingTextOf Scenario.annotationP))
                           None None;
                 DividerBlock ])
         None).
Proof.
  apply (@highlight_paragraph_gives_three_blocks Scenario.standIn
           (BlockElement.mk paragraph true noAnnotations None Scenario.annotationP)
           (topOptions true) Scenario.highlightSpan);
    reflexivity.
Defined.

(* ================================================================== *)
(** * Further properties of the batch builder *)
(* ================================================================== *)

(** X17.  A limit of zero: an empty block sequence still gives no batch
    (the batch count is not a number and the loop does not run), and any
    other sequence gives an infinite batch count, so the loop never ends.
    An empty sequence gives no batch under every limit. *)
Theorem zero_limit_loops_forever (A : Type) :
  batchesOf 0 (@nil A) = Returns []
  /\ (forall (b : A) (blocks : list A), batchesOf 0 (b :: blocks) = NeverReturns)
  /\ (forall limit, batchesOf limit (@nil A) = Returns []).
Proof.
  split; [ reflexivity | split; [ reflexivity | ] ].
  intros limit. destruct limit as [ | limit ]; [ reflexivity | ].
  rewrite batchesOf_partition by lia. unfold partitionBySize. cbn [List.length].
  replace (ceilDiv 0 (Nat.min (S limit) 100)) with 0
    by (symmetry; unfold ceilDiv; apply Nat.div_small; lia).
  reflexivity.
Qed.

Lemma ceilDiv_one (len size : nat) : 0 < len <= size -> ceilDiv len size = 1.
Proof.
  intros R.
  assert (P : 0 < size) by lia.
  pose proof (proj2 (below_ceilDiv len size 0 P) ltac:(lia)) as Lower.
  destruct (Nat.le_gt_cases (ceilDiv len size) 1) as [ | Upper ]; [ lia | ].
  apply (below_ceilDiv len size 1 P) in Upper. lia.
Qed.

(** X18.  Under a positive limit the number of batches is the block count
    divided by [min limit 100], rounded up; a note with at least one block
    and no more than [min limit 100] goes out as one batch, the block
    sequence itself. *)
Theorem short_note_is_one_batch (A : Type) (limit : nat) (blocks : list A) :
  0 < limit ->
  (exists batches,
      batchesOf limit blocks = Returns batches
      /\ List.length batches = ceilDiv (List.length blocks) (Nat.min limit 100))
  /\ (0 < List.length blocks <= Nat.min limit 100 ->
      batchesOf limit blocks = Returns [blocks]).
Proof.
  intros P. rewrite batchesOf_partition by exact P. split.
  - eexists. split; [ reflexivity | ].
    unfold partitionBySize. rewrite length_map, length_seq. reflexivity.
  - intros Short. unfold partitionBySize. rewrite ceilDiv_one by exact Short.
    cbn [seq map Nat.mul skipn]. rewrite firstn_all2 by lia. reflexivity.
Qed.

Lemma short_note_is_one_batch_witness :
  batchesOf 100 [1; 2; 3] = Returns [[1; 2; 3]].
Proof.
  apply (short_note_is_one_batch nat 100 [1; 2; 3]); simpl; lia.
Defined.

(* ================================================================== *)
(** * Further properties of the sections by colour *)
(* ================================================================== *)

Lemma calloutColor_none (b : Block) :
  isCallout b = false -> SyncNoteItemGrouped.calloutColor b = None.
Proof.
  destruct b as [ typed k rt ch c | | ]; [ destruct k | | ];
    try reflexivity; discriminate.
Qed.

Lemma colorGroups_extend (l : list Block) (seen : list string) :
  exists more,
    fold_left
      (fun colorGroups b =>
         match SyncNoteItemGrouped.calloutColor b with
         | Some c => if existsb (String.eqb c) colorGroups then colorGroups
                     else colorGroups ++ [c]
         | None => colorGroups
         end) l seen
    = seen ++ more
    /\ (NoDup seen -> NoDup (seen ++ more))
    /\ (forall c, In c (seen ++ more)
                  <-> In c seen
                      \/ exists b, In b l /\ SyncNoteItemGrouped.calloutColor b = Some c).
Proof.
  revert seen. induction l as [ | b rest IH ]; intros seen.
  - exists []. rewrite app_nil_r. split; [ reflexivity | split; [ auto | ] ].
    intros c. split; [ auto | ]. intros [ I | (b & [] & _) ]. exact I.
  - cbn [fold_left]. destruct (SyncNoteItemGrouped.calloutColor b) as [ c | ] eqn:C.
    + destruct (existsb (String.eqb c) seen) eqn:E.
      * destruct (IH seen) as (more & Eq & ND & Mem). exists more.
        split; [ exact Eq | split; [ exact ND | ] ].
        intros d. rewrite Mem. split.
        -- intros [ I | (b' & I & Cb) ]; [ left; exact I | ].
           right. exists b'. split; [ right; exact I | exact Cb ].
        -- intros [ I | (b' & [ <- | I ] & Cb) ]; [ left; exact I | | ].
           ++ left. rewrite C in Cb. injection Cb as <-.
              apply existsb_exists in E. destruct E as (x & I & Q).
              apply String.eqb_eq in Q. subst x. exact I.
           ++ right. exists b'. split; assumption.
      * destruct (IH (seen ++ [c])) as (more & Eq & ND & Mem).
        exists (c :: more).
        change (seen ++ c :: more) with (seen ++ [c] ++ more).
        rewrite app_assoc. split; [ exact Eq | split ].
        -- intros NDseen. apply ND. apply NoDup_app; [ exact NDseen | | ].
           ++ constructor; [ intros [] | constructor ].
           ++ intros x I [ <- | [] ].
              assert (X : existsb (String.eqb c) seen = true).
              { apply existsb_exists. exists c. split; [ exact I | apply String.eqb_refl ]. }
              rewrite X in E. discriminate E.
        -- intros d. rewrite Mem, in_app_iff. split.
           ++ intros [ [ I | [ <- | [] ] ] | (b' & I & Cb) ].
              ** left. exact I.
              ** right. exists b. split; [ left; reflexivity | exact C ].
              ** right. exists b'. split; [ right; exact I | exact Cb ].
           ++ intros [ I | (b' & [ <- | I ] & Cb) ].
              ** left. left. exact I.
              ** left. right. rewrite C in Cb. injection Cb as <-. left. reflexivity.
              ** right. exists b'. split; assumption.
    + destruct (IH seen) as (more & Eq & ND & Mem). exists more.
      split; [ exact Eq | split; [ exact ND | ] ].
      intros d. rewrite Mem. split.
      * intros [ I | (b' & I & Cb) ]; [ left; exact I | ].
        right. exists b'. split; [ right; exact I | exact Cb ].
      * intros [ I | (b' & [ <- | I ] & Cb) ]; [ left; exact I | | ].
        -- rewrite C in Cb. discriminate Cb.
        -- right. exists b'. split; assumption.
Qed.

Lemma pushInto_titles (wanted : string) (group blocks : list Block) :
  map headingTitle (SyncNoteItemGrouped.pushInto wanted group blocks)
  = map headingTitle blocks.
Proof.
  induction blocks as [ | b rest IH ]; [ reflexivity | ].
  cbn [SyncNoteItemGrouped.pushInto].
  destruct (SyncNoteItemGrouped.isTitled wanted b).
  - destruct b as [ typed k rt [ cs | ] c | | ]; reflexivity.
  - cbn [map]. rewrite IH. reflexivity.
Qed.

Lemma flush_titles (blocks : list Block) (c : option string) (group : list Block) :
  map headingTitle (SyncNoteItemGrouped.flush blocks c group) = map headingTitle blocks.
Proof.
  unfold SyncNoteItemGrouped.flush.
  destruct c as [ c | ]; [ | reflexivity ].
  destruct group; [ reflexivity | ].
  destruct (ownProperty SyncNoteItemGrouped.colorTitles c); [ | reflexivity ].
  apply pushInto_titles.
Qed.

Lemma organize_failed (l : list Block) :
  fold_left SyncNoteItemGrouped.organize l None = None.
Proof. induction l as [ | b rest IH ]; [ reflexivity | exact IH ]. Qed.

Lemma organize_titles (l : list Block) (st st' : SyncNoteItemGrouped.Pass) :
  fold_left SyncNoteItemGrouped.organize l (Some st) = Some st' ->
  map headingTitle (SyncNoteItemGrouped.blocks st')
  = map headingTitle (SyncNoteItemGrouped.blocks st).
Proof.
  revert st. induction l as [ | b rest IH ]; intros st Run.
  - injection Run as <-. reflexivity.
  - cbn [fold_left] in Run.
    destruct (SyncNoteItemGrouped.organize (Some st) b) as [ next | ] eqn:Step.
    + rewrite (IH next Run). unfold SyncNoteItemGrouped.organize in Step.
      destruct (SyncNoteItemGrouped.calloutColor b).
      * injection Step as <-. apply flush_titles.
      * destruct (SyncNoteItemGrouped.currentCalloutColor st);
          [ | injection Step as <-; reflexivity ].
        destruct b as [ typed k rt ch c | | ];
          [ destruct k | | ]; try (injection Step as <-; reflexivity).
        destruct (SyncNoteItemGrouped.regroupParagraph rt);
          [ injection Step as <-; reflexivity | discriminate Step ].
    + rewrite organize_failed in Run. discriminate Run.
Qed.

(** X19.  Whenever the grouping returns, it returns one heading for each
    distinct callout colour of the input and nothing else at the top
    level: the titles of the result are the titles of the colours met,
    each colour once, and the colours met in a first part of the input
    come first, in the order that part gives them.  The colours are
    tokens written in words that name no inherited member: a token that
    reads as an array index would be listed before the others, and the
    table lookups of the model read own keys only. *)
Theorem one_heading_per_colour_met (originalBlocks grouped : list Block) :
  plainColours originalBlocks = true ->
  wordColours originalBlocks = true ->
  SyncNoteItemGrouped.groupByColor originalBlocks = Some grouped ->
  map headingTitle grouped
  = map (fun c => Some (SyncNoteItemGrouped.titleOf c))
        (SyncNoteItemGrouped.colorGroupsOf originalBlocks)
  /\ NoDup (SyncNoteItemGrouped.colorGroupsOf originalBlocks)
  /\ (forall c,
         In c (SyncNoteItemGrouped.colorGroupsOf originalBlocks)
         <-> exists b, In b originalBlocks /\ SyncNoteItemGrouped.calloutColor b = Some c)
  /\ (forall firstPart secondPart,
         originalBlocks = firstPart ++ secondPart ->
         exists more,
           SyncNoteItemGrouped.colorGroupsOf originalBlocks
           = SyncNoteItemGrouped.colorGroupsOf firstPart ++ more).
Proof.
  intros _ _ Run. split; [ | split; [ | split ] ].
  - unfold SyncNoteItemGrouped.groupByColor in Run.
    destruct (fold_left SyncNoteItemGrouped.organize originalBlocks _) as [ st | ] eqn:F;
      [ | discriminate Run ].
    injection Run as <-. rewrite flush_titles.
    rewrite (organize_titles _ _ _ F). cbn [SyncNoteItemGrouped.blocks].
    rewrite map_map. reflexivity.
  - destruct (colorGroups_extend originalBlocks []) as (more & Eq & ND & _).
    unfold SyncNoteItemGrouped.colorGroupsOf. rewrite Eq. apply ND. constructor.
  - intros c. destruct (colorGroups_extend originalBlocks []) as (more & Eq & _ & Mem).
    unfold SyncNoteItemGrouped.colorGroupsOf. rewrite Eq, Mem.
    split; [ intros [ [] | I ]; exact I | intros I; right; exact I ].
  - intros firstPart secondPart ->.
    unfold SyncNoteItemGrouped.colorGroupsOf. rewrite fold_left_app.
    destruct (colorGroups_extend secondPart
                (SyncNoteItemGrouped.colorGroupsOf firstPart)) as (more & Eq & _).
    exists more. exact Eq.
Qed.

Lemma one_heading_per_colour_met_witness :
  map headingTitle Scenario.sectionsAsBuilt
  = map (fun c => Some (SyncNoteItemGrouped.titleOf c))
        (SyncNoteItemGrouped.colorGroupsOf Scenario.twoAnnotations).
Proof.
  apply (one_heading_per_colour_met Scenario.twoAnnotations Scenario.sectionsAsBuilt).
  - reflexivity.
  - reflexivity.
  - reflexivity.
Defined.

Lemma colorGroups_without_callout (pre rest : list Block) :
  forallb (fun b => negb (isCallout b)) pre = true ->
  SyncNoteItemGrouped.colorGroupsOf (pre ++ rest) = SyncNoteItemGrouped.colorGroupsOf rest.
Proof.
  intros Plain. unfold SyncNoteItemGrouped.colorGroupsOf. rewrite fold_left_app.
  f_equal. induction pre as [ | b pre IH ]; [ reflexivity | ].
  simpl in Plain. apply andb_prop in Plain. destruct Plain as [Nb Npre].
  cbn [fold_left]. rewrite calloutColor_none by (apply negb_true_iff; exact Nb).
  apply IH. exact Npre.
Qed.

(** Blocks that are no callout leave the headings and the current colour
    as they are; met before any callout they change nothing at all. *)
Lemma organize_before_first_callout (pre : list Block) (headings : list Block) :
  forallb (fun b => negb (isCallout b)) pre = true ->
  fold_left SyncNoteItemGrouped.organize pre
            (Some (SyncNoteItemGrouped.mkPass headings None []))
  = Some (SyncNoteItemGrouped.mkPass headings None []).
Proof.
  intros Plain. induction pre as [ | b pre IH ]; [ reflexivity | ].
  simpl in Plain. apply andb_prop in Plain. destruct Plain as [Nb Npre].
  cbn [fold_left]. unfold SyncNoteItemGrouped.organize at 2.
  rewrite calloutColor_none by (apply negb_true_iff; exact Nb).
  cbn [SyncNoteItemGrouped.currentCalloutColor]. apply IH. exact Npre.
Qed.

Lemma organize_between_callouts (tail : list Block) (st st' : SyncNoteItemGrouped.Pass) :
  forallb (fun b => negb (isCallout b)) tail = true ->
  fold_left SyncNoteItemGrouped.organize tail (Some st) = Some st' ->
  SyncNoteItemGrouped.blocks st' = SyncNoteItemGrouped.blocks st
  /\ SyncNoteItemGrouped.currentCalloutColor st'
     = SyncNoteItemGrouped.currentCalloutColor st.
Proof.
  revert st. induction tail as [ | b tail IH ]; intros st Plain Run.
  - injection Run as <-. split; reflexivity.
  - simpl in Plain. apply andb_prop in Plain. destruct Plain as [Nb Ntail].
    cbn [fold_left] in Run.
    destruct (SyncNoteItemGrouped.organize (Some st) b) as [ next | ] eqn:Step;
      [ | rewrite organize_failed in Run; discriminate Run ].
    destruct (IH next Ntail Run) as [-> ->].
    unfold SyncNoteItemGrouped.organize in Step.
    rewrite calloutColor_none in Step by (apply negb_true_iff; exact Nb).
    destruct (SyncNoteItemGrouped.currentCalloutColor st) eqn:Current;
      [ | injection Step as <-; split; [ reflexivity | cbn; congruence ] ].
    destruct b as [ typed k rt ch c | | ];
      [ destruct k | | ];
      try (injection Step as <-; split; [ reflexivity | cbn; congruence ]).
    + destruct (SyncNoteItemGrouped.regroupParagraph rt); [ | discriminate Step ].
      injection Step as <-. split; [ reflexivity | cbn; congruence ].
Qed.

(** X20.  Blocks that come before the first callout are ignored by the
    grouping: they open no section and join none, so the result is that of
    the rest of the sequence. *)
Theorem blocks_before_the_first_callout_are_dropped (pre rest : list Block) :
  forallb (fun b => negb (isCallout b)) pre = true ->
  SyncNoteItemGrouped.groupByColor (pre ++ rest) = SyncNoteItemGrouped.groupByColor rest.
Proof.
  intros Plain. unfold SyncNoteItemGrouped.groupByColor.
  rewrite colorGroups_without_callout by exact Plain.
  rewrite fold_left_app, organize_before_first_callout by exact Plain.
  reflexivity.
Qed.

Lemma blocks_before_the_first_callout_witness :
  SyncNoteItemGrouped.groupByColor
    ([Scenario.helloParagraph; DividerBlock] ++ Scenario.twoAnnotations)
  = SyncNoteItemGrouped.groupByColor Scenario.twoAnnotations.
Proof.
  apply (blocks_before_the_first_callout_are_dropped
           [Scenario.helloParagraph; DividerBlock] Scenario.twoAnnotations).
  reflexivity.
Defined.

Section GroupedBuilderFacts.
Context `{Collaborators}.

(** X21.  In annotation mode a note whose conversion holds no callout is
    synced empty: the grouping keeps nothing of it and the batch builder
    returns no batch, under every limit. *)
Theorem note_without_callout_syncs_nothing (limit : nat) (note : string) :
  forallb (fun b => negb (isCallout b))
          (FlatAnnotations.convertHtmlToBlocks note true) = true ->
  SyncNoteItemGrouped.groupByColor (FlatAnnotations.convertHtmlToBlocks note true)
  = Some []
  /\ SyncNoteItemGrouped.buildNoteBlockBatches limit note true = Returns [].
Proof.
  intros Plain.
  assert (G : SyncNoteItemGrouped.groupByColor
                (FlatAnnotations.convertHtmlToBlocks note true) = Some []).
  { rewrite <- (app_nil_r (FlatAnnotations.convertHtmlToBlocks note true)).
    unfold SyncNoteItemGrouped.groupByColor.
    rewrite colorGroups_without_callout by exact Plain.
    rewrite fold_left_app, organize_before_first_callout by exact Plain.
    reflexivity. }
  split; [ exact G | ].
  unfold SyncNoteItemGrouped.buildNoteBlockBatches. rewrite G.
  destruct limit as [ | limit ]; [ reflexivity | ].
  rewrite batchesOf_partition by lia. unfold partitionBySize. cbn [List.length].
  replace (ceilDiv 0 (Nat.min (S limit) 100)) with 0
    by (symmetry; unfold ceilDiv; apply Nat.div_small; lia).
  reflexivity.
Qed.

End GroupedBuilderFacts.

Lemma note_without_callout_syncs_nothing_witness :
  @FlatAnnotations.convertHtmlToBlocks Scenario.standIn Scenario.helloHtml true
  = [Scenario.helloParagraph]
  /\ @SyncNoteItemGrouped.buildNoteBlockBatches Scenario.standIn 100 Scenario.helloHtml true
     = Returns [].
Proof.
  split; [ reflexivity | ].
  apply (@note_without_callout_syncs_nothing Scenario.standIn 100 Scenario.helloHtml).
  reflexivity.
Defined.

(** X22.  A callout whose colour reads as undefined in the title table
    gets its heading, titled from the colour token, but never its blocks:
    the heading is looked up by the table's title, which does not exist,
    so the section stays empty and the annotation is lost.  (The token
    holds no code unit whose upper-case form lies outside the model.) *)
Theorem colour_without_title_loses_its_blocks
        (typed : bool) (text : RichText) (nested : option (list Block))
        (c : option string) (tail grouped : list Block) :
  readProperty SyncNoteItemGrouped.colorTitles (Js.orElse c "default") = None ->
  upperCaseInRange (Js.orElse c "default") = true ->
  forallb (fun b => negb (isCallout b)) tail = true ->
  SyncNoteItemGrouped.groupByColor (TextBlock typed callout text nested c :: tail)
  = Some grouped ->
  grouped
  = [TextBlock true heading_3
               [plainText (Js.toUpperCase
                             (Js.replaceFirst "_" " "
                                (Js.replaceFirst "_background" EmptyString
                                                 (Js.orElse c "default"))))]
               (Some []) None].
Proof.
  intros Undefined _ Plain Run.
  assert (NoTitle : ownProperty SyncNoteItemGrouped.colorTitles (Js.orElse c "default")
                    = None).
  { unfold readProperty in Undefined.
    destruct (ownProperty SyncNoteItemGrouped.colorTitles (Js.orElse c "default"));
      [ discriminate Undefined | reflexivity ]. }
  unfold SyncNoteItemGrouped.groupByColor in Run.
  change (TextBlock typed callout text nested c :: tail)
    with ([TextBlock typed callout text nested c] ++ tail) in Run.
  rewrite fold_left_app in Run.
  unfold SyncNoteItemGrouped.colorGroupsOf in Run. rewrite fold_left_app in Run.
  cbn [fold_left SyncNoteItemGrouped.calloutColor existsb app] in Run.
  fold (SyncNoteItemGrouped.colorGroupsOf tail) in Run.
  assert (Same : fold_left
                   (fun colorGroups b =>
                      match SyncNoteItemGrouped.calloutColor b with
                      | Some c0 => if existsb (String.eqb c0) colorGroups then colorGroups
                                   else colorGroups ++ [c0]
                      | None => colorGroups
                      end) tail [Js.orElse c "default"]
                 = [Js.orElse c "default"]).
  { clear Run. induction tail as [ | b tail IH ]; [ reflexivity | ].
    simpl in Plain. apply andb_prop in Plain. destruct Plain as [Nb Ntail].
    cbn [fold_left]. rewrite calloutColor_none by (apply negb_true_iff; exact Nb).
    apply IH. exact Ntail. }
  rewrite Same in Run. cbn [map] in Run.
  unfold SyncNoteItemGrouped.organize at 2 in Run.
  cbn [SyncNoteItemGrouped.calloutColor SyncNoteItemGrouped.flush
         SyncNoteItemGrouped.blocks SyncNoteItemGrouped.currentCalloutColor
         SyncNoteItemGrouped.currentGroup] in Run.
  destruct (fold_left SyncNoteItemGrouped.organize tail _) as [ st | ] eqn:F;
    [ | discriminate Run ].
  destruct (organize_between_callouts tail _ st Plain F) as [B C].
  cbn [SyncNoteItemGrouped.blocks SyncNoteItemGrouped.currentCalloutColor] in B, C.
  injection Run as <-. unfold SyncNoteItemGrouped.flush. rewrite B, C, NoTitle.
  unfold SyncNoteItemGrouped.headingOf, SyncNoteItemGrouped.titleOf. rewrite NoTitle.
  destruct (SyncNoteItemGrouped.currentGroup st); reflexivity.
Qed.

Lemma colour_without_title_witness :
  SyncNoteItemGrouped.groupByColor
    [ TextBlock true callout [plainText "Aside"] None (Some "orange_background");
      Scenario.greenParagraph; DividerBlock ]
  = Some [TextBlock true heading_3 [plainText "ORANGE"] (Some []) None].
Proof.
  rewrite (colour_without_title_loses_its_blocks
             true [plainText "Aside"] None (Some "orange_background")
             [Scenario.greenParagraph; DividerBlock]
             [TextBlock true heading_3 [plainText "ORANGE"] (Some []) None]
             eq_refl eq_refl eq_refl eq_refl).
  reflexivity.
Defined.

Lemma isTitled_title (wanted : string) (b : Block) :
  SyncNoteItemGrouped.isTitled wanted b = true <-> headingTitle b = Some wanted.
Proof.
  destruct b as [ typed k [ | [ content link a | e ] rt ] ch c | | ];
    try (split; discriminate).
  all: destruct k; try (split; discriminate).
  cbn [SyncNoteItemGrouped.isTitled headingTitle].
  split; [ intros E; apply String.eqb_eq in E; subst content; reflexivity
         | intros E; injection E as ->; apply String.eqb_refl ].
Qed.

Lemma ownProperty_entry (table : list (string * string)) (key value : string) :
  ownProperty table key = Some value -> In (key, value) table.
Proof.
  induction table as [ | [k v] rest IH ]; cbn [ownProperty]; [ discriminate | ].
  destruct (String.eqb k key) eqn:E.
  - apply String.eqb_eq in E. subst k. intros V. injection V as ->. left. reflexivity.
  - intros V. right. apply IH. exact V.
Qed.

(** The titles of the table belong to one colour each. *)
Lemma colorTitles_injective (a b title : string) :
  ownProperty SyncNoteItemGrouped.colorTitles a = Some title ->
  ownProperty SyncNoteItemGrouped.colorTitles b = Some title ->
  a = b.
Proof.
  intros A B. apply ownProperty_entry in A. apply ownProperty_entry in B.
  unfold SyncNoteItemGrouped.colorTitles in A, B. cbn [In] in A, B.
  repeat match goal with
         | H : _ \/ _ |- _ => destruct H as [ H | H ]
         | H : False |- _ => destruct H
         end;
    congruence.
Qed.

Lemma pushInto_hasChildren (wanted : string) (group blocks : list Block) :
  Forall hasChildren blocks ->
  Forall hasChildren (SyncNoteItemGrouped.pushInto wanted group blocks).
Proof.
  induction 1 as [ | b rest (typed & k & rt & cs & c & ->) Rest IH ]; [ constructor | ].
  cbn [SyncNoteItemGrouped.pushInto].
  destruct (SyncNoteItemGrouped.isTitled wanted _).
  - constructor; [ | exact Rest ]. exists typed, k, rt, (cs ++ group), c. reflexivity.
  - constructor; [ | exact IH ]. exists typed, k, rt, cs, c. reflexivity.
Qed.

Lemma pushInto_section (title : string) (group blocks : list Block) :
  Forall hasChildren blocks ->
  In (Some title) (map headingTitle blocks) ->
  sectionOf title (SyncNoteItemGrouped.pushInto title group blocks)
  = sectionOf title blocks ++ group.
Proof.
  induction 1 as [ | b rest (typed & k & rt & cs & c & ->) Rest IH ]; [ intros [] | ].
  intros Titled. cbn [SyncNoteItemGrouped.pushInto]. unfold sectionOf. cbn [find].
  destruct (SyncNoteItemGrouped.isTitled title (TextBlock typed k rt (Some cs) c)) eqn:T.
  - cbn [find]. change (SyncNoteItemGrouped.isTitled title
                          (TextBlock typed k rt (Some (cs ++ group)) c))
      with (SyncNoteItemGrouped.isTitled title (TextBlock typed k rt (Some cs) c)).
    rewrite T. reflexivity.
  - cbn [find]. rewrite T. apply IH. destruct Titled as [ Here | There ]; [ | exact There ].
    apply isTitled_title in Here. rewrite Here in T. discriminate T.
Qed.

Lemma pushInto_other_section (title wanted : string) (group blocks : list Block) :
  wanted <> title ->
  sectionOf title (SyncNoteItemGrouped.pushInto wanted group blocks)
  = sectionOf title blocks.
Proof.
  intros Other. unfold sectionOf.
  induction blocks as [ | b rest IH ]; [ reflexivity | ].
  cbn [SyncNoteItemGrouped.pushInto].
  destruct (SyncNoteItemGrouped.isTitled wanted b) eqn:W.
  - assert (T : SyncNoteItemGrouped.isTitled title b = false).
    { destruct (SyncNoteItemGrouped.isTitled title b) eqn:T; [ | reflexivity ].
      apply isTitled_title in W. apply isTitled_title in T.
      rewrite W in T. injection T as T. contradiction. }
    destruct b as [ typed k rt [ cs | ] c | | ]; try reflexivity.
    cbn [find].
    change (SyncNoteItemGrouped.isTitled title (TextBlock typed k rt (Some (cs ++ group)) c))
      with (SyncNoteItemGrouped.isTitled title (TextBlock typed k rt (Some cs) c)).
    rewrite T. reflexivity.
  - cbn [find]. destruct (SyncNoteItemGrouped.isTitled title b); [ reflexivity | exact IH ].
Qed.

(** What the paragraphs of a group become holds no callout. *)
Lemma regroupParagraph_no_callout (richText : RichText) (added : list Block) :
  SyncNoteItemGrouped.regroupParagraph richText = Some added ->
  forall x, In x added -> SyncNoteItemGrouped.calloutColor x = None.
Proof.
  unfold SyncNoteItemGrouped.regroupParagraph.
  destruct (SyncNoteItemGrouped.commentAndTagsOf richText EmptyString [])
    as [ [comment tags] | ]; [ | discriminate ].
  intros E. injection E as <-. intros x I. apply in_app_or in I.
  destruct I as [ I | I ].
  - destruct (Js.truthy (Js.trim comment)); [ | destruct I ].
    destruct I as [ <- | [] ]. reflexivity.
  - destruct tags; [ destruct I | ]. destruct I as [ <- | [] ]. reflexivity.
Qed.

Section CalloutsOfOneColour.

Variable whole : list Block.
Variables c title : string.
Hypothesis Titled : ownProperty SyncNoteItemGrouped.colorTitles c = Some title.

Lemma hasColor_callout (x : Block) : hasColor c x = true -> isCallout x = true.
Proof.
  destruct x as [ typed k rt ch cx | | ]; [ destruct k | | ];
    try discriminate; reflexivity.
Qed.

Lemma filter_callouts_of_colour (l : list Block) :
  (forall x cx, In x l -> SyncNoteItemGrouped.calloutColor x = Some cx -> cx = c) ->
  filter isCallout l = filter (hasColor c) l.
Proof.
  induction l as [ | x l IH ]; [ reflexivity | ]. intros Same. cbn [filter].
  rewrite IH by (intros y cy I; apply Same; right; exact I).
  destruct x as [ typed k rt ch cx | | ]; [ destruct k | | ]; try reflexivity.
  unfold hasColor, isCallout. cbn [SyncNoteItemGrouped.calloutColor].
  rewrite (Same _ _ (or_introl eq_refl) eq_refl), String.eqb_refl. reflexivity.
Qed.

Lemma flush_kept (processed : list Block) (st : SyncNoteItemGrouped.Pass) :
  Kept whole c title processed st ->
  let flushed := SyncNoteItemGrouped.flush (SyncNoteItemGrouped.blocks st)
                   (SyncNoteItemGrouped.currentCalloutColor st)
                   (SyncNoteItemGrouped.currentGroup st) in
  filter isCallout (sectionOf title flushed) = filter (hasColor c) processed
  /\ (forall b x, In b flushed -> In x (nestedIn b) ->
                  hasColor c x = true -> headingTitle b = Some title)
  /\ map headingTitle flushed
     = map (fun c0 => Some (SyncNoteItemGrouped.titleOf c0))
           (SyncNoteItemGrouped.colorGroupsOf whole)
  /\ Forall hasChildren flushed.
Proof.
  intros [Section_ Elsewhere Group Colour Titles Children]. cbn zeta.
  split; [ | split; [ | split ] ].
  - rewrite <- Section_. unfold SyncNoteItemGrouped.flush, pending.
    destruct (SyncNoteItemGrouped.currentCalloutColor st) as [ c0 | ] eqn:Current;
      [ | rewrite app_nil_r; reflexivity ].
    destruct (SyncNoteItemGrouped.currentGroup st) as [ | g group ] eqn:G.
    { destruct (String.eqb c0 c); rewrite app_nil_r; reflexivity. }
    destruct (String.eqb c0 c) eqn:E.
    + apply String.eqb_eq in E. subst c0. rewrite Titled.
      rewrite pushInto_section.
      * rewrite filter_app. reflexivity.
      * exact Children.
      * rewrite Titles. apply in_map_iff. exists c. split.
        -- unfold SyncNoteItemGrouped.titleOf. rewrite Titled. reflexivity.
        -- apply Colour. reflexivity.
    + rewrite app_nil_r.
      destruct (ownProperty SyncNoteItemGrouped.colorTitles c0) as [ wanted | ] eqn:W;
        [ | reflexivity ].
      rewrite pushInto_other_section; [ reflexivity | ].
      intros ->. apply String.eqb_neq in E. apply E.
      apply (colorTitles_injective c0 c title W Titled).
  - unfold SyncNoteItemGrouped.flush.
    destruct (SyncNoteItemGrouped.currentCalloutColor st) as [ c0 | ] eqn:Current;
      [ | exact Elsewhere ].
    destruct (SyncNoteItemGrouped.currentGroup st) as [ | g group ] eqn:G;
      [ exact Elsewhere | ].
    destruct (ownProperty SyncNoteItemGrouped.colorTitles c0) as [ wanted | ] eqn:W;
      [ | exact Elsewhere ].
    assert (FromGroup : forall x, In x (g :: group) -> hasColor c x = true ->
                                  wanted = title).
    { intros x I H. unfold hasColor in H.
      destruct (SyncNoteItemGrouped.calloutColor x) as [ cx | ] eqn:X;
        [ | discriminate H ].
      apply String.eqb_eq in H. subst cx.
      pose proof (Group x c I X) as Is. injection Is as ->.
      rewrite Titled in W. injection W as <-. reflexivity. }
    revert Elsewhere. generalize (SyncNoteItemGrouped.blocks st) as bs.
    induction bs as [ | b rest IH ]; intros Elsewhere b' x I; [ destruct I | ].
    cbn [SyncNoteItemGrouped.pushInto] in I.
    destruct (SyncNoteItemGrouped.isTitled wanted b) eqn:T.
    + destruct b as [ typed k rt [ cs | ] cb | | ];
        try (apply Elsewhere; exact I).
      destruct I as [ <- | I ]; [ | apply Elsewhere; right; exact I ].
      cbn [nestedIn]. intros X H. apply in_app_or in X. destruct X as [ X | X ].
      * apply (Elsewhere (TextBlock typed k rt (Some cs) cb) x (or_introl eq_refl) X H).
      * rewrite <- (FromGroup x X H).
        apply (proj1 (isTitled_title wanted (TextBlock typed k rt (Some cs) cb)) T).
    + destruct I as [ <- | I ].
      * apply Elsewhere. left. reflexivity.
      * apply IH; [ | exact I ]. intros b0 x0 I0. apply Elsewhere. right. exact I0.
  - rewrite flush_titles. exact Titles.
  - unfold SyncNoteItemGrouped.flush.
    destruct (SyncNoteItemGrouped.currentCalloutColor st) as [ c0 | ];
      [ | exact Children ].
    destruct (SyncNoteItemGrouped.currentGroup st); [ exact Children | ].
    destruct (ownProperty SyncNoteItemGrouped.colorTitles c0); [ | exact Children ].
    apply pushInto_hasChildren. exact Children.
Qed.

Lemma colour_of_whole (b : Block) (cb : string) :
  In b whole -> SyncNoteItemGrouped.calloutColor b = Some cb ->
  In cb (SyncNoteItemGrouped.colorGroupsOf whole).
Proof.
  intros I C. destruct (colorGroups_extend whole []) as (more & Eq & _ & Mem).
  unfold SyncNoteItemGrouped.colorGroupsOf. rewrite Eq. apply Mem.
  right. exists b. split; [ exact I | exact C ].
Qed.

Lemma filter_snoc_other (processed : list Block) (b : Block) :
  SyncNoteItemGrouped.calloutColor b = None ->
  filter (hasColor c) (processed ++ [b]) = filter (hasColor c) processed.
Proof.
  intros N. rewrite filter_app. cbn [filter]. unfold hasColor at 2. rewrite N.
  apply app_nil_r.
Qed.

Lemma pending_more (current : option string) (group added : list Block) :
  (forall x, In x added -> SyncNoteItemGrouped.calloutColor x = None) ->
  pending c current (group ++ added) = pending c current group.
Proof.
  intros N. unfold pending. destruct current as [ c0 | ]; [ | reflexivity ].
  destruct (String.eqb c0 c); [ | reflexivity ].
  rewrite filter_app.
  replace (filter isCallout added) with (@nil Block); [ apply app_nil_r | ].
  symmetry. induction added as [ | x added IH ]; [ reflexivity | ].
  cbn [filter]. rewrite <- IH by (intros y I; apply N; right; exact I).
  pose proof (N x (or_introl eq_refl)) as X.
  destruct x as [ typed k rt ch cx | | ]; [ destruct k | | ];
    try reflexivity; discriminate X.
Qed.

Lemma organize_kept (processed : list Block) (st next : SyncNoteItemGrouped.Pass)
      (b : Block) :
  In b whole ->
  Kept whole c title processed st ->
  SyncNoteItemGrouped.organize (Some st) b = Some next ->
  Kept whole c title (processed ++ [b]) next.
Proof.
  intros I K Step. unfold SyncNoteItemGrouped.organize in Step.
  destruct (SyncNoteItemGrouped.calloutColor b) as [ cb | ] eqn:C.
  - injection Step as <-.
    destruct (flush_kept processed st K) as (Section_ & Elsewhere & Titles & Children).
    constructor; cbn [SyncNoteItemGrouped.blocks SyncNoteItemGrouped.currentCalloutColor
                        SyncNoteItemGrouped.currentGroup].
    + rewrite Section_, filter_app. f_equal. unfold pending. cbn [filter].
      unfold hasColor. rewrite C.
      replace (isCallout b) with true
        by (destruct b as [ typed k rt ch c0 | | ]; [ destruct k | | ];
            try discriminate C; reflexivity).
      destruct (String.eqb cb c); reflexivity.
    + exact Elsewhere.
    + intros x cx [ <- | [] ] X. rewrite C in X. exact X.
    + intros c0 E. injection E as <-. apply (colour_of_whole b cb I C).
    + exact Titles.
    + exact Children.
  - destruct K as [Section_ Elsewhere Group Colour Titles Children].
    assert (Same : forall added,
               (forall x, In x added -> SyncNoteItemGrouped.calloutColor x = None) ->
               Kept whole c title (processed ++ [b])
                    (SyncNoteItemGrouped.mkPass
                       (SyncNoteItemGrouped.blocks st)
                       (SyncNoteItemGrouped.currentCalloutColor st)
                       (SyncNoteItemGrouped.currentGroup st ++ added))).
    { intros added N.
      constructor; cbn [SyncNoteItemGrouped.blocks SyncNoteItemGrouped.currentCalloutColor
                          SyncNoteItemGrouped.currentGroup].
      - rewrite pending_more by exact N. rewrite filter_snoc_other by exact C.
        exact Section_.
      - exact Elsewhere.
      - intros x cx X Cx. apply in_app_or in X. destruct X as [ X | X ].
        + apply (Group x cx X Cx).
        + rewrite (N x X) in Cx. discriminate Cx.
      - exact Colour.
      - exact Titles.
      - exact Children. }
    assert (Unchanged : Kept whole c title (processed ++ [b]) st).
    { constructor; try assumption.
      rewrite filter_snoc_other by exact C. exact Section_. }
    destruct (SyncNoteItemGrouped.currentCalloutColor st) as [ c0 | ] eqn:Current;
      [ | injection Step as <-; exact Unchanged ].
    destruct b as [ typed k rt ch cb | | ]; [ destruct k | | ];
      try (injection Step as <-; exact Unchanged).
    + destruct (SyncNoteItemGrouped.regroupParagraph rt) as [ added | ] eqn:R;
        [ | discriminate Step ].
      injection Step as <-. apply Same. apply (regroupParagraph_no_callout rt added R).
    + injection Step as <-. apply Same. intros x [ <- | [] ]. reflexivity.
Qed.

Lemma organize_all_kept (l processed : list Block) (st st' : SyncNoteItemGrouped.Pass) :
  processed ++ l = whole ->
  Kept whole c title processed st ->
  fold_left SyncNoteItemGrouped.organize l (Some st) = Some st' ->
  Kept whole c title whole st'.
Proof.
  revert processed st. induction l as [ | b l IH ]; intros processed st Parts K Run.
  - injection Run as <-. rewrite app_nil_r in Parts. subst processed. exact K.
  - cbn [fold_left] in Run.
    destruct (SyncNoteItemGrouped.organize (Some st) b) as [ next | ] eqn:Step;
      [ | rewrite organize_failed in Run; discriminate Run ].
    apply (IH (processed ++ [b]) next).
    + rewrite <- app_assoc. exact Parts.
    + apply (organize_kept processed st next b); [ | exact K | exact Step ].
      rewrite <- Parts. apply in_or_app. right. left. reflexivity.
    + exact Run.
Qed.

Lemma headings_kept :
  Kept whole c title [] (SyncNoteItemGrouped.mkPass
             (map SyncNoteItemGrouped.headingOf (SyncNoteItemGrouped.colorGroupsOf whole))
             None []).
Proof.
  constructor; cbn [SyncNoteItemGrouped.blocks SyncNoteItemGrouped.currentCalloutColor
                      SyncNoteItemGrouped.currentGroup pending filter].
  - rewrite app_nil_r. unfold sectionOf.
    induction (SyncNoteItemGrouped.colorGroupsOf whole) as [ | c0 l IH ]; [ reflexivity | ].
    cbn [map find].
    destruct (SyncNoteItemGrouped.isTitled title (SyncNoteItemGrouped.headingOf c0));
      [ reflexivity | exact IH ].
  - intros b x I X. apply in_map_iff in I. destruct I as (c0 & <- & _). destruct X.
  - intros x cx [].
  - discriminate.
  - rewrite map_map. reflexivity.
  - apply Forall_forall. intros b I. apply in_map_iff in I. destruct I as (c0 & <- & _).
    unfold SyncNoteItemGrouped.headingOf. do 5 eexists. reflexivity.
Qed.

End CalloutsOfOneColour.

(** X23.  For a colour of the title table the grouping loses and moves no
    callout: whenever it returns, the section under the colour's title
    holds exactly the callouts of that colour, in input order, and no
    other heading holds one of them.  (Colour tokens name no inherited
    member.) *)
Theorem callouts_stay_under_their_colour
        (originalBlocks grouped : list Block) (c title : string) :
  plainColours originalBlocks = true ->
  ownProperty SyncNoteItemGrouped.colorTitles c = Some title ->
  SyncNoteItemGrouped.groupByColor originalBlocks = Some grouped ->
  filter isCallout (sectionOf title grouped) = filter (hasColor c) originalBlocks
  /\ (forall b x, In b grouped -> In x (nestedIn b) -> hasColor c x = true ->
                  headingTitle b = Some title).
Proof.
  intros _ Titled Run. unfold SyncNoteItemGrouped.groupByColor in Run.
  destruct (fold_left SyncNoteItemGrouped.organize originalBlocks _) as [ st | ] eqn:F;
    [ | discriminate Run ].
  injection Run as <-.
  pose proof (organize_all_kept originalBlocks c title Titled originalBlocks [] _ st eq_refl
                (headings_kept originalBlocks c title) F) as K.
  destruct (flush_kept originalBlocks c title Titled originalBlocks st K)
    as (Section_ & Elsewhere & _).
  split; [ exact Section_ | exact Elsewhere ].
Qed.

Lemma callouts_stay_under_their_colour_witness :
  filter isCallout (sectionOf "Highlights" Scenario.sectionsAsBuilt)
  = filter (hasColor "yellow_background") Scenario.twoAnnotations.
Proof.
  apply (callouts_stay_under_their_colour
           Scenario.twoAnnotations Scenario.sectionsAsBuilt "yellow_background"
           "Highlights").
  - reflexivity.
  - reflexivity.
  - reflexivity.
Defined.

Lemma trimEnd_all_white (s : string) :
  forallb Js.isWhiteSpace (Js.chars s) = true -> Js.trimEnd s = EmptyString.
Proof.
  induction s as [ | c s IH ]; [ reflexivity | ].
  unfold Js.chars. cbn [list_ascii_of_string forallb]. intros W.
  apply andb_prop in W. destruct W as [Wc Ws].
  cbn [Js.trimEnd]. rewrite (IH Ws), Wc. reflexivity.
Qed.

Lemma trimEnd_app_white (s w : string) :
  forallb Js.isWhiteSpace (Js.chars w) = true ->
  Js.trimEnd (s ++ w) = Js.trimEnd s.
Proof.
  intros W. induction s as [ | c s IH ].
  - apply trimEnd_all_white. exact W.
  - cbn [append Js.trimEnd]. rewrite IH. reflexivity.
Qed.

Lemma trimEnd_idempotent (s : string) : Js.trimEnd (Js.trimEnd s) = Js.trimEnd s.
Proof.
  induction s as [ | c s IH ]; [ reflexivity | ].
  cbn [Js.trimEnd]. destruct (Js.trimEnd s) as [ | d kept ] eqn:E.
  - destruct (Js.isWhiteSpace c) eqn:W; [ reflexivity | ].
    cbn [Js.trimEnd]. rewrite W. reflexivity.
  - cbn [Js.trimEnd]. cbn [Js.trimEnd] in IH. rewrite IH. reflexivity.
Qed.

Lemma trimEnd_keeps_black_head (c : ascii) (s : string) :
  Js.isWhiteSpace c = false -> Js.trimEnd (String c s) = String c (Js.trimEnd s).
Proof.
  intros B. cbn [Js.trimEnd]. destruct (Js.trimEnd s); [ rewrite B | ]; reflexivity.
Qed.

(** A trimmed text followed by white space trims to itself. *)
Lemma trim_absorbs_trailing_white (s w : string) :
  forallb Js.isWhiteSpace (Js.chars w) = true ->
  Js.trim (Js.trim s ++ w) = Js.trim s.
Proof.
  intros W. unfold Js.trim at 2 3.
  destruct (trimStart_spec s) as (ws & _ & _ & Head).
  destruct (Js.trimStart s) as [ | c rest ].
  - cbn [Js.trimEnd append]. apply trim_all_white. exact W.
  - rewrite (trimEnd_keeps_black_head c rest Head).
    unfold Js.trim. cbn [append Js.trimStart]. rewrite Head.
    rewrite (trimEnd_keeps_black_head c _ Head), trimEnd_app_white by exact W.
    rewrite trimEnd_idempotent. reflexivity.
Qed.

Lemma removelast_pairs {A : Type} (sep x : A) (l : list A) :
  removelast (flat_map (fun y => [y; sep]) (x :: l))
  = x :: match l with
         | [] => []
         | _ => sep :: removelast (flat_map (fun y => [y; sep]) l)
         end.
Proof. destruct l; reflexivity. Qed.

(** Reading back the spans that [commentAndTags] lays out: the spaces
    between the tags go to the comment, the tags come back as they are. *)
Lemma commentAndTagsOf_tag_line (tags : list string) (comment : string)
      (collected : list RichTextItem) :
  let formatted :=
    map (fun tag => TextItem (String hash (Js.trim tag)) None (Some codeAnnotation)) tags in
  exists spaces,
    forallb Js.isWhiteSpace (Js.chars spaces) = true
    /\ SyncNoteItemGrouped.commentAndTagsOf
         (removelast (flat_map (fun tag => [tag; plainText " "]) formatted))
         comment collected
       = Some ((comment ++ spaces)%string, collected ++ formatted)
    /\ removelast (flat_map (fun tag => [tag; plainText " "]) formatted)
       = SyncNoteItemGrouped.spaced formatted.
Proof.
  cbn zeta. revert comment collected.
  induction tags as [ | tag tags IH ]; intros comment collected.
  - exists EmptyString. cbn. rewrite append_empty_r, app_nil_r. repeat split.
  - cbn [map]. rewrite removelast_pairs. destruct tags as [ | tag' tags ].
    + exists EmptyString. cbn. rewrite append_empty_r. repeat split.
    + destruct (IH (comment ++ " ")%string
                   (collected ++ [TextItem (String hash (Js.trim tag)) None
                                           (Some codeAnnotation)]))
        as (spaces & White & Read & Shape).
      exists (" " ++ spaces)%string. split; [ | split ].
      * unfold Js.chars in *. cbn [append list_ascii_of_string forallb].
        rewrite White. reflexivity.
      * cbn [map]. unfold plainText.
        cbn [SyncNoteItemGrouped.commentAndTagsOf code codeAnnotation].
        cbn [map] in Read. unfold plainText in Read. rewrite Read.
        rewrite <- app_assoc. f_equal. f_equal.
        clear. induction comment as [ | c comment IH ]; [ reflexivity | ].
        cbn [append]. f_equal. exact IH.
      * cbn [map] in Shape. cbn [map SyncNoteItemGrouped.spaced]. rewrite Shape.
        reflexivity.
Qed.

(** X24.  The grouping reads the paragraph of an annotation back without
    failing: the comment comes out trimmed and without the line feed, as a
    paragraph of its own that is left out when the comment is empty, and
    the line of tags comes out span for span, left out when there is no
    tag. *)
Theorem grouping_reads_the_annotation_paragraph_back (remainingText : string) :
  let pieces := Js.splitOn hash (Js.trim remainingText) in
  let comment := Js.trim (hd EmptyString pieces) in
  SyncNoteItemGrouped.regroupParagraph (commentAndTags remainingText)
  = Some ((if Js.truthy comment
           then [TextBlock true paragraph [plainText comment] None None]
           else [])
          ++ (match tl pieces with
              | [] => []
              | _ => [TextBlock true paragraph (tl (commentAndTags remainingText))
                                None None]
              end)).
Proof.
  cbn zeta. unfold commentAndTags, SyncNoteItemGrouped.regroupParagraph.
  cbn [tl]. rewrite slice_init.
  set (pieces := Js.splitOn hash (Js.trim remainingText)).
  cbn [SyncNoteItemGrouped.commentAndTagsOf plainText]. unfold plainText at 1.
  cbn [SyncNoteItemGrouped.commentAndTagsOf].
  destruct (commentAndTagsOf_tag_line (tl pieces)
              (EmptyString ++ Js.trim (hd EmptyString pieces) ++ Js.LF)%string [])
    as (spaces & White & Read & Shape).
  cbn zeta in Read, Shape. unfold plainText in Read. rewrite Read.
  cbn [append app].
  assert (Trim : Js.trim ((Js.trim (hd EmptyString pieces) ++ Js.LF) ++ spaces)
                 = Js.trim (hd EmptyString pieces)).
  { assert (Assoc : forall a b c : string, ((a ++ b) ++ c = a ++ (b ++ c))%string).
    { intros a b c. induction a as [ | x a IH ]; [ reflexivity | ].
      cbn [append]. f_equal. exact IH. }
    rewrite Assoc. apply trim_absorbs_trailing_white.
    unfold Js.chars in *. unfold Js.LF. cbn [append list_ascii_of_string forallb].
    rewrite White. reflexivity. }
  rewrite Trim. f_equal. f_equal.
  destruct (tl pieces) as [ | tag tags ] eqn:T; [ reflexivity | ].
  cbn [map]. cbn [map] in Shape. unfold plainText in Shape. unfold plainText.
  rewrite Shape. reflexivity.
Qed.

Lemma commentAndTagsOf_equation (richText : RichText) (comment : string)
      (tags : list RichTextItem) :
  existsb isEquation richText = true ->
  SyncNoteItemGrouped.commentAndTagsOf richText comment tags = None.
Proof.
  revert comment tags.
  induction richText as [ | [ content link [ a | ] | e ] rest IH ]; intros comment tags;
    cbn [existsb SyncNoteItemGrouped.commentAndTagsOf isEquation hasText negb orb];
    intros E; try discriminate E; try reflexivity.
  - destruct (code a) as [ [ | ] | ]; apply IH; exact E.
  - apply IH. exact E.
Qed.

(** Once a callout has been met the current colour is set for good. *)
Lemma organize_colour_stays (l : list Block) (st st' : SyncNoteItemGrouped.Pass) :
  fold_left SyncNoteItemGrouped.organize l (Some st) = Some st' ->
  SyncNoteItemGrouped.currentCalloutColor st <> None \/ existsb isCallout l = true ->
  SyncNoteItemGrouped.currentCalloutColor st' <> None.
Proof.
  revert st. induction l as [ | b l IH ]; intros st Run Met.
  - injection Run as <-. destruct Met as [ Set_ | Callout ];
      [ exact Set_ | discriminate Callout ].
  - cbn [fold_left] in Run.
    destruct (SyncNoteItemGrouped.organize (Some st) b) as [ next | ] eqn:Step;
      [ | rewrite organize_failed in Run; discriminate Run ].
    apply (IH next Run). unfold SyncNoteItemGrouped.organize in Step.
    destruct (SyncNoteItemGrouped.calloutColor b) as [ cb | ] eqn:C.
    + injection Step as <-. left. discriminate.
    + assert (Nb : isCallout b = false)
        by (destruct b as [ typed k rt ch c | | ]; [ destruct k | | ];
            try discriminate C; reflexivity).
      cbn [existsb] in Met. rewrite Nb in Met. cbn [orb] in Met.
      destruct Met as [ Set_ | Callout ]; [ left | right; exact Callout ].
      destruct (SyncNoteItemGrouped.currentCalloutColor st) as [ c0 | ] eqn:Current;
        [ | contradiction ].
      destruct b as [ typed k rt ch c | | ]; [ destruct k | | ];
        try (injection Step as <-; cbn; congruence).
      destruct (SyncNoteItemGrouped.regroupParagraph rt); [ | discriminate Step ].
      injection Step as <-. cbn. congruence.
Qed.

(** X25.  A paragraph that holds an equation span and comes after a
    callout makes the grouping throw, whatever surrounds it: the pass
    reads [text.content] of every span of the paragraph. *)
Theorem equation_after_a_callout_throws
        (before after : list Block) (typed : bool) (richText : RichText)
        (nested : option (list Block)) (c : option string) :
  existsb isCallout before = true ->
  existsb isEquation richText = true ->
  SyncNoteItemGrouped.groupByColor
    (before ++ TextBlock typed paragraph richText nested c :: after)
  = None.
Proof.
  intros Callout Equation. unfold SyncNoteItemGrouped.groupByColor.
  rewrite fold_left_app.
  destruct (fold_left SyncNoteItemGrouped.organize before _) as [ st | ] eqn:F;
    [ | rewrite organize_failed; reflexivity ].
  pose proof (organize_colour_stays before _ st F (or_intror Callout)) as Set_.
  cbn [fold_left]. unfold SyncNoteItemGrouped.organize at 2.
  cbn [SyncNoteItemGrouped.calloutColor].
  destruct (SyncNoteItemGrouped.currentCalloutColor st); [ | contradiction ].
  unfold SyncNoteItemGrouped.regroupParagraph.
  rewrite commentAndTagsOf_equation by exact Equation.
  rewrite organize_failed. reflexivity.
Qed.

Lemma equation_after_a_callout_throws_witness :
  SyncNoteItemGrouped.groupByColor
    ([Scenario.keyIdeaCallout; Scenario.keyIdeaParagraph; DividerBlock]
       ++ TextBlock false paragraph [plainText "so "; EquationItem "x^2"] None None
       :: [Scenario.greenCallout])
  = None.
Proof.
  apply (equation_after_a_callout_throws
           [Scenario.keyIdeaCallout; Scenario.keyIdeaParagraph; DividerBlock]
           [Scenario.greenCallout] false [plainText "so "; EquationItem "x^2"] None None).
  - reflexivity.
  - reflexivity.
Defined.

(* ================================================================== *)
(** * The note without paragraphs, the colour lookup, the digest *)
(* ================================================================== *)

Section WithoutParagraph.
Context `{Collaborators}.

(** X26.  The asynchronous converter reads paragraph elements only.  A
    note in which no container is found, or whose container holds no
    paragraph element, is synced as the placeholder: outside annotation
    mode as one batch of the callout "Empty", the paragraph "No annotation
    provided" and a divider; in annotation mode as one batch of one
    heading "Highlights" with these three as children.  (The limit leaves
    room for the three blocks in one batch.) *)
Theorem note_without_paragraph_syncs_the_placeholder (limit : nat) (note : string) :
  3 <= limit ->
  match findContainer (parseHTML note) with
  | Some container => Dom.getElementsByTagName "P" container = []
  | None => True
  end ->
  SyncNoteItemGrouped.buildNoteBlockBatches limit note false
  = Returns [[ TextBlock true callout [plainText "Empty"] None (Some "yellow_background");
               TextBlock true paragraph [plainText "No annotation provided"] None None;
               DividerBlock ]]
  /\ SyncNoteItemGrouped.buildNoteBlockBatches limit note true
     = Returns [[ TextBlock true heading_3 [plainText "Highlights"]
                    (Some [ TextBlock true callout [plainText "Empty"] None
                                      (Some "yellow_background");
                            TextBlock true paragraph [plainText "No annotation provided"]
                                      None None;
                            DividerBlock ])
                    None ]].
Proof.
  intros Room Empty.
  assert (Positive : 0 < limit) by lia.
  assert (Placeholder : forall isAnnotation,
             FlatAnnotations.convertHtmlToBlocks note isAnnotation
             = FlatAnnotations.createEmptyAnnotation).
  { intros isAnnotation. unfold FlatAnnotations.convertHtmlToBlocks. cbn zeta.
    destruct (findContainer (parseHTML note)) as [ container | ]; [ | reflexivity ].
    rewrite Empty. reflexivity. }
  unfold SyncNoteItemGrouped.buildNoteBlockBatches. cbn zeta.
  rewrite !Placeholder. split.
  - rewrite batchesOf_partition by exact Positive. unfold partitionBySize.
    rewrite ceilDiv_one
      by (unfold FlatAnnotations.createEmptyAnnotation; cbn [List.length]; lia).
    cbn [seq map Nat.mul skipn].
    rewrite firstn_all2
      by (unfold FlatAnnotations.createEmptyAnnotation; cbn [List.length]; lia).
    reflexivity.
  - replace (SyncNoteItemGrouped.groupByColor FlatAnnotations.createEmptyAnnotation)
      with (Some [ TextBlock true heading_3 [plainText "Highlights"]
                     (Some FlatAnnotations.createEmptyAnnotation) None ])
      by reflexivity.
    rewrite batchesOf_partition by exact Positive. unfold partitionBySize.
    rewrite ceilDiv_one by (cbn [List.length]; lia).
    cbn [seq map Nat.mul skipn]. rewrite firstn_all2 by (cbn [List.length]; lia).
    reflexivity.
Qed.

End WithoutParagraph.

Lemma note_without_paragraph_witness :
  @SyncNoteItemGrouped.buildNoteBlockBatches Scenario.withoutParagraph 100
     "<h1>Title</h1><ul><li>item</li></ul>" false
  = Returns [[ TextBlock true callout [plainText "Empty"] None (Some "yellow_background");
               TextBlock true paragraph [plainText "No annotation provided"] None None;
               DividerBlock ]].
Proof.
  apply (@note_without_paragraph_syncs_the_placeholder Scenario.withoutParagraph 100
           "<h1>Title</h1><ul><li>item</li></ul>").
  - lia.
  - reflexivity.
Defined.

Lemma toLowerCase_app (a b : string) :
  Js.toLowerCase (a ++ b) = (Js.toLowerCase a ++ Js.toLowerCase b)%string.
Proof.
  induction a as [ | c a IH ]; [ reflexivity | ].
  cbn [append Js.toLowerCase]. rewrite IH. reflexivity.
Qed.

Lemma lowerChar_white (c : ascii) :
  Js.isWhiteSpace c = true -> Js.lowerChar c = c.
Proof.
  destruct c as [ [ | ] [ | ] [ | ] [ | ] [ | ] [ | ] [ | ] [ | ] ];
    intros W; try reflexivity; discriminate W.
Qed.

Lemma lowerChar_idempotent (c : ascii) :
  Js.lowerChar (Js.lowerChar c) = Js.lowerChar c.
Proof.
  destruct c as [ [ | ] [ | ] [ | ] [ | ] [ | ] [ | ] [ | ] [ | ] ]; reflexivity.
Qed.

Lemma toLowerCase_white (w : string) :
  forallb Js.isWhiteSpace (Js.chars w) = true -> Js.toLowerCase w = w.
Proof.
  induction w as [ | c w IH ]; [ reflexivity | ].
  unfold Js.chars. cbn [list_ascii_of_string forallb]. intros W.
  apply andb_prop in W. destruct W as [Wc Ww].
  cbn [Js.toLowerCase]. rewrite (lowerChar_white c Wc), (IH Ww). reflexivity.
Qed.

Lemma toLowerCase_idempotent (s : string) :
  Js.toLowerCase (Js.toLowerCase s) = Js.toLowerCase s.
Proof.
  induction s as [ | c s IH ]; [ reflexivity | ].
  cbn [Js.toLowerCase]. rewrite lowerChar_idempotent, IH. reflexivity.
Qed.

Lemma trimStart_app_white (w s : string) :
  forallb Js.isWhiteSpace (Js.chars w) = true ->
  Js.trimStart (w ++ s) = Js.trimStart s.
Proof.
  induction w as [ | c w IH ]; [ reflexivity | ].
  unfold Js.chars. cbn [list_ascii_of_string forallb]. intros W.
  apply andb_prop in W. destruct W as [Wc Ww].
  cbn [append Js.trimStart]. rewrite Wc. apply IH. exact Ww.
Qed.

Lemma forallb_chars_app (a b : string) :
  forallb Js.isWhiteSpace (Js.chars a) = true ->
  forallb Js.isWhiteSpace (Js.chars b) = true ->
  forallb Js.isWhiteSpace (Js.chars (a ++ b)) = true.
Proof.
  intros A B. rewrite chars_app, forallb_app, A, B. reflexivity.
Qed.

(** White space around a text does not change what it trims to. *)
Lemma trim_ignores_outer_white (pre s post : string) :
  forallb Js.isWhiteSpace (Js.chars pre) = true ->
  forallb Js.isWhiteSpace (Js.chars post) = true ->
  Js.trim (pre ++ s ++ post) = Js.trim s.
Proof.
  intros Pre Post. unfold Js.trim. rewrite trimStart_app_white by exact Pre.
  destruct (trimStart_spec s) as (ws & Split & White & Head).
  destruct (Js.trimStart s) as [ | c rest ] eqn:T.
  - rewrite append_empty_r in Split. subst ws.
    rewrite trimStart_all_white by (apply forallb_chars_app; assumption).
    reflexivity.
  - assert (Start : Js.trimStart (s ++ post) = (String c rest ++ post)%string).
    { rewrite Split at 1.
      assert (Assoc : forall a b d : string, ((a ++ b) ++ d = a ++ (b ++ d))%string).
      { intros a b d. induction a as [ | x a IH ]; [ reflexivity | ].
        cbn [append]. f_equal. exact IH. }
      rewrite Assoc, trimStart_app_white by exact White.
      cbn [append Js.trimStart]. rewrite Head. reflexivity. }
    rewrite Start. apply trimEnd_app_white. exact Post.
Qed.

(** X27.  The colour lookup does not see white space around the value nor
    the case of its letters. *)
Theorem colour_lookup_ignores_case_and_outer_space (pre hexColor post : string) :
  forallb Js.isWhiteSpace (Js.chars pre) = true ->
  forallb Js.isWhiteSpace (Js.chars post) = true ->
  FlatAnnotations.getNotionColorFromHex (pre ++ hexColor ++ post)
  = FlatAnnotations.getNotionColorFromHex hexColor
  /\ FlatAnnotations.getNotionColorFromHex (Js.toLowerCase hexColor)
     = FlatAnnotations.getNotionColorFromHex hexColor.
Proof.
  intros Pre Post. unfold FlatAnnotations.getNotionColorFromHex. cbn zeta. split.
  - rewrite !toLowerCase_app, (toLowerCase_white pre Pre), (toLowerCase_white post Post).
    rewrite trim_ignores_outer_white by assumption. reflexivity.
  - rewrite toLowerCase_idempotent. reflexivity.
Qed.

Lemma colour_lookup_ignores_case_and_outer_space_witness :
  FlatAnnotations.getNotionColorFromHex (" " ++ "#FFD400" ++ Js.LF)
  = FlatAnnotations.getNotionColorFromHex "#FFD400".
Proof.
  apply (colour_lookup_ignores_case_and_outer_space " " "#FFD400" Js.LF).
  - reflexivity.
  - reflexivity.
Defined.

Lemma hex_of_code_unit (c : ascii) :
  exists hi lo,
    Imgur.padStart2 (Imgur.toString16 (nat_of_ascii c)) = String hi (String lo EmptyString)
    /\ isHexDigit hi = true /\ isHexDigit lo = true
    /\ ascii_of_nat (16 * hexValue hi + hexValue lo) = c.
Proof.
  assert (All : forallb
                  (fun n =>
                     match Imgur.padStart2 (Imgur.toString16 n) with
                     | String hi (String lo EmptyString) =>
                         isHexDigit hi && isHexDigit lo
                         && (16 * hexValue hi + hexValue lo =? n)
                     | _ => false
                     end)
                  (seq 0 256) = true) by (vm_compute; reflexivity).
  rewrite forallb_forall in All.
  pose proof (All (nat_of_ascii c)) as Here.
  assert (Below : nat_of_ascii c < 256) by apply nat_ascii_bounded.
  specialize (Here ltac:(apply in_seq; lia)).
  destruct (Imgur.padStart2 (Imgur.toString16 (nat_of_ascii c)))
    as [ | hi [ | lo [ | ] ] ]; try discriminate Here.
  apply andb_prop in Here. destruct Here as [Here Value].
  apply andb_prop in Here. destruct Here as [Hi Lo].
  apply Nat.eqb_eq in Value.
  exists hi, lo. repeat split; try assumption.
  rewrite Value. apply ascii_nat_embedding.
Qed.

(** X28.  The hexadecimal digest of [calculateFileHash] has two lower-case
    hexadecimal digits for every code unit of the hash, and reading the
    digits back two at a time gives the hash: two hashes with the same
    digest are the same hash. *)
Theorem hex_digest_reads_back (hash1 hash2 : string) :
  String.length (Imgur.hexHash hash1) = 2 * String.length hash1
  /\ forallb isHexDigit (Js.chars (Imgur.hexHash hash1)) = true
  /\ unhex (Imgur.hexHash hash1) = hash1
  /\ (Imgur.hexHash hash1 = Imgur.hexHash hash2 -> hash1 = hash2).
Proof.
  assert (Back : forall h, unhex (Imgur.hexHash h) = h).
  { induction h as [ | c h IH ]; [ reflexivity | ].
    cbn [Imgur.hexHash]. destruct (hex_of_code_unit c) as (hi & lo & -> & _ & _ & Value).
    cbn [append unhex]. rewrite Value, IH. reflexivity. }
  split; [ | split; [ | split ] ].
  - induction hash1 as [ | c h IH ]; [ reflexivity | ].
    cbn [Imgur.hexHash]. destruct (hex_of_code_unit c) as (hi & lo & -> & _).
    cbn [append String.length]. rewrite IH. lia.
  - induction hash1 as [ | c h IH ]; [ reflexivity | ].
    cbn [Imgur.hexHash]. destruct (hex_of_code_unit c) as (hi & lo & -> & Hi & Lo & _).
    unfold Js.chars in *. cbn [append list_ascii_of_string forallb].
    rewrite Hi, Lo, IH. reflexivity.
  - apply Back.
  - intros Same. rewrite <- (Back hash1), <- (Back hash2), Same. reflexivity.
Qed.

Lemma prefix_split (p s : string) :
  String.prefix p s = true <-> exists post, s = (p ++ post)%string.
Proof.
  revert s. induction p as [ | c p IH ]; intros s.
  - split; [ intros _; exists s; reflexivity | intros _; destruct s; reflexivity ].
  - destruct s as [ | d s ].
    + split; [ discriminate | intros (post & E); discriminate E ].
    + cbn [String.prefix append]. destruct (ascii_dec c d) as [ <- | Other ].
      * rewrite IH. split.
        -- intros (post & ->). exists post. reflexivity.
        -- intros (post & E). injection E as ->. exists post. reflexivity.
      * split; [ discriminate | ].
        intros (post & E). injection E as <- _. contradiction.
Qed.

Lemma includes_split (s pattern : string) :
  Js.includes s pattern = true
  <-> exists pre post, s = (pre ++ pattern ++ post)%string.
Proof.
  induction s as [ | c s IH ].
  - cbn [Js.includes]. destruct (String.prefix pattern EmptyString) eqn:P.
    + split; [ intros _ | reflexivity ].
      apply prefix_split in P. destruct P as (post & E).
      exists EmptyString, post. exact E.
    + split; [ discriminate | ].
      intros (pre & post & E). destruct pre as [ | x pre ]; [ | discriminate E ].
      cbn [append] in E.
      assert (Q : String.prefix pattern EmptyString = true)
        by (apply prefix_split; exists post; exact E).
      rewrite Q in P. discriminate P.
  - cbn [Js.includes]. destruct (String.prefix pattern (String c s)) eqn:P.
    + split; [ intros _ | reflexivity ].
      apply prefix_split in P. destruct P as (post & E).
      exists EmptyString, post. exact E.
    + rewrite IH. split.
      * intros (pre & post & ->). exists (String c pre), post. reflexivity.
      * intros (pre & post & E). destruct pre as [ | x pre ].
        -- cbn [append] in E.
           assert (Q : String.prefix pattern (String c s) = true)
             by (apply prefix_split; exists post; exact E).
           rewrite Q in P. discriminate P.
        -- cbn [append] in E. injection E as _ ->. exists pre, post. reflexivity.
Qed.

(** X29.  A note is an annotation note exactly when its title holds the
    word Annotation, with this capital and these small letters, anywhere
    in it; then it is synced under the toggle title of annotation notes and
    grouped by colour. *)
Theorem annotation_note_has_Annotation_in_its_title (noteTitle : string) :
  NoteUtils.isAnnotationNote noteTitle = true
  <-> exists pre post, noteTitle = (pre ++ "Annotation" ++ post)%string.
Proof. apply includes_split. Qed.
